(** * Arch Linux ZFS installer: shallow embedding and checked properties

    The installer (main.py and utils/) drives external tools through
    [subprocess] and asks the operator questions through prompts.  The
    embedding keeps the Python objects as records, threads them through
    a reader/state/exception monad, and records every externally
    visible action (process launch, printed line, directory creation,
    process exit) in a chronological trace.  The outcome of each
    external command and the operator's answers come from an
    environment, so every statement below quantifies over all possible
    behaviours of the outside world. *)

From Stdlib Require Import String Ascii List ZArith Lia Bool.
From Stdlib Require Import DecimalString DecimalZ.
Import ListNotations.
Open Scope string_scope.
Open Scope list_scope.
Open Scope Z_scope.

(** String concatenation, as [+] on Python strings and the pieces of an
    f-string. *)
Infix "+++" := String.append (at level 60, right associativity).

(** ** Python values and helpers *)

Module Py.

(** [str(n)] for a Python int. *)
Definition str (n : Z) : string := NilZero.string_of_int (Z.to_int n).

(** [int(s)] restricted to plain decimal numerals. *)
Definition int (s : string) : option Z :=
  option_map Z.of_int (NilZero.int_of_string s).

(** A value that is an int or a str: what [self.swap_size] holds, the
    int it starts as or the text a number prompt returns. *)
Inductive int_or_str : Type :=
| PyInt (n : Z)
| PyStr (s : string).

(** [s * n] for a str and an int: [n] copies of [s], none when
    [n <= 0]. *)
Definition repeat_str (s : string) (n : Z) : string :=
  Z.iter n (String.append s) EmptyString.

(** [v * n] for an int [n]. *)
Definition mul (v : int_or_str) (n : Z) : int_or_str :=
  match v with
  | PyInt m => PyInt (m * n)
  | PyStr s => PyStr (repeat_str s n)
  end.

(** [str(v)]. *)
Definition str_of (v : int_or_str) : string :=
  match v with
  | PyInt n => str n
  | PyStr s => s
  end.

(** [v > 0]: comparing a str with an int raises [TypeError], for which
    [None] stands. *)
Definition gt_zero (v : int_or_str) : option bool :=
  match v with
  | PyInt n => Some (n >? 0)
  | PyStr _ => None
  end.

(** [v] is an int above zero. *)
Definition is_positive (v : int_or_str) : bool :=
  match v with
  | PyInt n => n >? 0
  | PyStr _ => false
  end.

(** [s.startswith(p)]. *)
Definition startswith (s p : string) : bool := String.prefix p s.

(** [p in s] for strings: [p] occurs as a contiguous substring of [s]. *)
Fixpoint contains (s p : string) : bool :=
  String.prefix p s ||
  match s with
  | EmptyString => false
  | String _ s' => contains s' p
  end.

(** [x in l] for a list of strings. *)
Definition mem (x : string) (l : list string) : bool :=
  existsb (String.eqb x) l.

(** [l.index(x)]: position of the first occurrence, [None] standing for
    the [ValueError] Python raises when there is none. *)
Fixpoint index (x : string) (l : list string) : option nat :=
  match l with
  | [] => None
  | y :: l' => if String.eqb y x then Some O
               else option_map S (index x l')
  end.

(** [l.insert(i, x)]; Python clamps an index past the end. *)
Fixpoint insert (i : nat) (x : string) (l : list string) : list string :=
  match i, l with
  | O, _ => x :: l
  | S i', [] => [x]
  | S i', y :: l' => y :: insert i' x l'
  end.

(** [sep.join(l)]. *)
Fixpoint join (sep : string) (l : list string) : string :=
  match l with
  | [] => ""
  | [x] => x
  | x :: l' => x +++ sep +++ join sep l'
  end.

(** [os.path.join(a, b)] for a relative [b] and an [a] that does not
    end in a slash, the only way the installer calls it. *)
Definition path_join (a b : string) : string := a +++ "/" +++ b.

(** A dict with string keys, kept in insertion order. *)
Definition dict (V : Type) := list (string * V).

Fixpoint dict_get {V} (d : dict V) (k : string) : option V :=
  match d with
  | [] => None
  | (k', v) :: d' => if String.eqb k' k then Some v else dict_get d' k
  end.

(** The exceptions the installer raises or lets through. *)
Inductive exn : Type :=
| CalledProcessError (cmd : list string) (returncode : Z)
| Exception (msg : string)
| ExceptionOf (msg : string) (cause : exn)
| IndexError
| TypeError
| KeyError (key : string)
| KeyboardInterrupt
| SystemExit (code : Z).

(** [isinstance(e, Exception)]: everything but the interrupt and the
    exit request, which derive from [BaseException] only. *)
Definition is_Exception (e : exn) : bool :=
  match e with
  | KeyboardInterrupt | SystemExit _ => false
  | _ => true
  end.

Definition is_CalledProcessError (e : exn) : bool :=
  match e with
  | CalledProcessError _ _ => true
  | _ => false
  end.

End Py.

Export Py.

(** ** Python string methods used on the lines of text files

    A [string] is read as a sequence of code points below 256. *)

Module Str.

(** [c.isspace()] for a code point below 256. *)
Definition isspace (c : ascii) : bool :=
  let n := nat_of_ascii c in
  ((9 <=? n) && (n <=? 13) || (28 <=? n) && (n <=? 32)
   || (n =? 133) || (n =? 160))%nat.

(** [c in chars]. *)
Fixpoint has (c : ascii) (chars : string) : bool :=
  match chars with
  | EmptyString => false
  | String c' chars' => Ascii.eqb c' c || has c chars'
  end.

Fixpoint lstrip_by (p : ascii -> bool) (s : string) : string :=
  match s with
  | EmptyString => EmptyString
  | String c s' => if p c then lstrip_by p s' else s
  end.

Fixpoint rstrip_by (p : ascii -> bool) (s : string) : string :=
  match s with
  | EmptyString => EmptyString
  | String c s' =>
      match rstrip_by p s' with
      | EmptyString => if p c then EmptyString else String c EmptyString
      | r => String c r
      end
  end.

(** [s.strip()]. *)
Definition strip (s : string) : string :=
  rstrip_by isspace (lstrip_by isspace s).

(** [s.strip(chars)]. *)
Definition strip_chars (chars s : string) : string :=
  rstrip_by (fun c => has c chars) (lstrip_by (fun c => has c chars) s).

(** [s.split()]: the maximal runs of non-space characters. *)
Fixpoint split (s : string) : list string :=
  match s with
  | EmptyString => []
  | String c s' =>
      if isspace c then split s'
      else match s' with
           | EmptyString => [String c EmptyString]
           | String c' _ =>
               if isspace c' then String c EmptyString :: split s'
               else match split s' with
                    | [] => [String c EmptyString]
                    | t :: ts => String c t :: ts
                    end
           end
  end.

(** [s.split(sep)] for a one-character separator. *)
Fixpoint split_on (sep : ascii) (s : string) : list string :=
  match s with
  | EmptyString => [EmptyString]
  | String c s' =>
      if Ascii.eqb c sep then EmptyString :: split_on sep s'
      else match split_on sep s' with
           | [] => [String c EmptyString]
           | t :: ts => String c t :: ts
           end
  end.

(** The double quote. *)
Definition dq : string := String (Ascii.ascii_of_nat 34) EmptyString.

(** The equals sign. *)
Definition eq_sign : ascii := Ascii.ascii_of_nat 61.

(** [line.split("=")[1].strip().strip(chars)], the way every patch of
    the installer reads the value of a [KEY=...] line.  The index
    exists wherever it is used: the line is known to start with the key
    and its equals sign. *)
Definition value_of (chars line : string) : string :=
  strip_chars chars (strip (nth 1 (split_on eq_sign line) EmptyString)).

(** An f-string field holding a value that may be [None]. *)
Definition fstr (o : option string) : string :=
  match o with
  | Some s => s
  | None => "None"
  end.

End Str.

(** ** utils/zfs_manager.py: memory size and the default swap size *)

Module Mem.

Section Parse.

(** [int(token)], with [None] for the [ValueError] of a token that is
    not a number. *)
Variable py_int : string -> option Z.

(** The loop of [_get_memory_size] over the lines of /proc/meminfo:
    the first line starting with MemTotal: decides; any error while
    reading it makes the function return 8; with no such line the
    function falls off its end and returns [None]. *)
Fixpoint scan (lines : list string) : option Z :=
  match lines with
  | [] => None
  | line :: rest =>
      if startswith line "MemTotal:"
      then match nth_error (Str.split line) 1 with
           | None => Some 8
           | Some token =>
               match py_int token with
               | None => Some 8
               | Some mem_kb =>
                   let mem_gb := mem_kb / (1024 * 1024) in
                   Some (Z.max mem_gb 1)
               end
           end
      else scan rest
  end.

(** [_get_memory_size], given the lines of /proc/meminfo, or [None]
    when the file cannot be read. *)
Definition _get_memory_size (meminfo : option (list string)) : option Z :=
  match meminfo with
  | None => Some 8
  | Some lines => scan lines
  end.

(** The default offered by the swap prompt of [setup_pool]. *)
Definition default_swap (memory_size : Z) : Z :=
  Z.min (Z.max (memory_size / 2) 2) 32.

End Parse.

End Mem.

(** ** The outside world *)

(** What the installer does that is visible from outside, in the order
    it happens. *)
Inductive event : Type :=
| Run (argv : list string) (stdin : option string)
| Print (text : string)
| PrintExn (text : string) (e : exn)
| MakeDirs (path : string)
| RmDir (path : string)
| Exit (code : Z).

Definition trace := list event.

(** Answers the operator gives to the prompts of [setup_pool]. *)
Record pool_answers : Type := {
  a_pool_name : string;
  a_pool_type : string;
  a_compression : string;
  a_deduplication : bool;
  a_encryption : bool;
  a_passphrase : string;
  a_confirm_passphrase : string;
  a_advanced : bool;
  a_ashift : Z;
  a_autotrim : bool;
  a_use_swap : bool;
  (** what the operator types at the number prompt, given the default
      it offers; the prompt has no [filter], so it hands back the text *)
  a_swap_size : Z -> string
}.

(** The environment of a run: how each external command ends, given
    everything that happened before it, the lines of /proc/meminfo
    ([None] when the file cannot be read), what [int()] of the running
    interpreter makes of a token, and what the operator types. *)
Record env : Type := {
  proc_returncode : trace -> list string -> Z;
  proc_stderr : trace -> list string -> string;
  meminfo : option (list string);
  parse_int : string -> option Z;
  euid : Z;
  pool_prompt : pool_answers;
  export_prompt : bool
}.

(** ** The installer's objects *)

Record ZFSManager : Type := {
  pool_name : string;
  pool_type : string;
  compression : string;
  deduplication : bool;
  encryption : bool;
  encryption_passphrase : string;
  ashift : Z;
  autotrim : bool;
  swap_size : int_or_str;
  datasets : dict (option string)
}.

Record BootManager : Type := {
  bootloader : string;
  kernel : string;
  efi_partition : option string;
  boot_partition : option string;
  bm_pool_name : option string;
  bm_root_mount : string;
  separate_boot : bool;
  dual_boot : bool
}.

Record Installer : Type := {
  root_mount : string;
  installation_complete : bool
}.

(** Everything a run can change: the three objects, the partition map
    of the disk manager, and the trace so far. *)
Record world : Type := {
  zfs : ZFSManager;
  boot : BootManager;
  inst : Installer;
  partitions : dict (option string);
  log : trace
}.

Definition ZFSManager_init : ZFSManager := {|
  pool_name := "rpool"; pool_type := "single"; compression := "lz4";
  deduplication := false; encryption := false;
  encryption_passphrase := ""; ashift := 12; autotrim := true;
  swap_size := PyInt 0; datasets := [] |}.

Definition BootManager_init : BootManager := {|
  bootloader := "grub"; kernel := "linux-lts"; efi_partition := None;
  boot_partition := None; bm_pool_name := None; bm_root_mount := "/mnt";
  separate_boot := false; dual_boot := false |}.

Definition Installer_init : Installer := {|
  root_mount := "/mnt"; installation_complete := false |}.

Definition world_init : world := {|
  zfs := ZFSManager_init; boot := BootManager_init; inst := Installer_init;
  partitions := [("efi", None); ("boot", None); ("zfs", None)];
  log := [] |}.

(** ** The monad: environment, mutable world, Python exceptions *)

Inductive result (A : Type) : Type :=
| Ok (a : A)
| Raise (e : exn).
Arguments Ok {A} a.
Arguments Raise {A} e.

Definition M (A : Type) : Type := env -> world -> result A * world.

Definition ret {A} (a : A) : M A := fun _ w => (Ok a, w).

Definition bind {A B} (m : M A) (k : A -> M B) : M B :=
  fun E w =>
    match m E w with
    | (Ok a, w') => k a E w'
    | (Raise e, w') => (Raise e, w')
    end.

Definition raise {A} (e : exn) : M A := fun _ w => (Raise e, w).

(** [try: m except <sel> as e: h e]. *)
Definition try_except {A} (m : M A) (sel : exn -> bool) (h : exn -> M A)
  : M A :=
  fun E w =>
    match m E w with
    | (Raise e, w') => if sel e then h e E w' else (Raise e, w')
    | r => r
    end.

Declare Scope py_scope.
Delimit Scope py_scope with py.
Notation "x <- m ;; k" := (bind m (fun x => k))
  (at level 61, m at next level, right associativity) : py_scope.
Notation "m ;; k" := (bind m (fun _ => k))
  (at level 61, right associativity) : py_scope.
Open Scope py_scope.

Definition ask : M env := fun E w => (Ok E, w).
Definition get : M world := fun _ w => (Ok w, w).

Definition emit (e : event) : M unit :=
  fun _ w => (Ok tt, {| zfs := zfs w; boot := boot w; inst := inst w;
                        partitions := partitions w;
                        log := log w ++ [e] |}).

Definition print (s : string) : M unit := emit (Print s).
Definition print_exn (s : string) (e : exn) : M unit := emit (PrintExn s e).

Definition set_zfs (z : ZFSManager) : M unit :=
  fun _ w => (Ok tt, {| zfs := z; boot := boot w; inst := inst w;
                        partitions := partitions w; log := log w |}).

Definition set_boot (b : BootManager) : M unit :=
  fun _ w => (Ok tt, {| zfs := zfs w; boot := b; inst := inst w;
                        partitions := partitions w; log := log w |}).

Definition set_inst (i : Installer) : M unit :=
  fun _ w => (Ok tt, {| zfs := zfs w; boot := boot w; inst := i;
                        partitions := partitions w; log := log w |}).

(** [subprocess.run(cmd, check=...)]: launch, wait, and with
    [check=True] raise on a non-zero exit status. *)
Definition subprocess_run (cmd : list string) (check : bool) : M Z :=
  fun E w =>
    let rc := proc_returncode E (log w) cmd in
    let w' := {| zfs := zfs w; boot := boot w; inst := inst w;
                 partitions := partitions w;
                 log := log w ++ [Run cmd None] |} in
    if check && negb (rc =? 0)
    then (Raise (CalledProcessError cmd rc), w')
    else (Ok rc, w').

(** [Popen(cmd, stdin=PIPE, ...).communicate(input=...)]: the input goes
    to the child's standard input; yields return code and stderr. *)
Definition popen_communicate (cmd : list string) (input : string)
  : M (Z * string) :=
  fun E w =>
    (Ok (proc_returncode E (log w) cmd, proc_stderr E (log w) cmd),
     {| zfs := zfs w; boot := boot w; inst := inst w;
        partitions := partitions w;
        log := log w ++ [Run cmd (Some input)] |}).

(** A [for] loop whose body may raise. *)
Fixpoint for_each {A} (l : list A) (body : A -> M unit) : M unit :=
  match l with
  | [] => ret tt
  | x :: l' => body x ;; for_each l' body
  end.

(** The newline character, for the text piped to a child process and
    the blank line some messages start with. *)
Definition nl : string := String (Ascii.ascii_of_nat 10) EmptyString.

(** ["=" * 80]. *)
Definition rule80 : string :=
  string_of_list_ascii (repeat (Ascii.ascii_of_nat 61) 80).

(** ** utils/zfs_manager.py *)

Module ZFS.

Definition with_passphrase (z : ZFSManager) (p : string) : ZFSManager :=
  {| pool_name := pool_name z; pool_type := pool_type z;
     compression := compression z; deduplication := deduplication z;
     encryption := encryption z; encryption_passphrase := p;
     ashift := ashift z; autotrim := autotrim z;
     swap_size := swap_size z; datasets := datasets z |}.

Definition with_ashift (z : ZFSManager) (a : Z) : ZFSManager :=
  {| pool_name := pool_name z; pool_type := pool_type z;
     compression := compression z; deduplication := deduplication z;
     encryption := encryption z;
     encryption_passphrase := encryption_passphrase z;
     ashift := a; autotrim := autotrim z;
     swap_size := swap_size z; datasets := datasets z |}.

Definition with_autotrim (z : ZFSManager) (b : bool) : ZFSManager :=
  {| pool_name := pool_name z; pool_type := pool_type z;
     compression := compression z; deduplication := deduplication z;
     encryption := encryption z;
     encryption_passphrase := encryption_passphrase z;
     ashift := ashift z; autotrim := b;
     swap_size := swap_size z; datasets := datasets z |}.

Definition with_swap_size (z : ZFSManager) (n : int_or_str) : ZFSManager :=
  {| pool_name := pool_name z; pool_type := pool_type z;
     compression := compression z; deduplication := deduplication z;
     encryption := encryption z;
     encryption_passphrase := encryption_passphrase z;
     ashift := ashift z; autotrim := autotrim z;
     swap_size := n; datasets := datasets z |}.

Definition with_datasets (z : ZFSManager) (d : dict (option string))
  : ZFSManager :=
  {| pool_name := pool_name z; pool_type := pool_type z;
     compression := compression z; deduplication := deduplication z;
     encryption := encryption z;
     encryption_passphrase := encryption_passphrase z;
     ashift := ashift z; autotrim := autotrim z;
     swap_size := swap_size z; datasets := d |}.

(** The first five prompts of [setup_pool], stored on the object. *)
Definition with_basic_answers (z : ZFSManager) (a : pool_answers)
  : ZFSManager :=
  {| pool_name := a_pool_name a; pool_type := a_pool_type a;
     compression := a_compression a; deduplication := a_deduplication a;
     encryption := a_encryption a;
     encryption_passphrase := encryption_passphrase z;
     ashift := ashift z; autotrim := autotrim z;
     swap_size := swap_size z; datasets := datasets z |}.

(** The summary dict [setup_pool] returns. *)
Record pool_summary : Type := {
  s_pool_name : string; s_pool_type : string; s_compression : string;
  s_deduplication : bool; s_encryption : bool; s_ashift : Z;
  s_autotrim : bool; s_swap_size : int_or_str
}.

Definition summary_of (z : ZFSManager) : pool_summary :=
  {| s_pool_name := pool_name z; s_pool_type := pool_type z;
     s_compression := compression z; s_deduplication := deduplication z;
     s_encryption := encryption z; s_ashift := ashift z;
     s_autotrim := autotrim z; s_swap_size := swap_size z |}.

(** [setup_pool]: only prompts.  When a swap volume is wanted the
    memory size is read first, to compute the default the number prompt
    offers; a memory size of [None] makes that computation raise
    [TypeError].  What the prompt returns is stored as it comes: a
    str. *)
Definition setup_pool : M pool_summary :=
  print (nl +++ "ZFS Pool Configuration") ;;
  print "=====================" ;;
  E <- ask ;;
  let a := pool_prompt E in
  w <- get ;;
  let z1 := with_basic_answers (zfs w) a in
  set_zfs z1 ;;
  z2 <- (if encryption z1 then
           let z := with_passphrase z1 (a_passphrase a) in
           set_zfs z ;;
           if negb (String.eqb (a_confirm_passphrase a)
                               (encryption_passphrase z))
           then raise (Exception "Passphrases do not match")
           else ret z
         else ret z1) ;;
  z3 <- (if a_advanced a then
           let z := with_autotrim (with_ashift z2 (a_ashift a))
                                  (a_autotrim a) in
           set_zfs z ;; ret z
         else ret z2) ;;
  z4 <- (if a_use_swap a then
           match Mem._get_memory_size (parse_int E) (meminfo E) with
           | None => raise TypeError
           | Some memory_size =>
               let default_swap := Mem.default_swap memory_size in
               let z := with_swap_size z3
                          (PyStr (a_swap_size a default_swap)) in
               set_zfs z ;; ret z
           end
         else ret z3) ;;
  ret (summary_of z4).

(** The argument of [create_pool] as Python passes it: a string, a list
    of strings, or [None] (the value of an unset partition entry). *)
Inductive partitions_arg : Type :=
| PStr (s : string)
| PList (l : list string)
| PNone.

(** Everything [create_pool] puts on the command line before the
    devices: options, then the pool name. *)
Definition pool_options (self : ZFSManager) : list string :=
  ["zpool"; "create"; "-f"]
  ++ ["-o"; "ashift=" +++ str (ashift self)]
  ++ (if autotrim self then ["-o"; "autotrim=on"] else [])
  ++ ["-O"; "compression=" +++ compression self;
      "-O"; "normalization=formD";
      "-O"; "acltype=posixacl";
      "-O"; "xattr=sa";
      "-O"; "relatime=on";
      "-O"; "canmount=off"]
  ++ (if deduplication self then ["-O"; "dedup=on"] else [])
  ++ (if encryption self
      then ["-O"; "encryption=aes-256-gcm";
            "-O"; "keylocation=prompt";
            "-O"; "keyformat=passphrase"]
      else [])
  ++ ["-O"; "mountpoint=none"]
  ++ [pool_name self].

(** The "pool type and disks" tail of the command. *)
Definition pool_devices (self : ZFSManager) (zfs_partitions : list string)
  : result (list string) :=
  if String.eqb (pool_type self) "single"
     || Nat.eqb (length zfs_partitions) 1
  then match zfs_partitions with
       | [] => Raise IndexError
       | d :: _ => Ok [d]
       end
  else if String.eqb (pool_type self) "mirror"
  then Ok ("mirror" :: zfs_partitions)
  else if startswith (pool_type self) "raidz"
  then Ok (pool_type self :: zfs_partitions)
  else Ok [].

(** The command [create_pool] builds, or the exception building it
    raises. *)
Definition create_pool_cmd (self : ZFSManager) (arg : partitions_arg)
  : result (list string) :=
  match arg with
  | PNone => Raise TypeError
  | PStr s =>
      match pool_devices self [s] with
      | Ok v => Ok (pool_options self ++ v)
      | Raise e => Raise e
      end
  | PList l =>
      match pool_devices self l with
      | Ok v => Ok (pool_options self ++ v)
      | Raise e => Raise e
      end
  end.

Definition create_pool (zfs_partitions : partitions_arg) : M bool :=
  w <- get ;;
  let self := zfs w in
  print (nl +++ "Creating ZFS pool '" +++ pool_name self +++ "'...") ;;
  match create_pool_cmd self zfs_partitions with
  | Raise e => raise e
  | Ok cmd =>
      try_except
        ((if encryption self
          then r <- popen_communicate cmd
                      (encryption_passphrase self +++ nl) ;;
               if negb (fst r =? 0)
               then raise (Exception
                      ("Failed to create encrypted ZFS pool: " +++ snd r))
               else ret tt
          else subprocess_run cmd true ;; ret tt) ;;
         print ("ZFS pool '" +++ pool_name self
                +++ "' created successfully.") ;;
         ret true)
        is_CalledProcessError
        (fun e => raise (ExceptionOf "Error creating ZFS pool: " e))
  end.

Definition _create_dataset (name : string) (properties : list string)
  : M unit :=
  let cmd := ["zfs"; "create"; "-p"]
             ++ flat_map (fun prop => ["-o"; prop]) properties
             ++ [name] in
  try_except
    (subprocess_run cmd true ;; ret tt)
    is_CalledProcessError
    (fun e => raise (ExceptionOf ("Error creating dataset " +++ name
                                  +++ ": ") e)).

(** The [zfs create -V] command of [_create_swap_zvol]. *)
Definition swap_zvol_cmd (self : ZFSManager) : list string :=
  let swap_size_bytes := mul (mul (mul (swap_size self) 1024) 1024) 1024 in
  ["zfs"; "create";
   "-V"; str_of swap_size_bytes;
   "-b"; "4K";
   "-o"; "compression=zle";
   "-o"; "logbias=throughput";
   "-o"; "sync=always";
   "-o"; "primarycache=metadata";
   "-o"; "com.sun:auto-snapshot=false";
   pool_name self +++ "/swap"].

Definition _create_swap_zvol : M string :=
  w <- get ;;
  let self := zfs w in
  try_except
    (subprocess_run (swap_zvol_cmd self) true ;;
     let swap_device := "/dev/zvol/" +++ pool_name self +++ "/swap" in
     subprocess_run ["mkswap"; "-f"; swap_device] true ;;
     print ("Created and formatted swap volume: " +++ swap_device) ;;
     ret swap_device)
    is_CalledProcessError
    (fun e => raise (ExceptionOf "Error creating swap volume: " e)).

(** [v > 0] where it is evaluated. *)
Definition greater_than_zero (v : int_or_str) : M bool :=
  match gt_zero v with
  | Some b => ret b
  | None => raise TypeError
  end.

Definition create_datasets : M (dict (option string)) :=
  w <- get ;;
  let self := zfs w in
  print (nl +++ "Creating ZFS datasets...") ;;
  _create_dataset (pool_name self +++ "/ROOT")
                  ["canmount=off"; "mountpoint=none"] ;;
  let root_ds_name := pool_name self +++ "/ROOT/arch" in
  _create_dataset root_ds_name
                  ["canmount=noauto"; "mountpoint=/";
                   "com.sun:auto-snapshot=true"] ;;
  _create_dataset (pool_name self +++ "/home")
                  ["mountpoint=/home"; "com.sun:auto-snapshot=true"] ;;
  _create_dataset (pool_name self +++ "/var")
                  ["mountpoint=/var"; "com.sun:auto-snapshot=false"] ;;
  _create_dataset (pool_name self +++ "/var/log") ["mountpoint=/var/log"] ;;
  _create_dataset (pool_name self +++ "/var/cache")
                  ["mountpoint=/var/cache"] ;;
  wanted <- greater_than_zero (swap_size self) ;;
  (if wanted then _create_swap_zvol ;; ret tt else ret tt) ;;
  subprocess_run ["zpool"; "set"; "bootfs=" +++ root_ds_name;
                  pool_name self] true ;;
  swap <- greater_than_zero (swap_size self) ;;
  let ds := [("root", Some root_ds_name);
             ("home", Some (pool_name self +++ "/home"));
             ("var", Some (pool_name self +++ "/var"));
             ("swap", if swap
                      then Some (pool_name self +++ "/swap") else None)] in
  w' <- get ;;
  set_zfs (with_datasets (zfs w') ds) ;;
  print "ZFS datasets created successfully." ;;
  ret ds.

Definition export_pool : M bool :=
  w <- get ;;
  let self := zfs w in
  try_except
    (subprocess_run ["zpool"; "export"; pool_name self] true ;;
     print ("ZFS pool '" +++ pool_name self
            +++ "' exported successfully.") ;;
     ret true)
    is_CalledProcessError
    (fun e => print_exn "Warning: Failed to export pool: " e ;; ret false).

(** The command [import_pool] builds. *)
Definition import_pool_cmd (self : ZFSManager) (mount : bool)
  : list string :=
  ["zpool"; "import"; "-d"; "/dev/disk/by-id"; "-f"]
  ++ (if negb mount then ["-N"] else [])
  ++ [pool_name self].

Definition import_pool (mount : bool) : M bool :=
  w <- get ;;
  let self := zfs w in
  try_except
    (let cmd := import_pool_cmd self mount in
     (if encryption self
      then r <- popen_communicate cmd (encryption_passphrase self +++ nl) ;;
           if negb (fst r =? 0)
           then raise (Exception
                  ("Failed to import encrypted ZFS pool: " +++ snd r))
           else ret tt
      else subprocess_run cmd true ;; ret tt) ;;
     print ("ZFS pool '" +++ pool_name self
            +++ "' imported successfully.") ;;
     ret true)
    is_Exception
    (fun e => print_exn "Warning: Failed to import pool: " e ;; ret false).

End ZFS.

(** [os.path.dirname] on POSIX paths: everything up to the last slash,
    with trailing slashes removed unless nothing else is left. *)
Module PosixPath.

Definition slash : ascii := Ascii.ascii_of_nat 47.

Fixpoint drop_to_slash (r : list ascii) : list ascii :=
  match r with
  | [] => []
  | c :: r' => if Ascii.eqb c slash then r else drop_to_slash r'
  end.

Fixpoint drop_slashes (r : list ascii) : list ascii :=
  match r with
  | [] => []
  | c :: r' => if Ascii.eqb c slash then drop_slashes r' else r
  end.

Definition dirname (p : string) : string :=
  let head_rev := drop_to_slash (rev (list_ascii_of_string p)) in
  match drop_slashes head_rev with
  | [] => string_of_list_ascii (rev head_rev)
  | stripped => string_of_list_ascii (rev stripped)
  end.

End PosixPath.

(** [subprocess.run] on an argument vector in which an entry may be
    [None]: Python raises [TypeError] before launching anything. *)
Fixpoint all_str (l : list (option string)) : option (list string) :=
  match l with
  | [] => Some []
  | None :: _ => None
  | Some s :: l' => option_map (cons s) (all_str l')
  end.

Definition subprocess_run_opt (cmd : list (option string)) (check : bool)
  : M Z :=
  match all_str cmd with
  | Some argv => subprocess_run argv check
  | None => raise TypeError
  end.

(** ** utils/boot_manager.py *)

Module Boot.

Definition setup_boot_directories (root_mount pool_name : string)
    (efi_partition boot_partition : option string) : M unit :=
  w <- get ;;
  let self := boot w in
  let sep := match boot_partition with Some _ => true | None => false end in
  set_boot {| bootloader := bootloader self; kernel := kernel self;
              efi_partition := efi_partition;
              boot_partition := boot_partition;
              bm_pool_name := Some pool_name;
              bm_root_mount := root_mount;
              separate_boot := sep; dual_boot := dual_boot self |} ;;
  let efi_dir := path_join root_mount "boot/efi" in
  emit (MakeDirs efi_dir) ;;
  try_except
    (subprocess_run_opt [Some "mount"; efi_partition; Some efi_dir] true ;;
     print ("Mounted EFI partition at " +++ efi_dir) ;;
     if sep
     then let boot_dir := path_join root_mount "boot" in
          subprocess_run_opt [Some "mount"; boot_partition; Some boot_dir]
                             true ;;
          print ("Mounted boot partition at " +++ boot_dir)
     else ret tt)
    is_CalledProcessError
    (fun e => raise (ExceptionOf "Error mounting boot partitions: " e)).

Definition unmount_boot : M bool :=
  w <- get ;;
  let self := boot w in
  try_except
    (let efi_dir := path_join (bm_root_mount self) "boot/efi" in
     subprocess_run ["umount"; efi_dir] true ;;
     (if separate_boot self
      then let boot_dir := path_join (bm_root_mount self) "boot" in
           subprocess_run ["umount"; boot_dir] true ;; ret tt
      else ret tt) ;;
     print "Boot partitions unmounted." ;;
     ret true)
    is_CalledProcessError
    (fun e => print_exn "Warning: Failed to unmount boot partitions: " e ;;
              ret false).

(** [if hook not in hooks_list: hooks_list.append(hook)]. *)
Definition append_if_missing (hook : string) (hooks_list : list string)
  : list string :=
  if negb (mem hook hooks_list) then hooks_list ++ [hook] else hooks_list.

(** The [for hook in [...]] loop of [configure_initramfs]: only the
    [sd-] hooks, and only under systemd-boot, are appended when
    missing. *)
Fixpoint ensure_hooks (bootloader : string) (hooks : list string)
    (hooks_list : list string) : list string :=
  match hooks with
  | [] => hooks_list
  | hook :: rest =>
      ensure_hooks bootloader rest
        (if String.eqb bootloader "systemd-boot" && startswith hook "sd-"
         then append_if_missing hook hooks_list
         else hooks_list)
  end.

(** What [configure_initramfs] does to the word list of the HOOKS
    line. *)
Definition patch_hooks (bootloader : string) (hooks_list : list string)
  : list string :=
  let hooks_list :=
    if negb (mem "zfs" hooks_list)
    then if mem "filesystems" hooks_list
         then match index "filesystems" hooks_list with
              | Some idx => insert idx "zfs" hooks_list
              | None => hooks_list
              end
         else hooks_list ++ ["zfs"]
    else hooks_list in
  ensure_hooks bootloader
    ["keyboard"; "keymap"; "encrypt"; "sd-vconsole"; "sd-encrypt"]
    hooks_list.

(** The line written back. *)
Definition hooks_line (hooks_list : list string) : string :=
  "HOOKS=(" +++ join " " hooks_list +++ ")" +++ nl.

End Boot.

(** ** utils/installer.py *)

(** The parts of the run whose bodies play no role in the properties
    below (disk selection and partitioning, boot prompts, package
    installation, system configuration, boot loader installation, fstab
    and cache generation, initramfs regeneration): each may do anything
    to the world and may raise. *)
Record collaborators : Type := {
  select_disk : M unit;
  create_partitions : M unit;
  setup_boot_partitions : M unit;
  install_base_system : M unit;
  configure_system : M unit;
  install_bootloader : M unit;
  generate_fstab : M unit;
  setup_zfs_cache : M unit;
  configure_initramfs : M unit
}.

Module Inst.

Definition set_installation_complete (b : bool) : M unit :=
  w <- get ;;
  set_inst {| root_mount := root_mount (inst w);
              installation_complete := b |}.

(** [d[k]] on a dict: [KeyError] when the key is missing. *)
Definition dict_item {V} (d : dict V) (k : string) : M V :=
  match dict_get d k with
  | Some v => ret v
  | None => raise (KeyError k)
  end.

(** [d.get(k)] on a dict of optional strings. *)
Definition dict_get_or_none (d : dict (option string)) (k : string)
  : option string :=
  match dict_get d k with
  | Some v => v
  | None => None
  end.

(** The datasets [mount_filesystems] mounts after the root dataset,
    with their mountpoints, in the order of the source. *)
Definition child_mounts (pool root : string) : list (string * string) :=
  [(pool +++ "/home", root +++ "/home");
   (pool +++ "/var", root +++ "/var");
   (pool +++ "/var/log", root +++ "/var/log");
   (pool +++ "/var/cache", root +++ "/var/cache")].

Definition mount_filesystems : M unit :=
  print (nl +++ "Mounting filesystems...") ;;
  ZFS.import_pool false ;;
  w <- get ;;
  let self := inst w in
  emit (MakeDirs (root_mount self)) ;;
  root_dataset <- dict_item (datasets (zfs w)) "root" ;;
  try_except
    (subprocess_run_opt
       [Some "zfs"; Some "set"; Some ("mountpoint=" +++ root_mount self);
        root_dataset] true ;;
     subprocess_run_opt [Some "zfs"; Some "mount"; root_dataset] true ;;
     for_each (child_mounts (pool_name (zfs w)) (root_mount self))
       (fun dm =>
          let dataset := fst dm in
          let mountpoint := snd dm in
          let parent_dir := PosixPath.dirname mountpoint in
          (if negb (String.eqb parent_dir (root_mount self))
           then emit (MakeDirs parent_dir) else ret tt) ;;
          subprocess_run ["zfs"; "set"; "mountpoint=" +++ mountpoint;
                          dataset] true ;;
          subprocess_run ["zfs"; "mount"; dataset] true ;;
          ret tt) ;;
     print "ZFS datasets mounted successfully.")
    is_CalledProcessError
    (fun e => raise (ExceptionOf "Error mounting ZFS datasets: " e)) ;;
  efi <- dict_item (partitions w) "efi" ;;
  Boot.setup_boot_directories (root_mount self) (pool_name (zfs w)) efi
    (dict_get_or_none (partitions w) "boot").

(** The list of datasets [_unmount_filesystems] walks, as written in
    the source; building it raises [KeyError] when no root dataset has
    been recorded. *)
Definition unmount_datasets (z : ZFSManager) : M (list (option string)) :=
  root <- dict_item (datasets z) "root" ;;
  ret [Some (pool_name z +++ "/var/cache");
       Some (pool_name z +++ "/var/log");
       Some (pool_name z +++ "/var/cache");
       Some (pool_name z +++ "/var");
       Some (pool_name z +++ "/home");
       root].

Definition _unmount_filesystems : M unit :=
  print "Unmounting filesystems..." ;;
  Boot.unmount_boot ;;
  try_except
    (w <- get ;;
     datasets <- unmount_datasets (zfs w) ;;
     for_each datasets
       (fun dataset =>
          try_except
            (subprocess_run_opt [Some "zfs"; Some "unmount"; dataset] false ;;
             ret tt)
            is_CalledProcessError
            (fun _ => ret tt)) ;;
     E <- ask ;;
     if export_prompt E then ZFS.export_pool ;; ret tt else ret tt)
    is_Exception
    (fun e => print_exn "Warning: Error unmounting ZFS datasets: " e ;;
              print "You may need to manually unmount them before rebooting.") ;;
  print "Filesystems unmounted.".

Definition cleanup : M unit :=
  w <- get ;;
  if negb (installation_complete (inst w))
  then print "Cleaning up..." ;;
       _unmount_filesystems ;;
       emit (RmDir (root_mount (inst w)))
  else ret tt.

Definition configure_bootloader (c : collaborators) : M unit :=
  print "Configuring bootloader..." ;;
  configure_initramfs c ;;
  install_bootloader c.

Definition finalize_installation (c : collaborators) : M unit :=
  print (nl +++ "Finalizing installation...") ;;
  generate_fstab c ;;
  setup_zfs_cache c ;;
  configure_bootloader c ;;
  (* system_config.set_root_mount only stores the path on the
     configuration object, which lives behind [configure_system] *)
  configure_system c ;;
  _unmount_filesystems ;;
  set_installation_complete true ;;
  w <- get ;;
  print (nl +++ rule80) ;;
  print "Arch Linux with ZFS installation completed!" ;;
  print rule80 ;;
  print (nl +++ "You can now reboot into your new system.") ;;
  print (nl +++ "Remember to export the ZFS pool before rebooting:") ;;
  print ("  # zpool export " +++ pool_name (zfs w)).

End Inst.

(** ** main.py *)

Module Main.

(** [sys.exit(code)]. *)
Definition sys_exit {A} (code : Z) : M A :=
  emit (Exit code) ;; raise (SystemExit code).

(** The body of the [try] block. *)
Definition workflow (c : collaborators) : M unit :=
  select_disk c ;;
  create_partitions c ;;
  ZFS.setup_pool ;;
  w <- get ;;
  part <- Inst.dict_item (partitions w) "zfs" ;;
  ZFS.create_pool (match part with
                   | Some s => ZFS.PStr s
                   | None => ZFS.PNone
                   end) ;;
  ZFS.create_datasets ;;
  setup_boot_partitions c ;;
  Inst.mount_filesystems ;;
  install_base_system c ;;
  configure_system c ;;
  install_bootloader c ;;
  Inst.finalize_installation c ;;
  print (nl +++ "Installation completed successfully!") ;;
  print "You can now reboot into your new Arch Linux system." ;;
  print "Don't forget to export the ZFS pool before rebooting:" ;;
  print "  # zpool export rpool".

(** The two [except] clauses of [main], tried in order. *)
Definition handler (debug : bool) (e : exn) : M unit :=
  match e with
  | KeyboardInterrupt =>
      print (nl +++ "Installation cancelled by user.") ;;
      sys_exit 130
  | _ =>
      print_exn (nl +++ "Error during installation: ") e ;;
      (if debug then print_exn "Traceback (most recent call last):" e
       else ret tt) ;;
      sys_exit 1
  end.

Definition catches (e : exn) : bool :=
  match e with
  | KeyboardInterrupt => true
  | _ => is_Exception e
  end.

(** The lines [main] prints before anything else. *)
Definition banner : M unit :=
  print rule80 ;;
  print "Arch Linux ZFS Installer" ;;
  print rule80 ;;
  print (nl +++ "WARNING: This installer will modify your system. Make sure you have") ;;
  print ("a backup of all important data before proceeding." +++ nl).

Definition main (c : collaborators) (debug : bool) : M unit :=
  banner ;;
  E <- ask ;;
  if negb (euid E =? 0)
  then print "Error: This installer must be run with root privileges." ;;
       print "Please run this script with sudo or as the root user." ;;
       sys_exit 1
  else try_except (workflow c) catches (handler debug).

End Main.

(** ** Observing a run *)

(** The external commands of a trace with what was piped into them. *)
Fixpoint commands (t : trace) : list (list string * option string) :=
  match t with
  | [] => []
  | Run argv input :: t' => (argv, input) :: commands t'
  | _ :: t' => commands t'
  end.

(** Only their argument vectors. *)
Definition argvs (t : trace) : list (list string) := map fst (commands t).

(** What a computation adds to the trace when started in [w]. *)
Definition emitted {A} (m : M A) (E : env) (w : world) : trace :=
  skipn (length (log w)) (log (snd (m E w))).

(** A line that reports a problem: a message printed together with an
    exception, or a printed text that says "Warning". *)
Definition is_warning (ev : event) : bool :=
  match ev with
  | PrintExn _ _ => true
  | Print text => Py.contains text "Warning"
  | _ => false
  end.

(** [l1] occurs in [l] as a contiguous run of arguments. *)
Definition contiguous (l1 l : list string) : Prop :=
  exists pre post, l = pre ++ l1 ++ post.

(** [l] ends with [suffix]. *)
Definition ends_with (l suffix : list string) : Prop :=
  exists pre, l = pre ++ suffix.

(** Some occurrence of [x] comes before some occurrence of [y]. *)
Definition occurs_before (x y : string) (l : list string) : Prop :=
  exists l1 l2 l3, l = l1 ++ x :: l2 ++ y :: l3.

(** ** Concrete runs used as test inputs *)

Module Scenario.

(** An operator who names the pool rpool, picks the given layout,
    turns encryption on with the given passphrase and confirmation, and
    asks for a swap volume, typing the given size whatever default is
    offered. *)
Definition answers (layout passphrase confirm : string) (swap : Z)
  : pool_answers :=
  {| a_pool_name := "rpool"; a_pool_type := layout;
     a_compression := "lz4"; a_deduplication := false;
     a_encryption := true; a_passphrase := passphrase;
     a_confirm_passphrase := confirm; a_advanced := false;
     a_ashift := 12; a_autotrim := true;
     a_use_swap := true; a_swap_size := fun _ => Py.str swap |}.

(** An operator who declines encryption, and asks for a swap volume
    only when the given size is positive. *)
Definition plain_answers (layout : string) (swap : Z) : pool_answers :=
  {| a_pool_name := "rpool"; a_pool_type := layout;
     a_compression := "lz4"; a_deduplication := false;
     a_encryption := false; a_passphrase := "";
     a_confirm_passphrase := ""; a_advanced := false;
     a_ashift := 12; a_autotrim := true;
     a_use_swap := (0 <? swap); a_swap_size := fun _ => Py.str swap |}.

(** A machine with 16 GB of memory on which the commands selected by
    [fails] exit with status 1 and every other command succeeds. *)
Definition machine (fails : list string -> bool) (a : pool_answers) : env :=
  {| proc_returncode := fun _ cmd => if fails cmd then 1 else 0;
     proc_stderr := fun _ cmd => if fails cmd then "failed" else "";
     meminfo := Some ["MemTotal:       16384000 kB" +++ nl;
                      "MemFree:         8192000 kB" +++ nl];
     parse_int := Py.int;
     euid := 0; pool_prompt := a; export_prompt := true |}.

Definition never (_ : list string) : bool := false.

(** [zfs create] fails. *)
Definition zfs_create_fails (cmd : list string) : bool :=
  match cmd with
  | "zfs" :: "create" :: _ => true
  | _ => false
  end.

(** Unmounting the log dataset fails. *)
Definition log_unmount_fails (cmd : list string) : bool :=
  match cmd with
  | ["zfs"; "unmount"; "rpool/var/log"] => true
  | _ => false
  end.

(** The partition map a full-disk layout on /dev/sda leaves behind,
    without or with a separate boot partition. *)
Definition full_disk (separate : bool) : dict (option string) :=
  if separate
  then [("efi", Some "/dev/sda1"); ("boot", Some "/dev/sda2");
        ("zfs", Some "/dev/sda3")]
  else [("efi", Some "/dev/sda1"); ("boot", None);
        ("zfs", Some "/dev/sda2")].

Definition set_partitions (p : dict (option string)) : M unit :=
  fun _ w => (Ok tt, {| zfs := zfs w; boot := boot w; inst := inst w;
                        partitions := p; log := log w |}).

(** Collaborators that partition /dev/sda and otherwise succeed without
    visible effect. *)
Definition quiet (separate : bool) : collaborators :=
  {| select_disk := ret tt;
     create_partitions := set_partitions (full_disk separate);
     setup_boot_partitions := ret tt;
     install_base_system := ret tt;
     configure_system := ret tt;
     install_bootloader := ret tt;
     generate_fstab := ret tt;
     setup_zfs_cache := ret tt;
     configure_initramfs := ret tt |}.

(** The world after partitioning, pool set-up and dataset creation on
    machine [E]. *)
Definition created (separate : bool) (E : env) : world :=
  snd ((set_partitions (full_disk separate) ;;
        ZFS.setup_pool ;;
        ZFS.create_datasets) E world_init).

(** The same after mounting. *)
Definition mounted (separate : bool) (E : env) : world :=
  snd (Inst.mount_filesystems E (created separate E)).

(** The configuration of an encrypted pool with the given layout and
    passphrase, everything else at its default. *)
Definition encrypted_pool (layout passphrase : string) : ZFSManager :=
  {| pool_name := "rpool"; pool_type := layout; compression := "lz4";
     deduplication := false; encryption := true;
     encryption_passphrase := passphrase; ashift := 12; autotrim := true;
     swap_size := PyInt 0; datasets := [] |}.

End Scenario.

(** ** Runs that follow a plan *)

Module Plan.

(** [isinstance(result, normal return)]. *)
Definition is_ok {A} (r : result A) : bool :=
  match r with
  | Ok _ => true
  | Raise _ => false
  end.

(** On machine [E], every command of [plan] exits with status 0
    whenever it is launched. *)
Definition all_succeed (E : env) (plan : list (list string)) : Prop :=
  forall t c, In c plan -> proc_returncode E t c = 0.

(** Started in [w] on machine [E], the computation [m] only appends to
    the trace; the commands it launches are an initial part of [plan];
    it returns normally only after launching the whole plan; and it
    does return normally when every command of the plan succeeds. *)
Definition runs {A} (m : M A) (E : env) (w : world)
    (plan : list (list string)) : Prop :=
  (exists t, log (snd (m E w)) = log w ++ t)
  /\ (exists n, argvs (emitted m E w) = firstn n plan)
  /\ (is_ok (fst (m E w)) = true -> argvs (emitted m E w) = plan)
  /\ (all_succeed E plan -> is_ok (fst (m E w)) = true).

(** The same, after the commands [pre] that are launched in any case
    and whose outcome does not matter. *)
Definition follows {A} (m : M A) (E : env) (w : world)
    (pre plan : list (list string)) : Prop :=
  (exists t, log (snd (m E w)) = log w ++ t)
  /\ (exists n, argvs (emitted m E w) = pre ++ firstn n plan)
  /\ (is_ok (fst (m E w)) = true -> argvs (emitted m E w) = pre ++ plan)
  /\ (all_succeed E plan -> is_ok (fst (m E w)) = true).

(** The world [w] with its trace replaced. *)
Definition with_log (w : world) (t : trace) : world :=
  {| zfs := zfs w; boot := boot w; inst := inst w;
     partitions := partitions w; log := t |}.

End Plan.

(** ** utils/disk_manager.py: the full-disk layout *)

Module Disk.

(** [d[k] = v]: an existing key keeps its place, a new one goes last. *)
Fixpoint dict_set {V} (d : dict V) (k : string) (v : V) : dict V :=
  match d with
  | [] => [(k, v)]
  | (k', v') :: d' =>
      if String.eqb k' k then (k', v) :: d' else (k', v') :: dict_set d' k v
  end.

(** [self.partitions[k] = v]. *)
Definition set_partition (k v : string) : M unit :=
  fun _ w => (Ok tt, {| zfs := zfs w; boot := boot w; inst := inst w;
                        partitions := dict_set (partitions w) k (Some v);
                        log := log w |}).

(** [_create_full_disk_partitions], for the disk chosen by
    [select_disk], the operator's choice of a separate boot partition
    and the answer to the "erase ALL data" confirmation. *)
Definition _create_full_disk_partitions (selected_disk : string)
    (use_separate_boot confirm : bool) : M unit :=
  print (nl +++ "Creating partitions on " +++ selected_disk +++ "...") ;;
  if negb confirm
  then raise (Exception "Partitioning cancelled by user.")
  else
    try_except
      (subprocess_run ["sgdisk"; "--zap-all"; selected_disk] true ;;
       subprocess_run ["sgdisk"; "--new=1:0:+512M"; "--typecode=1:ef00";
                       "--change-name=1:EFI"; selected_disk] true ;;
       (if use_separate_boot
        then subprocess_run ["sgdisk"; "--new=2:0:+1G"; "--typecode=2:8300";
                             "--change-name=2:BOOT"; selected_disk] true ;;
             subprocess_run ["sgdisk"; "--new=3:0:0"; "--typecode=3:bf00";
                             "--change-name=3:ZFS"; selected_disk] true ;;
             set_partition "efi" (selected_disk +++ "1") ;;
             set_partition "boot" (selected_disk +++ "2") ;;
             set_partition "zfs" (selected_disk +++ "3")
        else subprocess_run ["sgdisk"; "--new=2:0:0"; "--typecode=2:bf00";
                             "--change-name=2:ZFS"; selected_disk] true ;;
             set_partition "efi" (selected_disk +++ "1") ;;
             set_partition "zfs" (selected_disk +++ "2")) ;;
       subprocess_run ["partprobe"; selected_disk] true ;;
       w <- get ;;
       efi <- Inst.dict_item (partitions w) "efi" ;;
       subprocess_run_opt [Some "mkfs.fat"; Some "-F32"; efi] true ;;
       (if use_separate_boot
        then w' <- get ;;
             b <- Inst.dict_item (partitions w') "boot" ;;
             subprocess_run_opt [Some "mkfs.ext4"; b] true ;; ret tt
        else ret tt) ;;
       print "Partitions created and formatted successfully.")
      is_CalledProcessError
      (fun e => raise (ExceptionOf "Error during partitioning: " e)).

End Disk.

(** ** utils/system_config.py: passwords and services *)

Module SysConfig.

(** [_set_password]: the password goes twice to the standard input of
    [passwd] run inside the new system. *)
Definition _set_password (root_mount username password : string) : M bool :=
  let cmd := ["arch-chroot"; root_mount; "passwd"; username] in
  r <- popen_communicate cmd (password +++ nl +++ password +++ nl) ;;
  if negb (fst r =? 0)
  then print ("Warning: Error setting password for " +++ username
              +++ ": " +++ snd r) ;;
       ret false
  else ret true.

Definition zfs_services : list string :=
  ["zfs.target"; "zfs-import-cache"; "zfs-mount"; "zfs-import.target"].

(** The package installed for an additional service. *)
Definition package_of (service : string) : string :=
  if String.eqb service "sshd" then "openssh"
  else if String.eqb service "bluetooth" then "bluez bluez-utils"
  else service.

Definition enable_cmd (root_mount service : string) : list string :=
  ["arch-chroot"; root_mount; "systemctl"; "enable"; service].

Definition install_cmd (root_mount service : string) : list string :=
  ["arch-chroot"; root_mount; "pacman"; "-S"; "--noconfirm";
   package_of service].

(** [_configure_services], for the services ticked in its prompt. *)
Definition _configure_services (root_mount : string)
    (additional_services : list string) : M unit :=
  print (nl +++ "Configuring system services...") ;;
  for_each zfs_services
    (fun service =>
       try_except
         (subprocess_run (enable_cmd root_mount service) true ;; ret tt)
         is_CalledProcessError
         (fun _ => print ("Warning: Could not enable " +++ service))) ;;
  print (nl +++ "Additional services:") ;;
  for_each additional_services
    (fun service =>
       try_except
         (subprocess_run (install_cmd root_mount service) true ;;
          subprocess_run (enable_cmd root_mount service) true ;;
          print ("Enabled " +++ service +++ " service."))
         is_CalledProcessError
         (fun e => print_exn ("Warning: Error enabling " +++ service
                              +++ ": ") e)) ;;
  print "Services configured successfully.".

(** What a loop adds to the trace [t] when the turn for an item adds
    [step t item] to the trace [t] it starts from. *)
Fixpoint loop_events (step : trace -> string -> trace)
    (items : list string) (t : trace) : trace :=
  match items with
  | [] => []
  | item :: items' =>
      step t item ++ loop_events step items' (t ++ step t item)
  end.

(** The turn of the first loop for one ZFS service, started at trace
    [t]: the enabling, and a warning when it fails. *)
Definition enable_events (E : env) (root_mount : string) (t : trace)
    (service : string) : trace :=
  let enable := enable_cmd root_mount service in
  Run enable None
  :: (if proc_returncode E t enable =? 0 then []
      else [Print ("Warning: Could not enable " +++ service)]).

(** The turn of the second loop for one selected service, started at
    trace [t]: the install; after an install that exited with 0 the
    enabling, and after an enabling that exited with 0 the confirmation;
    the first failure is reported as a warning and ends the turn. *)
Definition service_events (E : env) (root_mount : string) (t : trace)
    (service : string) : trace :=
  let install := install_cmd root_mount service in
  let enable := enable_cmd root_mount service in
  let rc1 := proc_returncode E t install in
  let rc2 := proc_returncode E (t ++ [Run install None]) enable in
  let warning := "Warning: Error enabling " +++ service +++ ": " in
  Run install None
  :: (if rc1 =? 0
      then Run enable None
           :: (if rc2 =? 0
               then [Print ("Enabled " +++ service +++ " service.")]
               else [PrintExn warning (CalledProcessError enable rc2)])
      else [PrintExn warning (CalledProcessError install rc1)]).

(** Whether the install of each selected service exits with 0, in
    order, for a second loop started at trace [t]. *)
Fixpoint install_outcomes (E : env) (root_mount : string)
    (services : list string) (t : trace) : list bool :=
  match services with
  | [] => []
  | service :: services' =>
      (proc_returncode E t (install_cmd root_mount service) =? 0)
      :: install_outcomes E root_mount services'
           (t ++ service_events E root_mount t service)
  end.

(** What the second loop launches for the given services when the
    installs end as [installed] says: the install, and the enabling
    only after an install that succeeded. *)
Fixpoint additional_commands (root_mount : string)
    (services : list string) (installed : list bool) : list (list string) :=
  match services, installed with
  | service :: services', ok :: installed' =>
      install_cmd root_mount service
      :: (if ok then [enable_cmd root_mount service] else [])
      ++ additional_commands root_mount services' installed'
  | _, _ => []
  end.

End SysConfig.

(** ** utils/installer.py: the base system *)

Module BaseSystem.

(** The package list [install_base_system] hands to pacstrap. *)
Definition packages (kernel : string) (additional_packages : list string)
  : list string :=
  ["base"; "base-devel"]
  ++ [kernel; kernel +++ "-headers"; "linux-firmware"]
  ++ ["zfs-" +++ kernel; "zfs-utils"]
  ++ ["vim"; "nano"; "networkmanager"; "dhcpcd"; "man-db"; "man-pages";
      "which"; "wget"; "curl"; "tar"; "gzip"; "unzip"; "python";
      "python-pip"]
  ++ additional_packages.

Definition reflector_cmd (country : string) : list string :=
  if String.eqb country "all"
  then ["reflector"; "--latest"; "50"; "--sort"; "rate";
        "--save"; "/etc/pacman.d/mirrorlist"]
  else ["reflector"; "--country"; country; "--latest"; "20";
        "--sort"; "rate"; "--save"; "/etc/pacman.d/mirrorlist"].

(** [_update_mirrorlist], for the answers to its two prompts.  The
    backup copy it makes of the existing mirrorlist is a file operation
    of the live system and is taken to succeed. *)
Definition _update_mirrorlist (update_mirrors : bool) (country : string)
  : M unit :=
  if update_mirrors
  then try_except
         (print "Updating mirrorlist..." ;;
          subprocess_run (reflector_cmd country) true ;;
          print ("Mirrorlist updated with mirrors from " +++ country +++ "."))
         is_CalledProcessError
         (fun e => print_exn "Warning: Error updating mirrorlist: " e ;;
                   print "Continuing with existing mirrorlist.")
  else ret tt.

(** [install_base_system], for the answers to its prompts. *)
Definition install_base_system (update_mirrors : bool) (country : string)
    (additional_packages : list string) : M unit :=
  print (nl +++ "Installing base system...") ;;
  _update_mirrorlist update_mirrors country ;;
  w <- get ;;
  let pkgs := packages (kernel (boot w)) additional_packages in
  try_except
    (print ("Installing packages: " +++ join ", " pkgs) ;;
     subprocess_run (["pacstrap"; root_mount (inst w)] ++ pkgs) true ;;
     print "Base system installed successfully.")
    is_CalledProcessError
    (fun e => raise (ExceptionOf "Error installing base system: " e)).

End BaseSystem.

(** ** More concrete inputs *)

Module Cases.

(** Collaborators of a run in which the operator interrupts the disk
    selection. *)
Definition interrupted : collaborators :=
  {| select_disk := raise KeyboardInterrupt;
     create_partitions := ret tt;
     setup_boot_partitions := ret tt;
     install_base_system := ret tt;
     configure_system := ret tt;
     install_bootloader := ret tt;
     generate_fstab := ret tt;
     setup_zfs_cache := ret tt;
     configure_initramfs := ret tt |}.

(** A machine on which every command succeeds. *)
Definition healthy : env :=
  Scenario.machine Scenario.never (Scenario.plain_answers "single" 0).

(** A machine whose /proc/meminfo can be read but has no MemTotal:
    line, with an operator who asks for 4 GiB of swap. *)
Definition no_memtotal : env :=
  {| proc_returncode := fun _ _ => 0;
     proc_stderr := fun _ _ => "";
     meminfo := Some ["MemFree:         8192000 kB" +++ nl];
     parse_int := Py.int;
     euid := 0;
     pool_prompt := Scenario.plain_answers "single" 4;
     export_prompt := true |}.

(** A machine on which every package installation fails. *)
Definition no_network : env :=
  Scenario.machine
    (fun cmd => existsb (String.eqb "pacman") cmd)
    (Scenario.plain_answers "single" 0).

End Cases.

(** ** utils/boot_manager.py: the patch of /etc/default/grub *)

Module Grub.

(** The quote characters stripped from a value. *)
Definition quotes : string := Str.dq +++ "'".

(** One of the [for ... break] loops followed by [if not found:
    append]: the first line starting with [key] is replaced by what
    [f] makes of it; without such a line [missing] is appended. *)
Fixpoint patch_or_append (key : string) (f : string -> string)
    (missing : string) (lines : list string) : list string :=
  match lines with
  | [] => [missing]
  | line :: rest =>
      if startswith line key then f line :: rest
      else line :: patch_or_append key f missing rest
  end.

Definition preload_line (line : string) : string :=
  if negb (Py.contains line "zfs")
  then let modules := Str.value_of quotes line in
       let modules := modules +++ " zfs" in
       "GRUB_PRELOAD_MODULES=" +++ Str.dq +++ modules +++ Str.dq +++ nl
  else line.

Definition cmdline_line (pool_name : option string) (line : string)
  : string :=
  let cmdline := Str.value_of quotes line in
  if negb (Py.contains cmdline "zfs=")
  then let cmdline := cmdline +++ " zfs=" +++ Str.fstr pool_name
                      +++ "/ROOT/arch" in
       "GRUB_CMDLINE_LINUX=" +++ Str.dq +++ cmdline +++ Str.dq +++ nl
  else line.

(** What [_install_grub] makes of the lines of /etc/default/grub (the
    empty list when the file does not exist) before writing them
    back. *)
Definition patch_lines (dual_boot : bool) (pool_name : option string)
    (grub_lines : list string) : list string :=
  let grub_lines :=
    patch_or_append "GRUB_PRELOAD_MODULES=" preload_line
      ("GRUB_PRELOAD_MODULES=" +++ Str.dq +++ "part_gpt zfs" +++ Str.dq
       +++ nl)
      grub_lines in
  let grub_lines :=
    patch_or_append "GRUB_CMDLINE_LINUX=" (cmdline_line pool_name)
      ("GRUB_CMDLINE_LINUX=" +++ Str.dq +++ "zfs=" +++ Str.fstr pool_name
       +++ "/ROOT/arch" +++ Str.dq +++ nl)
      grub_lines in
  if dual_boot
  then patch_or_append "GRUB_DISABLE_OS_PROBER="
         (fun _ => "GRUB_DISABLE_OS_PROBER=false" +++ nl)
         ("GRUB_DISABLE_OS_PROBER=false" +++ nl)
         grub_lines
  else grub_lines.

End Grub.

(** ** utils/boot_manager.py: the patch of /etc/mkinitcpio.conf *)

Module Initramfs.

(** The characters stripped around the word list of a line. *)
Definition brackets : string := "()" +++ Str.dq +++ "'".

(** One of the [for ... break] loops: the first line starting with
    [key] is replaced by what [f] makes of it. *)
Fixpoint patch_first (key : string) (f : string -> string)
    (lines : list string) : list string :=
  match lines with
  | [] => []
  | line :: rest =>
      if startswith line key then f line :: rest
      else line :: patch_first key f rest
  end.

(** The words of a HOOKS= or MODULES= line. *)
Definition words_of (line : string) : list string :=
  Str.split (Str.value_of brackets line).

Definition new_hooks_line (bootloader line : string) : string :=
  Boot.hooks_line (Boot.patch_hooks bootloader (words_of line)).

Definition new_modules_line (line : string) : string :=
  "MODULES=(" +++ join " " (Boot.append_if_missing "zfs" (words_of line))
  +++ ")" +++ nl.

(** What [configure_initramfs] makes of the lines of mkinitcpio.conf
    (the empty list when the file does not exist) before writing them
    back. *)
Definition patch_lines (bootloader : string) (mkinitcpio_lines : list string)
  : list string :=
  patch_first "MODULES=" new_modules_line
    (patch_first "HOOKS=" (new_hooks_line bootloader) mkinitcpio_lines).

End Initramfs.

(** ** Well-formed word lists of mkinitcpio.conf *)

Module Words.

(** Every character of [s] satisfies [p]. *)
Fixpoint all_chars (p : ascii -> bool) (s : string) : bool :=
  match s with
  | EmptyString => true
  | String c s' => p c && all_chars p s'
  end.

(** A character that none of the parsing steps of the patch treats
    specially: no white space, no equals sign, none of the characters
    stripped around the word list. *)
Definition plain_char (c : ascii) : bool :=
  negb (Str.isspace c) && negb (Ascii.eqb c Str.eq_sign)
  && negb (Str.has c Initramfs.brackets).

(** A hook or module name as mkinitcpio knows them: not empty and made
    of plain characters. *)
Definition plain (w : string) : bool :=
  match w with
  | EmptyString => false
  | _ => all_chars plain_char w
  end.

(** Every HOOKS= or MODULES= line of the file lists plain words. *)
Definition well_formed (lines : list string) : bool :=
  forallb (fun line =>
             if startswith line "HOOKS=" || startswith line "MODULES="
             then forallb plain (Initramfs.words_of line)
             else true) lines.

End Words.

(** * Properties *)

(** ** Generic facts *)

Lemma skipn_length_app {A} (l x : list A) : skipn (length l) (l ++ x) = x.
Proof.
  induction l as [| a l IH]; simpl; [reflexivity | exact IH].
Qed.

Lemma int_str (n : Z) : Py.int (Py.str n) = Some n.
Proof.
  unfold Py.int, Py.str.
  assert (Hn : Decimal.norm (Z.to_int n) = Z.to_int n).
  { rewrite <- (DecimalZ.to_of (Z.to_int n)), DecimalZ.of_to. reflexivity. }
  rewrite NilZero.isi.
  - simpl. now rewrite DecimalZ.of_to.
  - intros H. rewrite H in Hn. discriminate Hn.
  - intros H. rewrite H in Hn. discriminate Hn.
Qed.

(** Symbolic execution of a monadic program: unfold the combinators,
    reduce projections and handlers, split on the exit status of the
    next command, and finally read off what was appended to the
    trace. *)
Ltac py_unfold :=
  unfold emitted, try_except, for_each, bind, get, ask, subprocess_run_opt,
    subprocess_run, popen_communicate, print, print_exn, emit, set_zfs,
    set_boot, set_inst, ret, raise.

Ltac py_simpl :=
  cbn [fst snd log zfs boot inst partitions is_CalledProcessError
       is_Exception andb negb all_str option_map].

Ltac py_case :=
  match goal with
  | |- context [Z.eqb (proc_returncode ?E ?t ?c) 0] =>
      let H := fresh "Hrc" in
      destruct (Z.eqb (proc_returncode E t c) 0) eqn:H
  end.

Ltac py_trace :=
  repeat rewrite <- app_assoc; rewrite skipn_length_app;
  cbn [app argvs commands map fst].

(** Membership in an explicit list. *)
Ltac in_list := cbn [In]; repeat (first [left; reflexivity | right]).

(** Close a case in which an assumed exit status contradicts the one
    the case split recorded. *)
Ltac rc_clash :=
  match goal with
  | H : (?x =? 0) = true, Hne : ?x <> 0 |- _ =>
      apply Z.eqb_eq in H; contradiction
  | H : (?x =? 0) = false, Heq : ?x = 0 |- _ =>
      rewrite Heq in H; discriminate H
  | H : (_ =? 0) = false, Himp : ?c = ?c -> _ = 0 |- _ =>
      specialize (Himp eq_refl);
      repeat rewrite <- app_assoc in H; cbn [app] in H;
      rewrite Himp in H; discriminate H
  end.

(** ** Pool creation command *)

Section PoolCommand.

Variable self : ZFSManager.

Lemma pool_devices_singleton (d : string) :
  ZFS.pool_devices self [d] = Ok [d].
Proof.
  unfold ZFS.pool_devices. simpl. now rewrite orb_true_r.
Qed.

Lemma pool_devices_single (d : string) (rest : list string) :
  pool_type self = "single" ->
  ZFS.pool_devices self (d :: rest) = Ok [d].
Proof.
  intros H. unfold ZFS.pool_devices. now rewrite H.
Qed.

Lemma pool_devices_many (d1 d2 : string) (rest : list string) :
  ZFS.pool_devices self (d1 :: d2 :: rest) =
    if String.eqb (pool_type self) "single" then Ok [d1]
    else if String.eqb (pool_type self) "mirror"
         then Ok ("mirror" :: d1 :: d2 :: rest)
         else if startswith (pool_type self) "raidz"
              then Ok (pool_type self :: d1 :: d2 :: rest)
              else Ok [].
Proof.
  unfold ZFS.pool_devices.
  destruct (String.eqb (pool_type self) "single"); reflexivity.
Qed.

End PoolCommand.

(** C10.  [create_pool] treats a string exactly as the one-element list
    holding it: on every machine and in every state the two calls end
    the same way and leave the same state.  Called with a one-element
    list (or a string) it launches exactly one command, the options and
    the pool name followed by that one device, whatever the pool type
    (under encryption with the passphrase on its standard input), and
    it returns [True] exactly when that command exits with 0. *)
Theorem create_pool_string_or_singleton (E : env) (w : world) (d : string) :
  let cmd := ZFS.pool_options (zfs w) ++ [d] in
  let stdin := if encryption (zfs w)
               then Some (encryption_passphrase (zfs w) +++ nl)
               else None in
  let t := log w ++ [Print (nl +++ "Creating ZFS pool '"
                            +++ pool_name (zfs w) +++ "'...")] in
  ZFS.create_pool (ZFS.PStr d) E w = ZFS.create_pool (ZFS.PList [d]) E w
  /\ commands (emitted (ZFS.create_pool (ZFS.PList [d])) E w)
     = [(cmd, stdin)]
  /\ commands (emitted (ZFS.create_pool (ZFS.PStr d)) E w) = [(cmd, stdin)]
  /\ (fst (ZFS.create_pool (ZFS.PList [d]) E w) = Ok true
      <-> proc_returncode E t cmd = 0).
Proof.
  cbv zeta.
  assert (Hlist : ZFS.create_pool_cmd (zfs w) (ZFS.PList [d])
                  = Ok (ZFS.pool_options (zfs w) ++ [d])).
  { unfold ZFS.create_pool_cmd. now rewrite pool_devices_singleton. }
  assert (Hstr : ZFS.create_pool_cmd (zfs w) (ZFS.PStr d)
                 = Ok (ZFS.pool_options (zfs w) ++ [d])).
  { unfold ZFS.create_pool_cmd. now rewrite pool_devices_singleton. }
  split; [| split; [| split]].
  - unfold ZFS.create_pool, bind, get. cbn [fst snd].
    now rewrite Hlist, Hstr.
  - unfold ZFS.create_pool. py_unfold. py_simpl. rewrite Hlist.
    destruct (encryption (zfs w)); py_simpl;
      py_case; py_simpl; py_trace; reflexivity.
  - unfold ZFS.create_pool. py_unfold. py_simpl. rewrite Hstr.
    destruct (encryption (zfs w)); py_simpl;
      py_case; py_simpl; py_trace; reflexivity.
  - unfold ZFS.create_pool. py_unfold. py_simpl. rewrite Hlist.
    destruct (encryption (zfs w)); py_simpl;
      py_case; py_simpl;
      (split; [intros H; first [discriminate H | now apply Z.eqb_eq]
              | intros H; first [reflexivity
                                | apply Z.eqb_eq in H; congruence]]).
Qed.

(** C5, as the code has it.  For a non-empty partition list [d :: rest]
    the command is the options and pool name followed by: the first
    device alone when the pool type is [single] or the list has one
    element; [mirror] and all devices in order when the pool type is
    [mirror] and there are at least two; the pool type itself and all
    devices in order when it is [raidz1] or [raidz2] and there are at
    least two.  Scenario A: a mirror of /dev/sda2 and /dev/sdb2 carries
    the contiguous arguments mirror /dev/sda2 /dev/sdb2. *)
Theorem create_pool_cmd_layout (self : ZFSManager) (d : string)
    (rest : list string) :
  (pool_type self = "single" \/ rest = [] ->
     ZFS.create_pool_cmd self (ZFS.PList (d :: rest))
     = Ok (ZFS.pool_options self ++ [d]))
  /\ (pool_type self = "mirror" -> rest <> [] ->
        ZFS.create_pool_cmd self (ZFS.PList (d :: rest))
        = Ok (ZFS.pool_options self ++ "mirror" :: d :: rest))
  /\ (pool_type self = "raidz1" \/ pool_type self = "raidz2" ->
        rest <> [] ->
        ZFS.create_pool_cmd self (ZFS.PList (d :: rest))
        = Ok (ZFS.pool_options self ++ pool_type self :: d :: rest))
  /\ (pool_type self = "mirror" ->
        exists cmd,
          ZFS.create_pool_cmd self (ZFS.PList ["/dev/sda2"; "/dev/sdb2"])
          = Ok cmd
          /\ contiguous ["mirror"; "/dev/sda2"; "/dev/sdb2"] cmd
          /\ ends_with cmd ["mirror"; "/dev/sda2"; "/dev/sdb2"]).
Proof.
  unfold ZFS.create_pool_cmd. repeat split.
  - intros [H | ->].
    + now rewrite pool_devices_single.
    + now rewrite pool_devices_singleton.
  - intros H Hrest. destruct rest as [| d2 rest']; [congruence |].
    rewrite pool_devices_many, H. reflexivity.
  - intros H Hrest. destruct rest as [| d2 rest']; [congruence |].
    rewrite pool_devices_many. destruct H as [H | H]; rewrite H; reflexivity.
  - intros H. rewrite pool_devices_many, H. simpl.
    eexists. split; [reflexivity |]. split.
    + exists (ZFS.pool_options self), []. reflexivity.
    + exists (ZFS.pool_options self). reflexivity.
Qed.

Lemma create_pool_cmd_layout_witness :
  ZFS.create_pool_cmd (Scenario.encrypted_pool "mirror" "correct horse")
                      (ZFS.PList ["/dev/sda2"; "/dev/sdb2"])
  = Ok (ZFS.pool_options (Scenario.encrypted_pool "mirror" "correct horse")
        ++ ["mirror"; "/dev/sda2"; "/dev/sdb2"]).
Proof.
  apply (proj1 (proj2 (create_pool_cmd_layout
                         (Scenario.encrypted_pool "mirror" "correct horse")
                         "/dev/sda2" ["/dev/sdb2"]))).
  - reflexivity.
  - discriminate.
Defined.

(** C5 as stated fails on a one-element list: a mirror pool given the
    single partition /dev/sda2 gets the single-device layout, so the
    command does not end with mirror /dev/sda2. *)
Lemma mirror_of_one_partition_is_single :
  exists cmd,
    ZFS.create_pool_cmd (Scenario.encrypted_pool "mirror" "correct horse")
                        (ZFS.PList ["/dev/sda2"]) = Ok cmd
    /\ ~ ends_with cmd ["mirror"; "/dev/sda2"].
Proof.
  eexists. split; [reflexivity |].
  intros [pre H]. apply (f_equal (@rev string)) in H.
  rewrite (rev_app_distr pre) in H. vm_compute in H. discriminate H.
Qed.

(** ** The size of the swap volume *)




(** With an int as swap size the conversion is exact: N GiB give the
    decimal numeral of N * 1073741824. *)
Lemma swap_zvol_cmd_of_int (self : ZFSManager) (N : Z) :
  swap_size self = PyInt N ->
  exists rest,
    ZFS.swap_zvol_cmd self
    = "zfs" :: "create" :: "-V" :: Py.str (N * 1073741824) :: rest
    /\ Py.int (Py.str (N * 1073741824)) = Some (N * 1073741824).
Proof.
  intros H. unfold ZFS.swap_zvol_cmd. rewrite H. cbn [Py.mul Py.str_of].
  replace (N * 1024 * 1024 * 1024) with (N * 1073741824) by lia.
  eexists. split; [reflexivity | apply int_str].
Qed.


(** The swap answer is stored as the text typed. *)
Lemma typed_swap_size :
  swap_size
    (zfs (snd (ZFS.setup_pool
                 (Scenario.machine Scenario.never
                    (Scenario.plain_answers "single" 4))
                 world_init)))
  = PyStr "4".
Proof. reflexivity. Qed.


(** ** Pool configuration and secrets *)

(** C2.  With encryption chosen and a confirmation that differs from
    the passphrase, [setup_pool] raises "Passphrases do not match" and
    has launched no external command: all it did was print its two
    header lines. *)
Theorem setup_pool_rejects_mismatch (E : env) (w : world) :
  a_encryption (pool_prompt E) = true ->
  a_confirm_passphrase (pool_prompt E) <> a_passphrase (pool_prompt E) ->
  fst (ZFS.setup_pool E w) = Raise (Exception "Passphrases do not match")
  /\ commands (emitted ZFS.setup_pool E w) = []
  /\ emitted ZFS.setup_pool E w
     = [Print (nl +++ "ZFS Pool Configuration");
        Print "====================="].
Proof.
  intros Henc Hneq. apply String.eqb_neq in Hneq.
  unfold ZFS.setup_pool. py_unfold.
  unfold ZFS.with_passphrase, ZFS.with_basic_answers.
  cbn [fst snd log zfs encryption encryption_passphrase].
  rewrite Henc, Hneq. cbn [negb fst snd log].
  repeat rewrite <- app_assoc. rewrite skipn_length_app.
  repeat split.
Qed.

Lemma setup_pool_rejects_mismatch_witness :
  fst (ZFS.setup_pool
         (Scenario.machine Scenario.never
            (Scenario.answers "single" "correct horse" "correct house" 4))
         world_init)
  = Raise (Exception "Passphrases do not match")
  /\ commands (emitted ZFS.setup_pool
         (Scenario.machine Scenario.never
            (Scenario.answers "single" "correct horse" "correct house" 4))
         world_init) = []
  /\ emitted ZFS.setup_pool
         (Scenario.machine Scenario.never
            (Scenario.answers "single" "correct horse" "correct house" 4))
         world_init
     = [Print (nl +++ "ZFS Pool Configuration");
        Print "====================="].
Proof.
  apply setup_pool_rejects_mismatch.
  - reflexivity.
  - discriminate.
Defined.

(** C3, as the code has it.  The argument vectors of pool creation and
    pool import are computed from the other settings alone: replacing
    the passphrase leaves them unchanged.  With encryption on, each of
    the two operations launches exactly one process, and that process
    receives the passphrase followed by a newline on its standard
    input. *)
Theorem passphrase_goes_to_stdin (self : ZFSManager) (p : string) :
  (forall arg,
     ZFS.create_pool_cmd (ZFS.with_passphrase self p) arg
     = ZFS.create_pool_cmd self arg)
  /\ (forall mount,
        ZFS.import_pool_cmd (ZFS.with_passphrase self p) mount
        = ZFS.import_pool_cmd self mount)
  /\ (forall E w arg cmd,
        zfs w = ZFS.with_passphrase self p ->
        encryption self = true ->
        ZFS.create_pool_cmd self arg = Ok cmd ->
        commands (emitted (ZFS.create_pool arg) E w)
        = [(cmd, Some (p +++ nl))])
  /\ (forall E w mount,
        zfs w = ZFS.with_passphrase self p ->
        encryption self = true ->
        commands (emitted (ZFS.import_pool mount) E w)
        = [(ZFS.import_pool_cmd self mount, Some (p +++ nl))]).
Proof.
  assert (Hcmd : forall arg,
            ZFS.create_pool_cmd (ZFS.with_passphrase self p) arg
            = ZFS.create_pool_cmd self arg) by (intros [s | l |]; reflexivity).
  split; [exact Hcmd |].
  split; [reflexivity |].
  split.
  - intros E w arg cmd Hz Henc Hok.
    unfold ZFS.create_pool. py_unfold. py_simpl.
    rewrite Hz, Hcmd, Hok.
    cbn [encryption encryption_passphrase ZFS.with_passphrase].
    rewrite Henc. py_simpl.
    py_case; py_simpl; py_trace; reflexivity.
  - intros E w mount Hz Henc.
    unfold ZFS.import_pool. py_unfold. py_simpl.
    rewrite Hz.
    cbn [encryption encryption_passphrase ZFS.with_passphrase].
    rewrite Henc. py_simpl.
    py_case; py_simpl; py_trace; reflexivity.
Qed.

Lemma passphrase_goes_to_stdin_witness :
  commands (emitted (ZFS.create_pool (ZFS.PStr "/dev/sda2"))
              (Scenario.machine Scenario.never
                 (Scenario.answers "single" "correct horse" "correct horse" 4))
              (snd (ZFS.setup_pool
                      (Scenario.machine Scenario.never
                         (Scenario.answers "single" "correct horse"
                                           "correct horse" 4))
                      world_init)))
  = [(ZFS.pool_options (Scenario.encrypted_pool "single" "")
      ++ ["/dev/sda2"],
      Some ("correct horse" +++ nl))].
Proof.
  apply (proj1 (proj2 (proj2 (passphrase_goes_to_stdin
                                (ZFS.with_swap_size
                                   (Scenario.encrypted_pool "single" "")
                                   (PyStr "4"))
                                "correct horse")))).
  - reflexivity.
  - reflexivity.
  - reflexivity.
Defined.

(** C3 as stated fails: nothing keeps the passphrase from being spelled
    by the command line itself.  The passphrase "passphrase" (ten
    characters, so accepted by the prompt) is a substring of the fixed
    option keyformat=passphrase of the pool-creation command. *)
Lemma passphrase_can_occur_in_argv :
  encryption (Scenario.encrypted_pool "single" "passphrase") = true
  /\ exists cmd arg,
       ZFS.create_pool_cmd (Scenario.encrypted_pool "single" "passphrase")
                           (ZFS.PStr "/dev/sda2") = Ok cmd
       /\ In arg cmd
       /\ Py.contains arg
            (encryption_passphrase
               (Scenario.encrypted_pool "single" "passphrase")) = true.
Proof.
  split; [reflexivity |].
  eexists. exists "keyformat=passphrase".
  split; [reflexivity |]. split.
  - vm_compute. tauto.
  - reflexivity.
Qed.

(** ** Dataset creation *)

(** The commands [create_datasets] launches are always an initial
    part of one fixed plan: create the container ROOT, the root dataset
    ROOT/arch, home, var, var/log, var/cache, then the swap volume (and
    its mkswap) exactly when the swap size is an int above zero, then
    set bootfs.  With an int as swap size the whole plan is run when no
    command fails; and whenever the bootfs command is launched, the
    creation of the root dataset was launched before it. *)
Lemma create_datasets_plan (E : env) (w : world) :
  let p := pool_name (zfs w) in
  let creates :=
    [["zfs"; "create"; "-p"; "-o"; "canmount=off"; "-o"; "mountpoint=none";
      p +++ "/ROOT"];
     ["zfs"; "create"; "-p"; "-o"; "canmount=noauto"; "-o"; "mountpoint=/";
      "-o"; "com.sun:auto-snapshot=true"; p +++ "/ROOT/arch"];
     ["zfs"; "create"; "-p"; "-o"; "mountpoint=/home";
      "-o"; "com.sun:auto-snapshot=true"; p +++ "/home"];
     ["zfs"; "create"; "-p"; "-o"; "mountpoint=/var";
      "-o"; "com.sun:auto-snapshot=false"; p +++ "/var"];
     ["zfs"; "create"; "-p"; "-o"; "mountpoint=/var/log"; p +++ "/var/log"];
     ["zfs"; "create"; "-p"; "-o"; "mountpoint=/var/cache";
      p +++ "/var/cache"]] in
  let swap :=
    if Py.is_positive (swap_size (zfs w))
    then [ZFS.swap_zvol_cmd (zfs w);
          ["mkswap"; "-f"; "/dev/zvol/" +++ p +++ "/swap"]]
    else [] in
  let bootfs := ["zpool"; "set"; "bootfs=" +++ p +++ "/ROOT/arch"; p] in
  let issued := argvs (emitted ZFS.create_datasets E w) in
  (exists n, issued = firstn n (creates ++ swap ++ [bootfs]))
  /\ ((forall t c, proc_returncode E t c = 0) ->
      Py.gt_zero (swap_size (zfs w)) <> None ->
      issued = creates ++ swap ++ [bootfs])
  /\ (In bootfs issued ->
      exists before after,
        issued = before ++ bootfs :: after
        /\ In ["zfs"; "create"; "-p"; "-o"; "canmount=noauto";
               "-o"; "mountpoint=/"; "-o"; "com.sun:auto-snapshot=true";
               p +++ "/ROOT/arch"] before).
Proof.
  intros p creates swap bootfs issued.
  subst issued swap creates bootfs p.
  unfold ZFS.create_datasets, ZFS._create_swap_zvol, ZFS._create_dataset,
    ZFS.greater_than_zero, ZFS.with_datasets.
  py_unfold. py_simpl. cbn [flat_map app].
  destruct (swap_size (zfs w)) as [n | s] eqn:Hsize;
    cbn [Py.gt_zero Py.is_positive];
    [destruct (n >? 0) eqn:Hswap |]; py_simpl;
    repeat (py_case; py_simpl); py_trace.
  all: split;
    [ first [ exists 0%nat; reflexivity | exists 1%nat; reflexivity
            | exists 2%nat; reflexivity | exists 3%nat; reflexivity
            | exists 4%nat; reflexivity | exists 5%nat; reflexivity
            | exists 6%nat; reflexivity | exists 7%nat; reflexivity
            | exists 8%nat; reflexivity | exists 9%nat; reflexivity ]
    | split ].
  all: try (intros Hall Hint; try (now contradiction Hint);
            repeat match goal with
                   | H : (proc_returncode _ _ _ =? 0) = false |- _ =>
                       rewrite Hall in H; discriminate H
                   end; reflexivity).
  all: intros Hin.
  all: try (exfalso; cbn [In] in Hin;
            repeat match goal with
                   | H : _ \/ _ |- _ => destruct H as [H | H]
                   end; solve [discriminate Hin | exact Hin]).
  all: match goal with
       | |- exists before after, ?l = _ /\ _ => exists (removelast l), []
       end;
    (split; [reflexivity | right; left; reflexivity]).
Qed.

(** With a str as swap size, [create_datasets] never gets past the six
    dataset creations: the comparison with zero raises.  It launches an
    initial part of the six creations and nothing else, it always
    raises, and it leaves the manager as it was; when no command fails
    it launches all six and raises [TypeError]. *)
Lemma create_datasets_with_text_swap (E : env) (w : world) (s : string) :
  swap_size (zfs w) = PyStr s ->
  let p := pool_name (zfs w) in
  let creates :=
    [["zfs"; "create"; "-p"; "-o"; "canmount=off"; "-o"; "mountpoint=none";
      p +++ "/ROOT"];
     ["zfs"; "create"; "-p"; "-o"; "canmount=noauto"; "-o"; "mountpoint=/";
      "-o"; "com.sun:auto-snapshot=true"; p +++ "/ROOT/arch"];
     ["zfs"; "create"; "-p"; "-o"; "mountpoint=/home";
      "-o"; "com.sun:auto-snapshot=true"; p +++ "/home"];
     ["zfs"; "create"; "-p"; "-o"; "mountpoint=/var";
      "-o"; "com.sun:auto-snapshot=false"; p +++ "/var"];
     ["zfs"; "create"; "-p"; "-o"; "mountpoint=/var/log"; p +++ "/var/log"];
     ["zfs"; "create"; "-p"; "-o"; "mountpoint=/var/cache";
      p +++ "/var/cache"]] in
  let issued := argvs (emitted ZFS.create_datasets E w) in
  (exists n, issued = firstn n creates)
  /\ Plan.is_ok (fst (ZFS.create_datasets E w)) = false
  /\ zfs (snd (ZFS.create_datasets E w)) = zfs w
  /\ ((forall t c, proc_returncode E t c = 0) ->
      fst (ZFS.create_datasets E w) = Raise TypeError /\ issued = creates).
Proof.
  intros Hsize p creates issued. subst issued creates p.
  unfold ZFS.create_datasets, ZFS._create_dataset, ZFS.greater_than_zero.
  py_unfold. py_simpl. cbn [flat_map app].
  rewrite Hsize. cbn [Py.gt_zero]. py_simpl.
  repeat (py_case; py_simpl); py_trace.
  all: split;
    [ first [ exists 0%nat; reflexivity | exists 1%nat; reflexivity
            | exists 2%nat; reflexivity | exists 3%nat; reflexivity
            | exists 4%nat; reflexivity | exists 5%nat; reflexivity
            | exists 6%nat; reflexivity ]
    | split; [reflexivity | split; [reflexivity |]] ].
  all: intros Hall;
    repeat match goal with
           | H : (proc_returncode _ _ _ =? 0) = false |- _ =>
               rewrite Hall in H; discriminate H
           end.
  split; reflexivity.
Qed.

(** C7, where the code departs from it.  The operator asks for a swap
    volume and types 4; every command succeeds.  The number prompt
    hands back the text, so the recorded swap size is the str "4", and
    the test [self.swap_size > 0] raises [TypeError] once the six
    datasets are created: no swap volume is created, bootfs is never
    set, and no dataset is recorded on the manager. *)
Theorem create_datasets_stops_at_typed_swap :
  let E := Scenario.machine Scenario.never
             (Scenario.plain_answers "single" 4) in
  let w := snd (ZFS.setup_pool E world_init) in
  swap_size (zfs w) = PyStr "4"
  /\ fst (ZFS.create_datasets E w) = Raise TypeError
  /\ argvs (emitted ZFS.create_datasets E w)
     = [["zfs"; "create"; "-p"; "-o"; "canmount=off"; "-o"; "mountpoint=none";
         "rpool/ROOT"];
        ["zfs"; "create"; "-p"; "-o"; "canmount=noauto"; "-o"; "mountpoint=/";
         "-o"; "com.sun:auto-snapshot=true"; "rpool/ROOT/arch"];
        ["zfs"; "create"; "-p"; "-o"; "mountpoint=/home";
         "-o"; "com.sun:auto-snapshot=true"; "rpool/home"];
        ["zfs"; "create"; "-p"; "-o"; "mountpoint=/var";
         "-o"; "com.sun:auto-snapshot=false"; "rpool/var"];
        ["zfs"; "create"; "-p"; "-o"; "mountpoint=/var/log"; "rpool/var/log"];
        ["zfs"; "create"; "-p"; "-o"; "mountpoint=/var/cache";
         "rpool/var/cache"]]
  /\ datasets (zfs (snd (ZFS.create_datasets E w))) = [].
Proof.
  cbv zeta. split; [exact typed_swap_size |].
  split; [vm_compute; reflexivity |].
  split; vm_compute; reflexivity.
Qed.

(** ** Initramfs hooks *)

Section Hooks.

Lemma mem_In (x : string) (l : list string) : mem x l = true <-> In x l.
Proof.
  unfold mem. rewrite existsb_exists. split.
  - intros [y [Hy Heq]]. apply String.eqb_eq in Heq. now subst.
  - intros H. exists x. split; [exact H | apply String.eqb_refl].
Qed.

Lemma mem_app (x : string) (l1 l2 : list string) :
  mem x (l1 ++ l2) = mem x l1 || mem x l2.
Proof. unfold mem. apply existsb_app. Qed.

(** [index] locates the first occurrence, and inserting there puts the
    new word immediately in front of it. *)
Lemma index_insert (x y : string) (l : list string) (i : nat) :
  index x l = Some i ->
  exists l1 l2,
    l = l1 ++ x :: l2 /\ ~ In x l1 /\ insert i y l = l1 ++ y :: x :: l2.
Proof.
  revert i. induction l as [| a l IH]; intros i H; simpl in H.
  - discriminate H.
  - destruct (String.eqb a x) eqn:Hax.
    + apply String.eqb_eq in Hax. subst a. injection H as <-.
      exists [], l. simpl. auto.
    + destruct (index x l) as [j |] eqn:Hj; [| discriminate H].
      injection H as <-.
      destruct (IH j eq_refl) as [l1 [l2 [Hl [Hnin Hins]]]].
      exists (a :: l1), l2. simpl. rewrite Hins, <- Hl.
      repeat split; try reflexivity.
      intros [Heq | Hin]; [| now apply Hnin].
      subst a. now rewrite String.eqb_refl in Hax.
Qed.

Lemma mem_index (x : string) (l : list string) :
  mem x l = true -> exists i, index x l = Some i.
Proof.
  induction l as [| a l IH]; simpl; intros H.
  - discriminate H.
  - rewrite String.eqb_sym in H. destruct (String.eqb a x).
    + now exists O.
    + destruct (IH H) as [i Hi]. rewrite Hi. now exists (S i).
Qed.

Lemma append_if_missing_mem (h : string) (l : list string) :
  mem h (Boot.append_if_missing h l) = true.
Proof.
  unfold Boot.append_if_missing. destruct (mem h l) eqn:H; cbn [negb].
  - exact H.
  - rewrite mem_app. cbn. now rewrite String.eqb_refl, orb_true_r.
Qed.

Lemma append_if_missing_keeps (x h : string) (l : list string) :
  mem x l = true -> mem x (Boot.append_if_missing h l) = true.
Proof.
  intros H. unfold Boot.append_if_missing.
  destruct (negb (mem h l)); [| exact H].
  rewrite mem_app, H. reflexivity.
Qed.

Lemma append_if_missing_present (h : string) (l : list string) :
  mem h l = true -> Boot.append_if_missing h l = l.
Proof.
  intros H. unfold Boot.append_if_missing. now rewrite H.
Qed.

Lemma append_if_missing_appends (h : string) (l : list string) :
  exists added,
    Boot.append_if_missing h l = l ++ added
    /\ forall x, In x added -> x = h.
Proof.
  unfold Boot.append_if_missing. destruct (negb (mem h l)).
  - exists [h]. split; [reflexivity |]. now intros x [<- | []].
  - exists []. rewrite app_nil_r. split; [reflexivity | intros x []].
Qed.

Variable bootloader : string.

(** The loop over the five candidate hooks, unrolled. *)
Lemma ensure_hooks_unrolled (l : list string) :
  Boot.ensure_hooks bootloader
    ["keyboard"; "keymap"; "encrypt"; "sd-vconsole"; "sd-encrypt"] l
  = if String.eqb bootloader "systemd-boot"
    then Boot.append_if_missing "sd-encrypt"
           (Boot.append_if_missing "sd-vconsole" l)
    else l.
Proof.
  cbn [Boot.ensure_hooks].
  replace (startswith "keyboard" "sd-") with false by reflexivity.
  replace (startswith "keymap" "sd-") with false by reflexivity.
  replace (startswith "encrypt" "sd-") with false by reflexivity.
  replace (startswith "sd-vconsole" "sd-") with true by reflexivity.
  replace (startswith "sd-encrypt" "sd-") with true by reflexivity.
  destruct (String.eqb bootloader "systemd-boot"); reflexivity.
Qed.

(** The loop only appends, and what it appends are [sd-] hooks. *)
Lemma ensure_hooks_appends (l : list string) :
  exists added,
    Boot.ensure_hooks bootloader
      ["keyboard"; "keymap"; "encrypt"; "sd-vconsole"; "sd-encrypt"] l
    = l ++ added
    /\ forall h, In h added -> h = "sd-vconsole" \/ h = "sd-encrypt".
Proof.
  rewrite ensure_hooks_unrolled.
  destruct (String.eqb bootloader "systemd-boot").
  - destruct (append_if_missing_appends "sd-vconsole" l)
      as [a1 [H1 Ha1]].
    destruct (append_if_missing_appends "sd-encrypt"
                (Boot.append_if_missing "sd-vconsole" l))
      as [a2 [H2 Ha2]].
    exists (a1 ++ a2). rewrite H2, H1, app_assoc.
    split; [reflexivity |].
    intros h Hin. apply in_app_or in Hin. destruct Hin as [Hin | Hin].
    + left. now apply Ha1.
    + right. now apply Ha2.
  - exists []. rewrite app_nil_r. split; [reflexivity | intros h []].
Qed.

(** The loop keeps every hook that is already there. *)
Lemma ensure_hooks_keeps (x : string) (l : list string) :
  mem x l = true ->
  mem x (Boot.ensure_hooks bootloader
           ["keyboard"; "keymap"; "encrypt"; "sd-vconsole"; "sd-encrypt"] l)
  = true.
Proof.
  intros H. destruct (ensure_hooks_appends l) as [added [-> _]].
  rewrite mem_app, H. reflexivity.
Qed.

(** Running the loop on its own output changes nothing. *)
Lemma ensure_hooks_idempotent (l : list string) :
  let ensure := Boot.ensure_hooks bootloader
                  ["keyboard"; "keymap"; "encrypt"; "sd-vconsole";
                   "sd-encrypt"] in
  ensure (ensure l) = ensure l.
Proof.
  cbv zeta. rewrite !ensure_hooks_unrolled.
  destruct (String.eqb bootloader "systemd-boot"); [| reflexivity].
  rewrite (append_if_missing_present "sd-vconsole").
  - apply append_if_missing_present, append_if_missing_mem.
  - apply append_if_missing_keeps, append_if_missing_mem.
Qed.

End Hooks.

(** After the zfs step of the patch the list contains zfs. *)
Lemma zfs_step_mem (l : list string) :
  mem "zfs"
    (if negb (mem "zfs" l)
     then if mem "filesystems" l
          then match index "filesystems" l with
               | Some idx => insert idx "zfs" l
               | None => l
               end
          else l ++ ["zfs"]
     else l) = true.
Proof.
  destruct (mem "zfs" l) eqn:Hz; cbn [negb]; [exact Hz |].
  destruct (mem "filesystems" l) eqn:Hf.
  - destruct (mem_index _ _ Hf) as [i Hi]. rewrite Hi.
    destruct (index_insert "filesystems" "zfs" l i Hi)
      as [l1 [l2 [_ [_ ->]]]].
    rewrite mem_app. cbn. now rewrite orb_true_r.
  - rewrite mem_app. cbn. now rewrite orb_true_r.
Qed.

Lemma patch_hooks_has_zfs (bootloader : string) (l : list string) :
  mem "zfs" (Boot.patch_hooks bootloader l) = true.
Proof.
  unfold Boot.patch_hooks. apply ensure_hooks_keeps, zfs_step_mem.
Qed.

(** C6, as the code has it.  The patch of the hook list is idempotent.
    When the list given does not yet contain zfs and the result
    contains filesystems, zfs stands immediately before the first
    filesystems, with neither word earlier in the list; a list that
    already contains zfs keeps its words where they are and only gains
    the missing [sd-] hooks at the end.  Scenario B holds under every
    boot loader other than systemd-boot. *)
Theorem patch_hooks_idempotent_ordered (bootloader : string)
    (hooks_list : list string) :
  Boot.patch_hooks bootloader (Boot.patch_hooks bootloader hooks_list)
  = Boot.patch_hooks bootloader hooks_list
  /\ (~ In "zfs" hooks_list ->
      In "filesystems" (Boot.patch_hooks bootloader hooks_list) ->
      exists l1 l2,
        Boot.patch_hooks bootloader hooks_list
        = l1 ++ "zfs" :: "filesystems" :: l2
        /\ ~ In "filesystems" l1 /\ ~ In "zfs" l1)
  /\ (In "zfs" hooks_list ->
      exists added,
        Boot.patch_hooks bootloader hooks_list = hooks_list ++ added
        /\ forall h, In h added -> h = "sd-vconsole" \/ h = "sd-encrypt")
  /\ (bootloader <> "systemd-boot" ->
      Boot.patch_hooks bootloader
        ["base"; "udev"; "autodetect"; "modconf"; "block"; "filesystems";
         "keyboard"; "fsck"]
      = ["base"; "udev"; "autodetect"; "modconf"; "block"; "zfs";
         "filesystems"; "keyboard"; "fsck"]).
Proof.
  split; [| split; [| split]].
  - pose proof (patch_hooks_has_zfs bootloader hooks_list) as Hz.
    unfold Boot.patch_hooks at 1. rewrite Hz. cbn [negb].
    unfold Boot.patch_hooks. apply ensure_hooks_idempotent.
  - intros Hnz Hfs.
    assert (Hz : mem "zfs" hooks_list = false).
    { destruct (mem "zfs" hooks_list) eqn:H; [| reflexivity].
      apply mem_In in H. contradiction. }
    unfold Boot.patch_hooks in *. rewrite Hz in *. cbn [negb] in *.
    match type of Hfs with
    | In _ (Boot.ensure_hooks _ _ ?l) =>
        destruct (ensure_hooks_appends bootloader l) as [added [Heq Hadd]]
    end.
    rewrite Heq in *. clear Heq.
    assert (Hfs' : mem "filesystems" hooks_list = true).
    { destruct (mem "filesystems" hooks_list) eqn:Hf; [reflexivity |].
      apply in_app_or in Hfs. destruct Hfs as [Hfs | Hfs].
      - apply in_app_or in Hfs. destruct Hfs as [Hfs | [Hfs | []]].
        + apply mem_In in Hfs. congruence.
        + discriminate Hfs.
      - destruct (Hadd _ Hfs) as [H | H]; discriminate H. }
    rewrite Hfs' in *.
    destruct (mem_index _ _ Hfs') as [i Hi]. rewrite Hi in *.
    destruct (index_insert "filesystems" "zfs" hooks_list i Hi)
      as [l1 [l2 [Hl [Hnin Hins]]]].
    exists l1, (l2 ++ added). rewrite Hins, <- app_assoc.
    split; [reflexivity |]. split; [exact Hnin |].
    intros Hin. apply Hnz. rewrite Hl. apply in_or_app. now left.
  - intros Hin. apply mem_In in Hin.
    unfold Boot.patch_hooks. rewrite Hin. cbn [negb].
    apply ensure_hooks_appends.
  - intros Hbl. apply String.eqb_neq in Hbl.
    unfold Boot.patch_hooks.
    replace (mem "zfs" ["base"; "udev"; "autodetect"; "modconf"; "block";
                        "filesystems"; "keyboard"; "fsck"])
      with false by reflexivity.
    cbn [negb].
    replace (mem "filesystems" ["base"; "udev"; "autodetect"; "modconf";
                                "block"; "filesystems"; "keyboard"; "fsck"])
      with true by reflexivity.
    replace (index "filesystems" ["base"; "udev"; "autodetect"; "modconf";
                                  "block"; "filesystems"; "keyboard"; "fsck"])
      with (Some 5%nat) by reflexivity.
    rewrite ensure_hooks_unrolled, Hbl. reflexivity.
Qed.

Lemma patch_hooks_idempotent_ordered_witness :
  exists l1 l2,
    Boot.patch_hooks "systemd-boot" ["base"; "filesystems"; "fsck"]
    = l1 ++ "zfs" :: "filesystems" :: l2
    /\ ~ In "filesystems" l1 /\ ~ In "zfs" l1.
Proof.
  apply (proj1 (proj2 (patch_hooks_idempotent_ordered
                         "systemd-boot" ["base"; "filesystems"; "fsck"]))).
  - cbn [In]. intros [H | [H | [H | []]]]; discriminate H.
  - vm_compute. tauto.
Defined.

(** C6 as stated fails when zfs is already in the list behind
    filesystems: the patch leaves such a list as it is, so the result
    contains filesystems and no zfs in front of it. *)
Lemma zfs_after_filesystems_is_kept :
  Boot.patch_hooks "grub" ["base"; "filesystems"; "zfs"]
  = ["base"; "filesystems"; "zfs"]
  /\ In "filesystems" (Boot.patch_hooks "grub" ["base"; "filesystems"; "zfs"])
  /\ ~ occurs_before "zfs" "filesystems"
         (Boot.patch_hooks "grub" ["base"; "filesystems"; "zfs"]).
Proof.
  assert (H : Boot.patch_hooks "grub" ["base"; "filesystems"; "zfs"]
              = ["base"; "filesystems"; "zfs"]) by reflexivity.
  rewrite H. split; [reflexivity |]. split; [cbn; tauto |].
  intros [l1 [l2 [l3 Heq]]].
  destruct l1 as [| a [| b [| c l1]]]; cbn in Heq.
  - discriminate Heq.
  - injection Heq as _ Heq. discriminate Heq.
  - injection Heq as _ _ Heq. destruct l2; discriminate Heq.
  - injection Heq as _ _ _ Heq. destruct l1; discriminate Heq.
Qed.

(** ** Teardown *)

(** C4, at a concrete teardown.  On a machine where every command
    succeeds, with a separate boot partition, mounting launches the
    commands of the first list and unmounting those of the second: the
    dataset rpool/var/cache is unmounted twice, before and after
    rpool/var/log, and the two boot partitions are unmounted in the
    order they were mounted. *)
Theorem unmount_sequence_after_install :
  let E := Scenario.machine Scenario.never (Scenario.plain_answers "single" 0) in
  argvs (emitted Inst.mount_filesystems E (Scenario.created true E))
  = [["zpool"; "import"; "-d"; "/dev/disk/by-id"; "-f"; "-N"; "rpool"];
     ["zfs"; "set"; "mountpoint=/mnt"; "rpool/ROOT/arch"];
     ["zfs"; "mount"; "rpool/ROOT/arch"];
     ["zfs"; "set"; "mountpoint=/mnt/home"; "rpool/home"];
     ["zfs"; "mount"; "rpool/home"];
     ["zfs"; "set"; "mountpoint=/mnt/var"; "rpool/var"];
     ["zfs"; "mount"; "rpool/var"];
     ["zfs"; "set"; "mountpoint=/mnt/var/log"; "rpool/var/log"];
     ["zfs"; "mount"; "rpool/var/log"];
     ["zfs"; "set"; "mountpoint=/mnt/var/cache"; "rpool/var/cache"];
     ["zfs"; "mount"; "rpool/var/cache"];
     ["mount"; "/dev/sda1"; "/mnt/boot/efi"];
     ["mount"; "/dev/sda2"; "/mnt/boot"]]
  /\ argvs (emitted Inst._unmount_filesystems E (Scenario.mounted true E))
     = [["umount"; "/mnt/boot/efi"];
        ["umount"; "/mnt/boot"];
        ["zfs"; "unmount"; "rpool/var/cache"];
        ["zfs"; "unmount"; "rpool/var/log"];
        ["zfs"; "unmount"; "rpool/var/cache"];
        ["zfs"; "unmount"; "rpool/var"];
        ["zfs"; "unmount"; "rpool/home"];
        ["zfs"; "unmount"; "rpool/ROOT/arch"];
        ["zpool"; "export"; "rpool"]]
  /\ count_occ (list_eq_dec string_dec)
       (argvs (emitted Inst._unmount_filesystems E (Scenario.mounted true E)))
       ["zfs"; "unmount"; "rpool/var/cache"] = 2%nat.
Proof.
  cbv zeta. repeat split; vm_compute; reflexivity.
Qed.

(** Whenever a root dataset is recorded, the dataset unmounts launched
    by [_unmount_filesystems] are those of the list in the source, in
    that order, whatever any command returns. *)
Lemma unmount_filesystems_datasets (E : env) (w : world) (r : string) :
  dict_get (datasets (zfs w)) "root" = Some (Some r) ->
  exists boot_cmds export_cmds,
    argvs (emitted Inst._unmount_filesystems E w)
    = boot_cmds
      ++ [["zfs"; "unmount"; pool_name (zfs w) +++ "/var/cache"];
          ["zfs"; "unmount"; pool_name (zfs w) +++ "/var/log"];
          ["zfs"; "unmount"; pool_name (zfs w) +++ "/var/cache"];
          ["zfs"; "unmount"; pool_name (zfs w) +++ "/var"];
          ["zfs"; "unmount"; pool_name (zfs w) +++ "/home"];
          ["zfs"; "unmount"; r]]
      ++ export_cmds
    /\ (boot_cmds = [["umount"; path_join (bm_root_mount (boot w)) "boot/efi"]]
        \/ boot_cmds = [["umount"; path_join (bm_root_mount (boot w)) "boot/efi"];
                        ["umount"; path_join (bm_root_mount (boot w)) "boot"]])
    /\ (export_cmds = [] \/ export_cmds = [["zpool"; "export"; pool_name (zfs w)]]).
Proof.
  intros Hroot.
  unfold Inst._unmount_filesystems, Boot.unmount_boot, Inst.unmount_datasets,
    Inst.dict_item, ZFS.export_pool.
  py_unfold. py_simpl.
  destruct (separate_boot (boot w)); py_simpl;
    repeat (py_case; py_simpl);
    rewrite Hroot; py_simpl;
    destruct (export_prompt E); py_simpl;
    repeat (py_case; py_simpl); py_trace.
  all: first
    [ exists [["umount"; path_join (bm_root_mount (boot w)) "boot/efi"]],
             [["zpool"; "export"; pool_name (zfs w)]];
      split; [reflexivity | split; [left; reflexivity | right; reflexivity]]
    | exists [["umount"; path_join (bm_root_mount (boot w)) "boot/efi"]],
             [];
      split; [reflexivity | split; [left; reflexivity | left; reflexivity]]
    | exists [["umount"; path_join (bm_root_mount (boot w)) "boot/efi"];
              ["umount"; path_join (bm_root_mount (boot w)) "boot"]],
             [["zpool"; "export"; pool_name (zfs w)]];
      split; [reflexivity | split; [right; reflexivity | right; reflexivity]]
    | exists [["umount"; path_join (bm_root_mount (boot w)) "boot/efi"];
              ["umount"; path_join (bm_root_mount (boot w)) "boot"]],
             [];
      split; [reflexivity | split; [right; reflexivity | left; reflexivity]] ].
Qed.

(** C8, as the code has it.  Once a root dataset is recorded, teardown
    always starts with the unmount of the EFI partition and always
    launches the unmount of each of var/cache, var/log, var, home and
    the root dataset, whatever any unmount command returns.  A failed
    EFI unmount is reported as a warning.  A failed dataset unmount is
    not reported: when the boot partitions unmount cleanly and the
    export is declined, the trace is the same fixed list of events
    whatever the dataset unmounts return. *)
Theorem unmounts_attempted_despite_failures (E : env) (w : world)
    (r : string) :
  dict_get (datasets (zfs w)) "root" = Some (Some r) ->
  let t := emitted Inst._unmount_filesystems E w in
  let p := pool_name (zfs w) in
  let efi := ["umount"; path_join (bm_root_mount (boot w)) "boot/efi"] in
  let bootp := ["umount"; path_join (bm_root_mount (boot w)) "boot"] in
  let t0 := log w ++ [Print "Unmounting filesystems..."] in
  hd_error (argvs t) = Some efi
  /\ (forall d,
        In d [p +++ "/var/cache"; p +++ "/var/log"; p +++ "/var";
              p +++ "/home"; r] ->
        In ["zfs"; "unmount"; d] (argvs t))
  /\ (proc_returncode E t0 efi <> 0 ->
      In (PrintExn "Warning: Failed to unmount boot partitions: "
            (CalledProcessError efi (proc_returncode E t0 efi))) t)
  /\ (proc_returncode E t0 efi = 0 ->
      (separate_boot (boot w) = true ->
       proc_returncode E (t0 ++ [Run efi None]) bootp = 0) ->
      export_prompt E = false ->
      t = [Print "Unmounting filesystems..."; Run efi None]
          ++ (if separate_boot (boot w) then [Run bootp None] else [])
          ++ [Print "Boot partitions unmounted.";
              Run ["zfs"; "unmount"; p +++ "/var/cache"] None;
              Run ["zfs"; "unmount"; p +++ "/var/log"] None;
              Run ["zfs"; "unmount"; p +++ "/var/cache"] None;
              Run ["zfs"; "unmount"; p +++ "/var"] None;
              Run ["zfs"; "unmount"; p +++ "/home"] None;
              Run ["zfs"; "unmount"; r] None;
              Print "Filesystems unmounted."]).
Proof.
  intros Hroot t p efi bootp t0. subst t p efi bootp t0.
  unfold Inst._unmount_filesystems, Boot.unmount_boot, Inst.unmount_datasets,
    Inst.dict_item, ZFS.export_pool.
  py_unfold. py_simpl.
  destruct (separate_boot (boot w)) eqn:Hsep; py_simpl;
    repeat (py_case; py_simpl);
    rewrite Hroot; py_simpl;
    destruct (export_prompt E) eqn:Hexp; py_simpl;
    repeat (py_case; py_simpl); py_trace.
  all: split; [reflexivity |].
  all: split; [intros d Hd; cbn [In] in Hd;
               repeat match goal with
                      | H : _ \/ _ |- _ => destruct H as [H | H]
                      end; try contradiction; subst d; in_list |].
  all: split; [intros Hne; first [rc_clash | in_list] |].
  all: intros Hefi Hboot Hno;
    first [discriminate Hno | rc_clash | reflexivity].
Qed.

Lemma unmounts_attempted_despite_failures_witness :
  In ["zfs"; "unmount"; "rpool/var"]
     (argvs (emitted Inst._unmount_filesystems
               (Scenario.machine Scenario.log_unmount_fails
                  (Scenario.plain_answers "single" 0))
               (Scenario.mounted false
                  (Scenario.machine Scenario.log_unmount_fails
                     (Scenario.plain_answers "single" 0))))).
Proof.
  apply (proj1 (proj2 (unmounts_attempted_despite_failures
           (Scenario.machine Scenario.log_unmount_fails
              (Scenario.plain_answers "single" 0))
           (Scenario.mounted false
              (Scenario.machine Scenario.log_unmount_fails
                 (Scenario.plain_answers "single" 0)))
           "rpool/ROOT/arch" eq_refl))).
  cbn [In]. right. right. left. reflexivity.
Defined.

(** C8 as stated fails for the datasets: on a machine where unmounting
    rpool/var/log exits with status 1, that command is launched and
    fails, and nothing in what teardown prints reports it. *)
Lemma failed_dataset_unmount_is_silent :
  let E := Scenario.machine Scenario.log_unmount_fails
             (Scenario.plain_answers "single" 0) in
  let t := emitted Inst._unmount_filesystems E (Scenario.mounted false E) in
  In (Run ["zfs"; "unmount"; "rpool/var/log"] None) t
  /\ (forall before,
        proc_returncode E before ["zfs"; "unmount"; "rpool/var/log"] = 1)
  /\ existsb is_warning t = false.
Proof.
  cbv zeta. split; [| split].
  - vm_compute. tauto.
  - intros before. reflexivity.
  - vm_compute. reflexivity.
Qed.

(** ** The top-level handler *)

(** What [main] does once a stage has raised an ordinary exception:
    print the error (and the traceback with --debug) and exit with
    status 1.  No process is launched; in particular neither
    [Installer.cleanup] nor [_unmount_filesystems] runs. *)
Lemma handler_launches_nothing (debug : bool) (e : exn) (E : env)
    (w : world) :
  is_Exception e = true ->
  fst (Main.handler debug e E w) = Raise (SystemExit 1)
  /\ log (snd (Main.handler debug e E w))
     = log w
       ++ PrintExn (nl +++ "Error during installation: ") e
          :: (if debug
              then [PrintExn "Traceback (most recent call last):" e]
              else [])
       ++ [Exit 1]
  /\ commands (emitted (Main.handler debug e) E w) = [].
Proof.
  intros He.
  destruct e; try discriminate He; destruct debug;
    unfold Main.handler, Main.sys_exit; py_unfold; py_simpl;
    repeat rewrite <- app_assoc; rewrite skipn_length_app;
    repeat split; reflexivity.
Qed.

Lemma main_failure_path (c : collaborators) (debug : bool) (E : env)
    (w w' : world) (e : exn) :
  euid E = 0 ->
  Main.workflow c E (snd (Main.banner E w)) = (Raise e, w') ->
  is_Exception e = true ->
  fst (Main.main c debug E w) = Raise (SystemExit 1)
  /\ log (snd (Main.main c debug E w))
     = log w'
       ++ PrintExn (nl +++ "Error during installation: ") e
          :: (if debug
              then [PrintExn "Traceback (most recent call last):" e]
              else [])
       ++ [Exit 1].
Proof.
  intros Hroot Hrun He.
  assert (Hb : Main.banner E w = (Ok tt, snd (Main.banner E w)))
    by reflexivity.
  assert (Hc : Main.catches e = true) by (destruct e; auto).
  assert (Hmain : Main.main c debug E w = Main.handler debug e E w').
  { unfold Main.main, bind. rewrite Hb. unfold ask. rewrite Hroot.
    cbn [Z.eqb negb]. unfold try_except. rewrite Hrun, Hc. reflexivity. }
  rewrite Hmain.
  destruct (handler_launches_nothing debug e E w' He) as [H1 [H2 _]].
  split; assumption.
Qed.

(** C1, at a concrete failure.  On a machine where [zfs create] fails,
    the run launches the pool creation and the first dataset creation,
    prints the error and exits with status 1.  No unmount command is
    launched, although [cleanup], had it been called on the final
    state, would have launched the unmount of the EFI partition. *)
Theorem main_aborts_without_cleanup :
  let E := Scenario.machine Scenario.zfs_create_fails
             (Scenario.plain_answers "single" 0) in
  let run := Main.main (Scenario.quiet false) false E world_init in
  fst run = Raise (SystemExit 1)
  /\ argvs (log (snd run))
     = [["zpool"; "create"; "-f"; "-o"; "ashift=12"; "-o"; "autotrim=on";
         "-O"; "compression=lz4"; "-O"; "normalization=formD";
         "-O"; "acltype=posixacl"; "-O"; "xattr=sa"; "-O"; "relatime=on";
         "-O"; "canmount=off"; "-O"; "mountpoint=none"; "rpool";
         "/dev/sda2"];
        ["zfs"; "create"; "-p"; "-o"; "canmount=off"; "-o";
         "mountpoint=none"; "rpool/ROOT"]]
  /\ (exists before,
        log (snd run)
        = before
          ++ [Run ["zfs"; "create"; "-p"; "-o"; "canmount=off"; "-o";
                   "mountpoint=none"; "rpool/ROOT"] None;
              PrintExn (nl +++ "Error during installation: ")
                (ExceptionOf "Error creating dataset rpool/ROOT: "
                   (CalledProcessError
                      ["zfs"; "create"; "-p"; "-o"; "canmount=off"; "-o";
                       "mountpoint=none"; "rpool/ROOT"] 1));
              Exit 1])
  /\ installation_complete (inst (snd run)) = false
  /\ argvs (emitted Inst.cleanup E (snd run)) = [["umount"; "/mnt/boot/efi"]].
Proof.
  cbv zeta. split; [reflexivity |]. split; [reflexivity |].
  split; [| split; reflexivity].
  exists (firstn 11
            (log (snd (Main.main (Scenario.quiet false) false
                         (Scenario.machine Scenario.zfs_create_fails
                            (Scenario.plain_answers "single" 0))
                         world_init)))).
  vm_compute. reflexivity.
Qed.

(** * Further properties of the code *)

(** Bring every trace into the form [log w ++ [e1; e2; ...]]. *)
Ltac py_norm := repeat rewrite <- app_assoc; cbn [app].

(** ** Pool import, export and creation: outcomes *)

(** X1. [export_pool] returns normally whatever the exit status: it
    launches the one command [zpool export <pool>], returns whether it
    exited with 0, and prints either the success line or a warning. *)
Theorem export_pool_outcome (E : env) (w : world) :
  let cmd := ["zpool"; "export"; pool_name (zfs w)] in
  let rc := proc_returncode E (log w) cmd in
  fst (ZFS.export_pool E w) = Ok (rc =? 0)
  /\ emitted ZFS.export_pool E w
     = [Run cmd None;
        if rc =? 0
        then Print ("ZFS pool '" +++ pool_name (zfs w)
                    +++ "' exported successfully.")
        else PrintExn "Warning: Failed to export pool: "
               (CalledProcessError cmd rc)]
  /\ zfs (snd (ZFS.export_pool E w)) = zfs w.
Proof.
  cbv zeta. unfold ZFS.export_pool. py_unfold. py_simpl.
  py_case; py_simpl; py_trace; repeat split.
Qed.

(** X2. [import_pool] returns normally whatever the exit status. It
    launches one [zpool import] command, with [-N] exactly when mounting
    is not wanted, pipes the passphrase in exactly when encryption is
    on, returns whether the command exited with 0, and reports a failure
    only as a warning. *)
Theorem import_pool_outcome (E : env) (w : world) (mount : bool) :
  let cmd := ["zpool"; "import"; "-d"; "/dev/disk/by-id"; "-f"]
             ++ (if mount then [] else ["-N"]) ++ [pool_name (zfs w)] in
  let rc := proc_returncode E (log w) cmd in
  fst (ZFS.import_pool mount E w) = Ok (rc =? 0)
  /\ emitted (ZFS.import_pool mount) E w
     = [Run cmd (if encryption (zfs w)
                 then Some (encryption_passphrase (zfs w) +++ nl)
                 else None);
        if rc =? 0
        then Print ("ZFS pool '" +++ pool_name (zfs w)
                    +++ "' imported successfully.")
        else PrintExn "Warning: Failed to import pool: "
               (if encryption (zfs w)
                then Exception ("Failed to import encrypted ZFS pool: "
                                +++ proc_stderr E (log w) cmd)
                else CalledProcessError cmd rc)].
Proof.
  cbv zeta. unfold ZFS.import_pool, ZFS.import_pool_cmd. py_unfold. py_simpl.
  destruct mount; cbn [negb app];
    destruct (encryption (zfs w)); py_simpl;
    py_case; py_simpl; py_trace; repeat split.
Qed.

(** X3. Once its command line can be built, [create_pool] launches
    exactly that one command and succeeds exactly when it exits with 0.
    A failure of an unencrypted creation is re-raised as "Error creating
    ZFS pool" around the process error; a failure of an encrypted
    creation is raised as "Failed to create encrypted ZFS pool" followed
    by what the tool wrote to its standard error. *)
Theorem create_pool_outcome (E : env) (w : world) (arg : ZFS.partitions_arg)
    (cmd : list string) :
  ZFS.create_pool_cmd (zfs w) arg = Ok cmd ->
  let t := log w ++ [Print (nl +++ "Creating ZFS pool '"
                            +++ pool_name (zfs w) +++ "'...")] in
  let rc := proc_returncode E t cmd in
  fst (ZFS.create_pool arg E w)
  = (if rc =? 0 then Ok true
     else Raise (if encryption (zfs w)
                 then Exception ("Failed to create encrypted ZFS pool: "
                                 +++ proc_stderr E t cmd)
                 else ExceptionOf "Error creating ZFS pool: "
                        (CalledProcessError cmd rc)))
  /\ commands (emitted (ZFS.create_pool arg) E w)
     = [(cmd, if encryption (zfs w)
              then Some (encryption_passphrase (zfs w) +++ nl)
              else None)].
Proof.
  intros Hcmd. cbv zeta. unfold ZFS.create_pool. py_unfold. py_simpl.
  rewrite Hcmd.
  destruct (encryption (zfs w)); py_simpl;
    py_case; py_simpl; py_trace; split; reflexivity.
Qed.

Lemma create_pool_outcome_witness :
  fst (ZFS.create_pool (ZFS.PStr "/dev/sda2")
         (Scenario.machine Scenario.never (Scenario.plain_answers "single" 0))
         world_init) = Ok true.
Proof.
  apply (proj1 (create_pool_outcome
                  (Scenario.machine Scenario.never
                     (Scenario.plain_answers "single" 0))
                  world_init (ZFS.PStr "/dev/sda2") _ eq_refl)).
Defined.

(** X4. When the command line cannot be built, [create_pool] raises the
    error of the failed list access and launches nothing. That happens
    for an unset partition ([None]), and for an empty partition list
    under the pool type [single]; under [mirror] an empty list is not
    rejected: the command ends with the bare keyword. *)
Theorem create_pool_without_devices (E : env) (w : world) :
  (forall arg e,
     ZFS.create_pool_cmd (zfs w) arg = Raise e ->
     fst (ZFS.create_pool arg E w) = Raise e
     /\ commands (emitted (ZFS.create_pool arg) E w) = [])
  /\ ZFS.create_pool_cmd (zfs w) ZFS.PNone = Raise TypeError
  /\ (pool_type (zfs w) = "single" ->
      ZFS.create_pool_cmd (zfs w) (ZFS.PList []) = Raise IndexError)
  /\ (pool_type (zfs w) = "mirror" ->
      ZFS.create_pool_cmd (zfs w) (ZFS.PList [])
      = Ok (ZFS.pool_options (zfs w) ++ ["mirror"])).
Proof.
  split; [| split; [reflexivity | split]].
  - intros arg e Hcmd. unfold ZFS.create_pool. py_unfold. py_simpl.
    rewrite Hcmd. py_simpl. py_trace. split; reflexivity.
  - intros H. unfold ZFS.create_pool_cmd, ZFS.pool_devices. now rewrite H.
  - intros H. unfold ZFS.create_pool_cmd, ZFS.pool_devices. now rewrite H.
Qed.

Lemma create_pool_without_devices_witness :
  fst (ZFS.create_pool (ZFS.PList [])
         (Scenario.machine Scenario.never (Scenario.plain_answers "single" 0))
         world_init) = Raise IndexError
  /\ commands (emitted (ZFS.create_pool (ZFS.PList []))
         (Scenario.machine Scenario.never (Scenario.plain_answers "single" 0))
         world_init) = [].
Proof.
  apply (proj1 (create_pool_without_devices
                  (Scenario.machine Scenario.never
                     (Scenario.plain_answers "single" 0))
                  world_init)).
  apply (proj1 (proj2 (proj2 (create_pool_without_devices
                  (Scenario.machine Scenario.never
                     (Scenario.plain_answers "single" 0))
                  world_init)))).
  reflexivity.
Defined.

(** X5. [create_datasets] records the dataset names on the manager only
    when every command has succeeded: then the swap size is an int, and
    the map holds root, home and var, and swap exactly when
    [swap_size > 0]. When it raises, the recorded map is the one it
    started with. *)
Theorem create_datasets_records_on_success (E : env) (w : world) :
  let p := pool_name (zfs w) in
  let ds := [("root", Some (p +++ "/ROOT/arch"));
             ("home", Some (p +++ "/home"));
             ("var", Some (p +++ "/var"));
             ("swap", if Py.is_positive (swap_size (zfs w))
                      then Some (p +++ "/swap") else None)] in
  match fst (ZFS.create_datasets E w) with
  | Ok r => r = ds
            /\ zfs (snd (ZFS.create_datasets E w))
               = ZFS.with_datasets (zfs w) ds
            /\ exists n, swap_size (zfs w) = PyInt n
  | Raise _ => zfs (snd (ZFS.create_datasets E w)) = zfs w
  end.
Proof.
  cbv zeta.
  unfold ZFS.create_datasets, ZFS._create_swap_zvol, ZFS._create_dataset,
    ZFS.greater_than_zero.
  py_unfold. py_simpl. cbn [flat_map app].
  destruct (swap_size (zfs w)) as [n | s] eqn:Hsize;
    cbn [Py.gt_zero Py.is_positive];
    [destruct (n >? 0) eqn:Hswap |]; py_simpl;
    repeat (py_case; py_simpl); try reflexivity;
    (split; [reflexivity | split; [reflexivity | now exists n]]).
Qed.

(** ** Boot partitions *)

(** X6. [unmount_boot] returns normally whatever the exit statuses. It
    always tries the EFI partition; it tries the separate boot partition
    only when there is one and the EFI unmount succeeded; it returns
    whether every unmount it launched succeeded. *)
Theorem unmount_boot_outcome (E : env) (w : world) :
  let efi := ["umount"; path_join (bm_root_mount (boot w)) "boot/efi"] in
  let bootp := ["umount"; path_join (bm_root_mount (boot w)) "boot"] in
  let rc1 := proc_returncode E (log w) efi in
  let rc2 := proc_returncode E (log w ++ [Run efi None]) bootp in
  fst (Boot.unmount_boot E w)
  = Ok ((rc1 =? 0) && (if separate_boot (boot w) then rc2 =? 0 else true))
  /\ argvs (emitted Boot.unmount_boot E w)
     = efi :: (if (rc1 =? 0) && separate_boot (boot w) then [bootp] else []).
Proof.
  cbv zeta. unfold Boot.unmount_boot. py_unfold. py_simpl.
  destruct (separate_boot (boot w)); py_simpl;
    repeat (py_case; py_simpl); py_trace; split; reflexivity.
Qed.

(** X7. [setup_boot_directories] with no EFI partition ([None]) raises
    [TypeError] before any process is launched. With one, it mounts the
    EFI partition first and the separate boot partition, if given, only
    after that mount succeeded; a failed mount is re-raised as "Error
    mounting boot partitions". Whether a separate boot partition is in
    use is recorded before anything is mounted. *)
Theorem setup_boot_directories_outcome (E : env) (w : world)
    (root pool : string) (efi bootp : option string) :
  let run := Boot.setup_boot_directories root pool efi bootp E w in
  let done := emitted (Boot.setup_boot_directories root pool efi bootp) E w in
  let efi_dir := path_join root "boot/efi" in
  let t := log w ++ [MakeDirs efi_dir] in
  separate_boot (boot (snd run))
  = match bootp with Some _ => true | None => false end
  /\ match efi with
     | None => fst run = Raise TypeError /\ commands done = []
     | Some e =>
         let c1 := ["mount"; e; efi_dir] in
         let rc1 := proc_returncode E t c1 in
         match bootp with
         | None =>
             argvs done = [c1]
             /\ fst run
                = (if rc1 =? 0 then Ok tt
                   else Raise (ExceptionOf "Error mounting boot partitions: "
                                 (CalledProcessError c1 rc1)))
         | Some b =>
             let c2 := ["mount"; b; path_join root "boot"] in
             let rc2 := proc_returncode E
                          (t ++ [Run c1 None;
                                 Print ("Mounted EFI partition at "
                                        +++ efi_dir)]) c2 in
             argvs done = c1 :: (if rc1 =? 0 then [c2] else [])
             /\ fst run
                = (if rc1 =? 0
                   then if rc2 =? 0 then Ok tt
                        else Raise (ExceptionOf
                                      "Error mounting boot partitions: "
                                      (CalledProcessError c2 rc2))
                   else Raise (ExceptionOf "Error mounting boot partitions: "
                                 (CalledProcessError c1 rc1)))
         end
     end.
Proof.
  cbv zeta. unfold Boot.setup_boot_directories. py_unfold. py_simpl.
  destruct efi as [e |]; destruct bootp as [b |]; py_simpl; py_norm;
    repeat (py_case; py_simpl; py_norm);
    try py_trace; repeat split; reflexivity.
Qed.

(** ** Composing runs *)

Section Runs.

Import Plan.

Lemma commands_app (t1 t2 : trace) :
  commands (t1 ++ t2) = commands t1 ++ commands t2.
Proof.
  induction t1 as [| [argv input | s | s e | p | p | c] t1 IH]; simpl;
    rewrite ?IH; reflexivity.
Qed.

Lemma argvs_app (t1 t2 : trace) : argvs (t1 ++ t2) = argvs t1 ++ argvs t2.
Proof. unfold argvs. now rewrite commands_app, map_app. Qed.

Lemma emitted_of_log {A} (m : M A) (E : env) (w : world) (t : trace) :
  log (snd (m E w)) = log w ++ t -> emitted m E w = t.
Proof. intros H. unfold emitted. rewrite H. apply skipn_length_app. Qed.

Lemma firstn_prefix_app {X} (n : nat) (p q : list X) :
  exists k, firstn n p = firstn k (p ++ q).
Proof.
  exists (Nat.min n (length p)).
  rewrite firstn_app.
  replace (Nat.min n (length p) - length p)%nat with 0%nat by lia.
  cbn [firstn]. rewrite app_nil_r.
  destruct (Nat.le_ge_cases n (length p)) as [H | H].
  - now rewrite Nat.min_l.
  - rewrite Nat.min_r by exact H.
    now rewrite !firstn_all2 by lia.
Qed.

Lemma all_succeed_app_l (E : env) (p q : list (list string)) :
  all_succeed E (p ++ q) -> all_succeed E p.
Proof. intros H t c Hin. apply H, in_or_app. now left. Qed.

Lemma all_succeed_app_r (E : env) (p q : list (list string)) :
  all_succeed E (p ++ q) -> all_succeed E q.
Proof. intros H t c Hin. apply H, in_or_app. now right. Qed.

Context {A B : Type}.

Lemma runs_eq (m : M A) (E : env) (w : world) (p q : list (list string)) :
  p = q -> runs m E w p -> runs m E w q.
Proof. now intros ->. Qed.

Lemma runs_ret (a : A) (E : env) (w : world) : runs (ret a) E w [].
Proof.
  unfold runs, emitted, ret. cbn [fst snd is_ok].
  rewrite skipn_all. repeat split; try reflexivity.
  - exists []. now rewrite app_nil_r.
  - now exists 0%nat.
Qed.

(** Sequencing: the plans are concatenated. *)
Lemma runs_bind (m : M A) (k : A -> M B) (E : env) (w : world)
    (p q : list (list string)) :
  runs m E w p ->
  (forall a w', m E w = (Ok a, w') -> runs (k a) E w' q) ->
  runs (bind m k) E w (p ++ q).
Proof.
  intros (Hlog & Hpre & Hok & Hall) Hk.
  destruct Hlog as [t1 Ht1]. pose proof (emitted_of_log _ _ _ _ Ht1) as Hem.
  rewrite Hem in Hpre, Hok.
  unfold runs, emitted, bind in *.
  destruct (m E w) as [[a | e] w'] eqn:Hm; cbn [fst snd is_ok] in *.
  - destruct (Hk a w' eq_refl) as (Hlog2 & Hpre2 & Hok2 & Hall2).
    destruct Hlog2 as [t2 Ht2].
    unfold emitted in Hpre2, Hok2.
    rewrite Ht2, Ht1, skipn_length_app in Hpre2, Hok2.
    rewrite Ht2, Ht1, <- app_assoc, skipn_length_app, argvs_app.
    rewrite (Hok eq_refl) in *.
    split; [exists (t1 ++ t2); now rewrite app_assoc |].
    split; [| split].
    + destruct Hpre2 as [n Hn]. exists (length p + n)%nat.
      now rewrite Hn, firstn_app_2.
    + intros H. now rewrite (Hok2 H).
    + intros H. apply Hall2. eapply all_succeed_app_r, H.
  - rewrite Ht1, skipn_length_app.
    split; [now exists t1 |]. split; [| split].
    + destruct Hpre as [n Hn]. rewrite Hn. apply firstn_prefix_app.
    + discriminate.
    + intros H. apply Hall. eapply all_succeed_app_l, H.
Qed.

(** A handler that only re-raises another exception changes neither
    the commands nor whether the call returns normally. *)
Lemma runs_reraise (m : M A) (sel : exn -> bool) (f : exn -> exn)
    (E : env) (w : world) (p : list (list string)) :
  runs m E w p ->
  runs (try_except m sel (fun e => raise (f e))) E w p.
Proof.
  unfold runs, emitted, try_except, raise.
  destruct (m E w) as [[a | e] w']; cbn [fst snd is_ok]; [tauto |].
  destruct (sel e); cbn [fst snd is_ok]; tauto.
Qed.

End Runs.

Section RunsPrimitives.

Import Plan.

Variables (E : env) (w : world).

Lemma runs_emit (e : event) :
  commands [e] = [] -> runs (emit e) E w [].
Proof.
  intros He.
  unfold runs, emitted, emit, argvs. cbn [fst snd log is_ok].
  rewrite skipn_length_app, He. repeat split; try reflexivity.
  - now exists [e].
  - now exists 0%nat.
Qed.

Lemma runs_print (s : string) : runs (print s) E w [].
Proof. now apply runs_emit. Qed.

Lemma runs_makedirs (d : string) : runs (emit (MakeDirs d)) E w [].
Proof. now apply runs_emit. Qed.

Lemma runs_set_boot (b : BootManager) : runs (set_boot b) E w [].
Proof.
  unfold runs, emitted, set_boot. cbn [fst snd log is_ok].
  rewrite skipn_all. repeat split; try reflexivity.
  - exists []. now rewrite app_nil_r.
  - now exists 0%nat.
Qed.

Lemma runs_if_makedirs (c : bool) (d : string) :
  runs (if c then emit (MakeDirs d) else ret tt) E w [].
Proof. destruct c; [apply runs_makedirs | apply runs_ret]. Qed.

Lemma runs_subprocess_run (cmd : list string) :
  runs (subprocess_run cmd true) E w [cmd].
Proof.
  unfold runs, emitted, subprocess_run. cbn [andb].
  destruct (proc_returncode E (log w) cmd =? 0) eqn:Hrc;
    cbn [negb fst snd log is_ok]; rewrite skipn_length_app;
    repeat split; try reflexivity; try discriminate.
  - now exists [Run cmd None].
  - now exists 1%nat.
  - now exists [Run cmd None].
  - now exists 1%nat.
  - intros Hall. rewrite (Hall (log w) cmd) in Hrc by (now left).
    discriminate Hrc.
Qed.

End RunsPrimitives.

Lemma runs_get {A} (k : world -> M A) (E : env) (w : world)
    (p : list (list string)) :
  Plan.runs (k w) E w p -> Plan.runs (bind get k) E w p.
Proof. intros H. exact H. Qed.

Lemma runs_bind_ret {A B} (v : A) (k : A -> M B) (E : env) (w : world)
    (p : list (list string)) :
  Plan.runs (k v) E w p -> Plan.runs (bind (ret v) k) E w p.
Proof. intros H. exact H. Qed.

(** One step of a proof that a program follows a plan: split a
    sequence, look through a re-raising handler, or discharge a
    primitive. *)
Ltac runs_step :=
  cbv beta zeta;
  lazymatch goal with
  | |- Plan.runs (bind get _) _ _ _ => apply runs_get
  | |- Plan.runs (bind (ret _) _) _ _ _ => apply runs_bind_ret
  | |- Plan.runs (bind _ _) _ _ _ => eapply runs_bind; [| intros ? ? _]
  | |- Plan.runs (try_except _ _ (fun e => raise _)) _ _ _ =>
      apply runs_reraise
  | |- Plan.runs (print _) _ _ _ => apply runs_print
  | |- Plan.runs (emit (MakeDirs _)) _ _ _ => apply runs_makedirs
  | |- Plan.runs (if _ then emit (MakeDirs _) else ret tt) _ _ _ =>
      apply runs_if_makedirs
  | |- Plan.runs (subprocess_run _ true) _ _ _ => apply runs_subprocess_run
  | |- Plan.runs (set_boot _) _ _ _ => apply runs_set_boot
  | |- Plan.runs (ret _) _ _ _ => apply runs_ret
  end.

(** ** Mounting *)

(** What [import_pool] leaves behind: the same objects, and a trace
    longer by the command and one message. *)
Lemma import_pool_world (E : env) (w : world) (mount : bool) :
  exists (b : bool) (t : trace),
    ZFS.import_pool mount E w = (Ok b, Plan.with_log w (log w ++ t))
    /\ argvs t = [ZFS.import_pool_cmd (zfs w) mount].
Proof.
  unfold ZFS.import_pool, Plan.with_log. py_unfold. py_simpl.
  destruct (encryption (zfs w)); py_simpl; py_case; py_simpl; py_norm;
    eexists _, [_; _]; split; reflexivity.
Qed.

(** With an EFI partition given, [setup_boot_directories] follows the
    plan: mount the EFI partition, then the separate boot partition if
    there is one. *)
Lemma setup_boot_directories_runs (E : env) (w : world)
    (root pool efi : string) (bootp : option string) :
  Plan.runs (Boot.setup_boot_directories root pool (Some efi) bootp) E w
    (["mount"; efi; path_join root "boot/efi"]
     :: match bootp with
        | Some b => [["mount"; b; path_join root "boot"]]
        | None => []
        end).
Proof.
  unfold Boot.setup_boot_directories.
  destruct bootp as [b |];
    cbn [subprocess_run_opt all_str option_map].
  all: eapply runs_eq; cycle 1.
  all: try (repeat runs_step).
  all: reflexivity.
Qed.

Lemma runs_follows {A} (m : M A) (E : env) (w : world)
    (q : list (list string)) :
  Plan.runs m E w q -> Plan.follows m E w [] q.
Proof. intros H. exact H. Qed.

(** A first part that always returns normally contributes its commands
    to the unconditional prefix. *)
Lemma follows_bind_always {A B} (m : M A) (k : A -> M B) (E : env)
    (w : world) (a : A) (t : trace) (pre q : list (list string)) :
  m E w = (Ok a, Plan.with_log w (log w ++ t)) ->
  Plan.follows (k a) E (Plan.with_log w (log w ++ t)) pre q ->
  Plan.follows (bind m k) E w (argvs t ++ pre) q.
Proof.
  intros Hm (Hlog & Hpre & Hok & Hall).
  destruct Hlog as [t2 Ht2].
  rewrite (emitted_of_log _ _ _ _ Ht2) in Hpre, Hok.
  cbn [Plan.with_log log] in Ht2.
  unfold Plan.follows, emitted, bind. rewrite Hm.
  cbn [fst snd].
  rewrite Ht2, <- app_assoc, skipn_length_app, argvs_app, <- app_assoc.
  split; [now exists (t ++ t2) |]. split; [| split].
  - destruct Hpre as [n Hn]. exists n. now rewrite Hn, app_assoc.
  - intros H. now rewrite (Hok H).
  - exact Hall.
Qed.

Lemma follows_eq {A} (m : M A) (E : env) (w : world)
    (pre pre' q q' : list (list string)) :
  pre = pre' -> q = q' ->
  Plan.follows m E w pre q -> Plan.follows m E w pre' q'.
Proof. now intros -> ->. Qed.

(** X8. With a recorded root dataset and a known EFI partition,
    [mount_filesystems] first launches the pool import without mounting
    and then, whether or not the import succeeded, an initial part of
    one fixed plan: set the mountpoint of and mount the root dataset,
    then home, var, var/log and var/cache in that order, then mount the
    EFI partition and, if there is one, the separate boot partition. It
    returns normally only after launching the whole plan, and it does so
    whenever every command of the plan succeeds, whatever the import
    returned. *)
Theorem mount_filesystems_plan (E : env) (w : world) (r efi : string) :
  dict_get (datasets (zfs w)) "root" = Some (Some r) ->
  dict_get (partitions w) "efi" = Some (Some efi) ->
  let p := pool_name (zfs w) in
  let root := root_mount (inst w) in
  let import := ["zpool"; "import"; "-d"; "/dev/disk/by-id"; "-f"; "-N"; p] in
  let plan :=
    [["zfs"; "set"; "mountpoint=" +++ root; r];
     ["zfs"; "mount"; r];
     ["zfs"; "set"; "mountpoint=" +++ root +++ "/home"; p +++ "/home"];
     ["zfs"; "mount"; p +++ "/home"];
     ["zfs"; "set"; "mountpoint=" +++ root +++ "/var"; p +++ "/var"];
     ["zfs"; "mount"; p +++ "/var"];
     ["zfs"; "set"; "mountpoint=" +++ root +++ "/var/log"; p +++ "/var/log"];
     ["zfs"; "mount"; p +++ "/var/log"];
     ["zfs"; "set"; "mountpoint=" +++ root +++ "/var/cache";
      p +++ "/var/cache"];
     ["zfs"; "mount"; p +++ "/var/cache"];
     ["mount"; efi; path_join root "boot/efi"]]
    ++ match Inst.dict_get_or_none (partitions w) "boot" with
       | Some b => [["mount"; b; path_join root "boot"]]
       | None => []
       end in
  let issued := argvs (emitted Inst.mount_filesystems E w) in
  let returned := Plan.is_ok (fst (Inst.mount_filesystems E w)) in
  (exists n, issued = import :: firstn n plan)
  /\ (returned = true -> issued = import :: plan)
  /\ ((forall t c, In c plan -> proc_returncode E t c = 0) ->
      returned = true).
Proof.
  intros Hroot Hefi p root import plan issued returned.
  subst issued returned.
  destruct (import_pool_world E
              (Plan.with_log w
                 (log w ++ [Print (nl +++ "Mounting filesystems...")]))
              false) as (b & t & Himp & Ht).
  cbn [Plan.with_log zfs log] in Ht.
  enough (H : Plan.follows Inst.mount_filesystems E w [import] plan)
    by (destruct H as (_ & H2 & H3 & H4); auto).
  unfold Inst.mount_filesystems.
  eapply follows_eq; cycle 2.
  - eapply follows_bind_always; [reflexivity |].
    eapply follows_bind_always; [exact Himp |].
    apply runs_follows.
    apply runs_get. cbv beta zeta.
    cbn [Plan.with_log zfs inst partitions log].
    unfold Inst.dict_item. rewrite Hroot, Hefi.
    cbn [subprocess_run_opt all_str option_map for_each Inst.child_mounts
         fst snd].
    repeat (runs_step;
            cbn [subprocess_run_opt all_str option_map for_each fst snd]).
    apply setup_boot_directories_runs.
  - now rewrite Ht.
  - subst plan. cbn [app]. reflexivity.
Qed.

Lemma mount_filesystems_plan_witness :
  Plan.is_ok
    (fst (Inst.mount_filesystems
            (Scenario.machine Scenario.never (Scenario.plain_answers "single" 0))
            (Scenario.created true
               (Scenario.machine Scenario.never
                  (Scenario.plain_answers "single" 0))))) = true.
Proof.
  apply (proj2 (proj2 (mount_filesystems_plan
           (Scenario.machine Scenario.never (Scenario.plain_answers "single" 0))
           (Scenario.created true
              (Scenario.machine Scenario.never
                 (Scenario.plain_answers "single" 0)))
           "rpool/ROOT/arch" "/dev/sda1" eq_refl eq_refl))).
  intros t c _. reflexivity.
Defined.

(** X9. Without a recorded root dataset (no successful [create_datasets]
    before), [mount_filesystems] still launches the pool import and only
    then raises [KeyError]: nothing is mounted. *)
Theorem mount_filesystems_without_datasets (E : env) (w : world) :
  dict_get (datasets (zfs w)) "root" = None ->
  fst (Inst.mount_filesystems E w) = Raise (KeyError "root")
  /\ argvs (emitted Inst.mount_filesystems E w)
     = [["zpool"; "import"; "-d"; "/dev/disk/by-id"; "-f"; "-N";
         pool_name (zfs w)]].
Proof.
  intros Hroot.
  unfold Inst.mount_filesystems, ZFS.import_pool, ZFS.import_pool_cmd,
    Inst.dict_item.
  py_unfold. py_simpl. cbn [negb app].
  destruct (encryption (zfs w)); py_simpl; py_case; py_simpl;
    rewrite Hroot; py_simpl; py_trace; split; reflexivity.
Qed.

Lemma mount_filesystems_without_datasets_witness :
  fst (Inst.mount_filesystems
         (Scenario.machine Scenario.never (Scenario.plain_answers "single" 0))
         world_init) = Raise (KeyError "root").
Proof.
  apply (proj1 (mount_filesystems_without_datasets
                  (Scenario.machine Scenario.never
                     (Scenario.plain_answers "single" 0))
                  world_init eq_refl)).
Defined.

(** ** Teardown, cleanup and finalization *)

(** The teardown has no failing path. *)
Lemma unmount_filesystems_total (E : env) (w : world) :
  exists t,
    Inst._unmount_filesystems E w = (Ok tt, Plan.with_log w (log w ++ t)).
Proof.
  unfold Inst._unmount_filesystems, Boot.unmount_boot, Inst.unmount_datasets,
    Inst.dict_item, ZFS.export_pool, Plan.with_log.
  py_unfold. py_simpl.
  destruct (separate_boot (boot w)); py_simpl;
    repeat (py_case; py_simpl);
    (destruct (dict_get (datasets (zfs w)) "root") as [[r |] |]); py_simpl;
    try (destruct (export_prompt E); py_simpl; repeat (py_case; py_simpl));
    py_norm; eexists; reflexivity.
Qed.

(** X10. [_unmount_filesystems] returns normally whatever the commands
    return and whatever has been recorded, and changes nothing but the
    trace. *)
Theorem unmount_filesystems_returns (E : env) (w : world) :
  exists t,
    Inst._unmount_filesystems E w = (Ok tt, Plan.with_log w (log w ++ t)).
Proof. exact (unmount_filesystems_total E w). Qed.

(** X11. When no root dataset is recorded, teardown unmounts the boot
    partitions and stops there with a warning: no dataset unmount is
    launched and the pool is not exported, whatever the operator would
    have answered. *)
Theorem unmount_filesystems_without_datasets (E : env) (w : world) :
  dict_get (datasets (zfs w)) "root" = None ->
  let efi := ["umount"; path_join (bm_root_mount (boot w)) "boot/efi"] in
  let bootp := ["umount"; path_join (bm_root_mount (boot w)) "boot"] in
  let rc1 := proc_returncode E
               (log w ++ [Print "Unmounting filesystems..."]) efi in
  argvs (emitted Inst._unmount_filesystems E w)
  = efi :: (if (rc1 =? 0) && separate_boot (boot w) then [bootp] else [])
  /\ In (PrintExn "Warning: Error unmounting ZFS datasets: " (KeyError "root"))
        (emitted Inst._unmount_filesystems E w).
Proof.
  intros Hroot. cbv zeta.
  unfold Inst._unmount_filesystems, Boot.unmount_boot, Inst.unmount_datasets,
    Inst.dict_item.
  py_unfold. py_simpl.
  destruct (separate_boot (boot w)); py_simpl;
    repeat (py_case; py_simpl); rewrite Hroot; py_simpl; py_trace;
    (split; [reflexivity | in_list]).
Qed.

Lemma unmount_filesystems_without_datasets_witness :
  In (PrintExn "Warning: Error unmounting ZFS datasets: " (KeyError "root"))
     (emitted Inst._unmount_filesystems
        (Scenario.machine Scenario.never (Scenario.plain_answers "single" 0))
        world_init).
Proof.
  apply (proj2 (unmount_filesystems_without_datasets
                  (Scenario.machine Scenario.never
                     (Scenario.plain_answers "single" 0))
                  world_init eq_refl)).
Defined.

(** Once the installation is marked complete, [cleanup] is a no-op. *)
Lemma cleanup_when_complete (E : env) (w : world) :
  installation_complete (inst w) = true -> Inst.cleanup E w = (Ok tt, w).
Proof.
  intros H. unfold Inst.cleanup, bind, get, ret. cbn [fst snd].
  now rewrite H.
Qed.

(** X12. [cleanup] does nothing at all once the installation is marked
    complete; otherwise it announces itself, runs the teardown, tries to
    remove the mount root, and returns normally. *)
Theorem cleanup_outcome (E : env) (w : world) :
  (installation_complete (inst w) = true -> Inst.cleanup E w = (Ok tt, w))
  /\ (installation_complete (inst w) = false ->
      exists t,
        Inst.cleanup E w
        = (Ok tt,
           Plan.with_log w
             (log w ++ Print "Cleaning up..." :: t
                    ++ [RmDir (root_mount (inst w))]))
        /\ emitted Inst._unmount_filesystems E
             (Plan.with_log w (log w ++ [Print "Cleaning up..."])) = t).
Proof.
  split; intros H; [now apply cleanup_when_complete |].
  unfold Inst.cleanup.
  destruct (unmount_filesystems_total E
              (Plan.with_log w (log w ++ [Print "Cleaning up..."])))
    as [t Ht].
  exists t. split.
  - unfold bind at 1, get. cbn [fst snd]. rewrite H. cbn [negb].
    unfold bind at 1, print, emit.
    change {| zfs := zfs w; boot := boot w; inst := inst w;
              partitions := partitions w;
              log := log w ++ [Print "Cleaning up..."] |}
      with (Plan.with_log w (log w ++ [Print "Cleaning up..."])).
    unfold bind. rewrite Ht. unfold emit, Plan.with_log.
    cbn [zfs boot inst partitions log]. now rewrite <- !app_assoc.
  - apply emitted_of_log. rewrite Ht. reflexivity.
Qed.

Lemma cleanup_outcome_witness :
  exists t,
    Inst.cleanup
      (Scenario.machine Scenario.never (Scenario.plain_answers "single" 0))
      world_init
    = (Ok tt,
       Plan.with_log world_init
         (log world_init ++ Print "Cleaning up..." :: t
            ++ [RmDir (root_mount (inst world_init))]))
    /\ emitted Inst._unmount_filesystems
         (Scenario.machine Scenario.never (Scenario.plain_answers "single" 0))
         (Plan.with_log world_init
            (log world_init ++ [Print "Cleaning up..."])) = t.
Proof.
  apply (proj2 (cleanup_outcome
                  (Scenario.machine Scenario.never
                     (Scenario.plain_answers "single" 0))
                  world_init)).
  reflexivity.
Defined.

(** X13. Whatever the collaborating stages do, a [finalize_installation]
    that returns normally leaves the installation marked complete, so
    that a later [cleanup] does nothing. *)
Theorem finalize_then_cleanup (c : collaborators) (E : env) (w w' : world) :
  Inst.finalize_installation c E w = (Ok tt, w') ->
  installation_complete (inst w') = true
  /\ Inst.cleanup E w' = (Ok tt, w').
Proof.
  intros H.
  assert (Hdone : installation_complete (inst w') = true).
  { unfold Inst.finalize_installation, Inst.configure_bootloader,
      Inst.set_installation_complete, bind, print, emit, get, set_inst in H.
    cbn [fst snd] in H.
    repeat match type of H with
           | context [let (_, _) := ?x in _] =>
               lazymatch x with
               | context [let (_, _) := _ in _] => fail
               | _ => destruct x as [[? | ?] ?]; cbn [fst snd] in H;
                      try discriminate H
               end
           end.
    injection H as <-. reflexivity. }
  split; [exact Hdone |].
  now apply cleanup_when_complete.
Qed.

Lemma finalize_then_cleanup_witness :
  installation_complete
    (inst (snd (Inst.finalize_installation (Scenario.quiet false)
                  Cases.healthy
                  (Scenario.mounted false Cases.healthy)))) = true.
Proof.
  refine (proj1 (finalize_then_cleanup (Scenario.quiet false) Cases.healthy
                   (Scenario.mounted false Cases.healthy) _ _)).
  vm_compute. reflexivity.
Defined.

(** ** The entry point *)

(** X14. Without root privileges [main] prints its banner and two error
    lines and exits with status 1: no stage is entered and no process is
    launched, whatever the stages would have done. *)
Theorem main_requires_root (c : collaborators) (debug : bool) (E : env)
    (w : world) :
  euid E <> 0 ->
  Main.main c debug E w
  = (Raise (SystemExit 1),
     Plan.with_log w
       (log w
        ++ [Print rule80; Print "Arch Linux ZFS Installer"; Print rule80;
            Print (nl +++ "WARNING: This installer will modify your system. Make sure you have");
            Print ("a backup of all important data before proceeding." +++ nl);
            Print "Error: This installer must be run with root privileges.";
            Print "Please run this script with sudo or as the root user.";
            Exit 1])).
Proof.
  intros H. apply Z.eqb_neq in H.
  unfold Main.main, Main.banner, Main.sys_exit, Plan.with_log.
  py_unfold. py_simpl. rewrite H. py_simpl. py_norm. reflexivity.
Qed.

Lemma main_requires_root_witness :
  fst (Main.main (Scenario.quiet false) false
         {| proc_returncode := fun _ _ => 0;
            proc_stderr := fun _ _ => "";
            meminfo := None;
            parse_int := Py.int;
            euid := 1000;
            pool_prompt := Scenario.plain_answers "single" 0;
            export_prompt := true |}
         world_init)
  = Raise (SystemExit 1).
Proof.
  rewrite main_requires_root; [reflexivity | discriminate].
Defined.

(** X15. As root, what [main] does with the outcome of its stages: a
    normal end is a normal return with nothing added (exit status 0); an
    operator interrupt prints the cancellation line and exits with
    status 130; an ordinary exception prints the error and exits with
    status 1; an exit request raised by a stage passes through
    untouched. In no case does [main] launch a process of its own. *)
Theorem main_exit_status (c : collaborators) (debug : bool) (E : env)
    (w w' : world) (r : result unit) :
  euid E = 0 ->
  Main.workflow c E (snd (Main.banner E w)) = (r, w') ->
  Main.main c debug E w
  = match r with
    | Ok _ => (Ok tt, w')
    | Raise KeyboardInterrupt =>
        (Raise (SystemExit 130),
         Plan.with_log w'
           (log w' ++ [Print (nl +++ "Installation cancelled by user.");
                       Exit 130]))
    | Raise (SystemExit n) => (Raise (SystemExit n), w')
    | Raise e =>
        (Raise (SystemExit 1),
         Plan.with_log w'
           (log w'
            ++ PrintExn (nl +++ "Error during installation: ") e
               :: (if debug
                   then [PrintExn "Traceback (most recent call last):" e]
                   else [])
            ++ [Exit 1]))
    end.
Proof.
  intros Hroot Hrun.
  assert (Hb : Main.banner E w = (Ok tt, snd (Main.banner E w)))
    by reflexivity.
  unfold Main.main, bind. rewrite Hb. unfold ask. rewrite Hroot.
  cbn [Z.eqb negb]. unfold try_except. rewrite Hrun.
  destruct r as [[] | e]; [reflexivity |].
  destruct e; cbn [Main.catches is_Exception]; try reflexivity;
    destruct debug;
    unfold Main.handler, Main.sys_exit, Plan.with_log; py_unfold; py_simpl;
    py_norm; reflexivity.
Qed.

Lemma main_exit_status_witness :
  fst (Main.main Cases.interrupted false Cases.healthy world_init)
  = Raise (SystemExit 130).
Proof.
  exact (f_equal fst
           (main_exit_status Cases.interrupted false Cases.healthy world_init
              _ (Raise KeyboardInterrupt) eq_refl eq_refl)).
Defined.

(** ** Partitioning the whole disk *)

Lemma dict_get_set_same {V} (d : dict V) (k : string) (v : V) :
  dict_get (Disk.dict_set d k v) k = Some v.
Proof.
  induction d as [| [k0 v0] d IH]; simpl.
  - now rewrite String.eqb_refl.
  - destruct (String.eqb k0 k) eqn:H; simpl; now rewrite H.
Qed.

Lemma dict_get_set_other {V} (d : dict V) (k k' : string) (v : V) :
  k <> k' -> dict_get (Disk.dict_set d k v) k' = dict_get d k'.
Proof.
  intros Hne. induction d as [| [k0 v0] d IH]; simpl.
  - apply String.eqb_neq in Hne. now rewrite Hne.
  - destruct (String.eqb k0 k) eqn:H; simpl.
    + apply String.eqb_eq in H. subst k0.
      apply String.eqb_neq in Hne. now rewrite Hne.
    + now rewrite IH.
Qed.
(** X16. [_create_full_disk_partitions] touches the disk only after the
    operator confirmed: a declined confirmation raises "Partitioning
    cancelled by user." with nothing launched and no partition recorded.
    After a confirmation the commands launched are an initial part of
    the plan: wipe the partition table, create the EFI partition, create
    the boot and ZFS partitions (or the ZFS partition alone), re-read
    the table, format the EFI partition, format the boot partition. A
    normal return means the whole plan ran, and then partition 1 is
    recorded as EFI and the last partition as ZFS; without a separate
    boot partition the boot entry is left as it was. *)
Theorem full_disk_partitions_outcome (E : env) (w : world) (disk : string)
    (separate confirm : bool) :
  let m := Disk._create_full_disk_partitions disk separate confirm in
  let issued := argvs (emitted m E w) in
  let after := partitions (snd (m E w)) in
  let plan :=
    [["sgdisk"; "--zap-all"; disk];
     ["sgdisk"; "--new=1:0:+512M"; "--typecode=1:ef00";
      "--change-name=1:EFI"; disk]]
    ++ (if separate
        then [["sgdisk"; "--new=2:0:+1G"; "--typecode=2:8300";
               "--change-name=2:BOOT"; disk];
              ["sgdisk"; "--new=3:0:0"; "--typecode=3:bf00";
               "--change-name=3:ZFS"; disk]]
        else [["sgdisk"; "--new=2:0:0"; "--typecode=2:bf00";
               "--change-name=2:ZFS"; disk]])
    ++ [["partprobe"; disk]; ["mkfs.fat"; "-F32"; disk +++ "1"]]
    ++ (if separate then [["mkfs.ext4"; disk +++ "2"]] else []) in
  if confirm
  then (exists n, issued = firstn n plan)
       /\ (Plan.is_ok (fst (m E w)) = true ->
           issued = plan
           /\ dict_get after "efi" = Some (Some (disk +++ "1"))
           /\ dict_get after "zfs"
              = Some (Some (disk +++ (if separate then "3" else "2")))
           /\ dict_get after "boot"
              = (if separate then Some (Some (disk +++ "2"))
                 else dict_get (partitions w) "boot"))
       /\ ((forall t c, In c plan -> proc_returncode E t c = 0) ->
           Plan.is_ok (fst (m E w)) = true)
  else fst (m E w) = Raise (Exception "Partitioning cancelled by user.")
       /\ issued = []
       /\ after = partitions w.
Proof.
  cbv zeta. unfold Disk._create_full_disk_partitions, Disk.set_partition,
    Inst.dict_item.
  destruct confirm; cbn [negb].
  2: { py_unfold. py_simpl. py_trace. repeat split. }
  py_unfold. py_simpl.
  destruct separate; py_simpl; py_norm;
    repeat (first [ py_case
                  | rewrite dict_get_set_same
                  | rewrite dict_get_set_other by discriminate ];
            py_simpl; py_norm);
    py_trace; cbn [Plan.is_ok].
  all: split;
    [ first [ exists 0%nat; reflexivity | exists 1%nat; reflexivity
            | exists 2%nat; reflexivity | exists 3%nat; reflexivity
            | exists 4%nat; reflexivity | exists 5%nat; reflexivity
            | exists 6%nat; reflexivity | exists 7%nat; reflexivity ]
    | split ].
  all: try (intros Hok; discriminate Hok).
  all: try (intros _; repeat split;
            rewrite ?dict_get_set_same;
            repeat (rewrite dict_get_set_other by discriminate;
                    rewrite ?dict_get_set_same);
            reflexivity).
  all: try (intros Hall; reflexivity).
  all: intros Hall; exfalso;
    match goal with
    | H : (proc_returncode _ _ ?c =? 0) = false |- _ =>
        rewrite Hall in H; [discriminate H | in_list]
    end.
Qed.

Lemma full_disk_partitions_outcome_witness :
  Plan.is_ok
    (fst (Disk._create_full_disk_partitions "/dev/sda" true true
            Cases.healthy world_init)) = true.
Proof.
  apply (proj2 (proj2 (full_disk_partitions_outcome Cases.healthy world_init
                         "/dev/sda" true true))).
  intros t c _. reflexivity.
Defined.
(** ** Passwords, services and the base system *)

(** X17. [_set_password] launches [passwd] inside the new system once,
    with the password written twice to its standard input and never on
    its command line; it returns whether [passwd] exited with 0 and
    reports a failure, with the tool's error output, as a warning. *)
Theorem set_password_outcome (E : env) (w : world)
    (root user password : string) :
  let cmd := ["arch-chroot"; root; "passwd"; user] in
  let rc := proc_returncode E (log w) cmd in
  fst (SysConfig._set_password root user password E w) = Ok (rc =? 0)
  /\ emitted (SysConfig._set_password root user password) E w
     = Run cmd (Some (password +++ nl +++ password +++ nl))
       :: (if rc =? 0 then []
           else [Print ("Warning: Error setting password for " +++ user
                        +++ ": " +++ proc_stderr E (log w) cmd)]).
Proof.
  cbv zeta. unfold SysConfig._set_password. py_unfold. py_simpl.
  py_case; py_simpl; py_trace; split; reflexivity.
Qed.

Lemma bind_always {A B} (m : M A) (k : A -> M B) (E : env) (w w' : world)
    (a : A) :
  m E w = (Ok a, w') -> bind m k E w = k a E w'.
Proof. intros H. unfold bind. now rewrite H. Qed.

Lemma with_log_with_log (w : world) (t1 t2 : trace) :
  Plan.with_log (Plan.with_log w t1) t2 = Plan.with_log w t2.
Proof. reflexivity. Qed.

Lemma argvs_print (text : string) (t : trace) :
  argvs (Print text :: t) = argvs t.
Proof. reflexivity. Qed.

(** A loop whose every turn returns normally returns normally, and
    adds to the trace what its turns add, one after the other. *)
Lemma loop_run (E : env) (body : string -> M unit)
    (step : trace -> string -> trace) :
  (forall item w,
     body item E w = (Ok tt, Plan.with_log w (log w ++ step (log w) item))) ->
  forall items w,
    for_each items body E w
    = (Ok tt,
       Plan.with_log w (log w ++ SysConfig.loop_events step items (log w))).
Proof.
  intros Hbody. induction items as [| item items IH]; intros w.
  - cbn [for_each SysConfig.loop_events]. unfold ret, Plan.with_log.
    rewrite app_nil_r. now destruct w.
  - cbn [for_each SysConfig.loop_events].
    rewrite (bind_always _ _ _ _ _ _ (Hbody item w)), IH.
    cbn [Plan.with_log log]. now rewrite <- app_assoc.
Qed.

(** The first loop launches the enabling of every service, whatever the
    earlier ones returned. *)
Lemma enable_loop_commands (E : env) (root : string)
    (services : list string) (t : trace) :
  argvs (SysConfig.loop_events (SysConfig.enable_events E root) services t)
  = map (SysConfig.enable_cmd root) services.
Proof.
  revert t. induction services as [| s l IH]; intros t; [reflexivity |].
  cbn [SysConfig.loop_events map]. rewrite argvs_app, IH.
  unfold SysConfig.enable_events.
  now destruct (proc_returncode E t (SysConfig.enable_cmd root s) =? 0).
Qed.

(** The second loop launches, for each service in order, the install
    and, exactly after an install that exited with 0, the enabling. *)
Lemma additional_loop_commands (E : env) (root : string)
    (services : list string) (t : trace) :
  argvs (SysConfig.loop_events (SysConfig.service_events E root) services t)
  = SysConfig.additional_commands root services
      (SysConfig.install_outcomes E root services t).
Proof.
  revert t. induction services as [| s l IH]; intros t; [reflexivity |].
  cbn [SysConfig.loop_events SysConfig.install_outcomes
       SysConfig.additional_commands].
  rewrite argvs_app, IH. unfold SysConfig.service_events.
  destruct (proc_returncode E t (SysConfig.install_cmd root s) =? 0);
    [| reflexivity].
  now destruct (proc_returncode E _ (SysConfig.enable_cmd root s) =? 0).
Qed.

(** X18. [_configure_services] is best effort throughout: it returns
    normally whatever the commands return. Its trace is the header, the
    turns of the four ZFS services (the enabling, a warning when it
    fails), the second header, the turns of the selected services in
    order, and the closing line. In the turn of a selected service the
    install is launched; the enabling is launched exactly when that
    install exited with 0, and a failure of either is only a warning.
    So the commands launched are the four enablings followed, for each
    selected service, by its install and, where the install succeeded,
    its enabling. *)
Theorem configure_services_best_effort (E : env) (w : world) (root : string)
    (additional : list string) :
  let t0 := log w ++ [Print (nl +++ "Configuring system services...")] in
  let zfs_turns :=
    SysConfig.loop_events (SysConfig.enable_events E root)
      SysConfig.zfs_services t0 in
  let t1 := t0 ++ zfs_turns ++ [Print (nl +++ "Additional services:")] in
  let installed := SysConfig.install_outcomes E root additional t1 in
  fst (SysConfig._configure_services root additional E w) = Ok tt
  /\ emitted (SysConfig._configure_services root additional) E w
     = Print (nl +++ "Configuring system services...")
       :: zfs_turns
       ++ Print (nl +++ "Additional services:")
       :: SysConfig.loop_events (SysConfig.service_events E root)
            additional t1
       ++ [Print "Services configured successfully."]
  /\ argvs (emitted (SysConfig._configure_services root additional) E w)
     = map (SysConfig.enable_cmd root) SysConfig.zfs_services
       ++ SysConfig.additional_commands root additional installed.
Proof.
  cbv zeta.
  set (t0 := log w ++ [Print (nl +++ "Configuring system services...")]).
  set (zfs_turns := SysConfig.loop_events (SysConfig.enable_events E root)
                      SysConfig.zfs_services t0).
  set (t1 := t0 ++ zfs_turns ++ [Print (nl +++ "Additional services:")]).
  assert (H1 : forall s w0,
            try_except
              (subprocess_run (SysConfig.enable_cmd root s) true ;; ret tt)
              is_CalledProcessError
              (fun _ => print ("Warning: Could not enable " +++ s)) E w0
            = (Ok tt,
               Plan.with_log w0
                 (log w0 ++ SysConfig.enable_events E root (log w0) s))).
  { intros s w0. unfold Plan.with_log, SysConfig.enable_events.
    py_unfold. py_simpl. py_case; py_simpl; py_norm; reflexivity. }
  assert (H2 : forall s w0,
            try_except
              (subprocess_run (SysConfig.install_cmd root s) true ;;
               subprocess_run (SysConfig.enable_cmd root s) true ;;
               print ("Enabled " +++ s +++ " service."))
              is_CalledProcessError
              (fun e => print_exn ("Warning: Error enabling " +++ s
                                   +++ ": ") e) E w0
            = (Ok tt,
               Plan.with_log w0
                 (log w0 ++ SysConfig.service_events E root (log w0) s))).
  { intros s w0. unfold Plan.with_log, SysConfig.service_events.
    py_unfold. py_simpl. repeat (py_case; py_simpl); py_norm; reflexivity. }
  assert (Hrun : SysConfig._configure_services root additional E w
                 = (Ok tt,
                    Plan.with_log w
                      (log w
                       ++ Print (nl +++ "Configuring system services...")
                          :: zfs_turns
                       ++ Print (nl +++ "Additional services:")
                          :: SysConfig.loop_events
                               (SysConfig.service_events E root)
                               additional t1
                       ++ [Print "Services configured successfully."]))).
  { unfold SysConfig._configure_services.
    unfold bind at 1, print at 1, emit at 1. cbv beta iota.
    rewrite (bind_always _ _ _ _ _ _
               (loop_run E _ _ H1 SysConfig.zfs_services _)).
    unfold bind at 1, print at 1, emit at 1. cbv beta iota.
    cbn [Plan.with_log zfs boot inst partitions log].
    fold t0. fold zfs_turns.
    rewrite (bind_always _ _ _ _ _ _ (loop_run E _ _ H2 additional _)).
    unfold print, emit, Plan.with_log.
    cbn [zfs boot inst partitions log].
    replace ((t0 ++ zfs_turns) ++ [Print (nl +++ "Additional services:")])
      with t1 by (subst t1; now rewrite <- app_assoc).
    subst t1 t0. rewrite <- ?app_assoc. reflexivity. }
  unfold emitted. rewrite Hrun. cbn [fst snd Plan.with_log log].
  rewrite skipn_length_app.
  split; [reflexivity |]. split; [reflexivity |].
  rewrite argvs_print, argvs_app, argvs_print, argvs_app.
  subst zfs_turns. rewrite enable_loop_commands, additional_loop_commands.
  cbn [argvs commands map]. now rewrite app_nil_r.
Qed.

(** X19. [install_base_system] treats the mirror ranking as optional and
    the package installation as fatal: when ranking is asked for, the
    one reflector command is launched (for all mirrors or for the chosen
    country) and its failure is only a warning; pacstrap is launched in
    every case with the fixed package list built for the chosen kernel,
    and the call returns normally exactly when pacstrap exits with 0,
    raising "Error installing base system" otherwise. *)
Theorem install_base_system_outcome (E : env) (w : world) (update : bool)
    (country : string) (additional : list string) :
  let m := BaseSystem.install_base_system update country additional in
  let pacstrap := ["pacstrap"; root_mount (inst w)]
                  ++ BaseSystem.packages (kernel (boot w)) additional in
  argvs (emitted m E w)
  = (if update then [BaseSystem.reflector_cmd country] else []) ++ [pacstrap]
  /\ exists t,
       fst (m E w)
       = (if proc_returncode E t pacstrap =? 0 then Ok tt
          else Raise (ExceptionOf "Error installing base system: "
                        (CalledProcessError pacstrap
                           (proc_returncode E t pacstrap)))).
Proof.
  cbv zeta. unfold BaseSystem.install_base_system, BaseSystem._update_mirrorlist.
  py_unfold. py_simpl.
  destruct update; py_simpl; py_norm;
    repeat (py_case; py_simpl; py_norm); py_trace;
    (split; [reflexivity |]); eexists;
    match goal with
    | H : (proc_returncode _ ?t (("pacstrap" :: _)) =? 0) = _ |- _ =>
        instantiate (1 := t); rewrite H; reflexivity
    end.
Qed.
(** ** Memory size and the default swap size *)

(** X20. Whenever [_get_memory_size] returns a number it is at least 1,
    and the default swap size computed from it lies between 2 and 32; it
    returns 8 when /proc/meminfo cannot be read; and it returns nothing
    ([None]) exactly when the file can be read and none of its lines
    starts with MemTotal:. *)
Theorem memory_size_and_default_swap (py_int : string -> option Z)
    (meminfo : option (list string)) :
  (forall m, Mem._get_memory_size py_int meminfo = Some m ->
             1 <= m /\ 2 <= Mem.default_swap m <= 32)
  /\ (meminfo = None -> Mem._get_memory_size py_int meminfo = Some 8)
  /\ (Mem._get_memory_size py_int meminfo = None
      <-> exists lines,
            meminfo = Some lines
            /\ forall l, In l lines -> startswith l "MemTotal:" = false).
Proof.
  assert (Hscan : forall lines,
            (forall m, Mem.scan py_int lines = Some m -> 1 <= m)
            /\ (Mem.scan py_int lines = None
                <-> forall l, In l lines -> startswith l "MemTotal:" = false)).
  { induction lines as [| line rest [IH1 IH2]]; cbn [Mem.scan].
    - split; [discriminate |]. split; [intros _ l [] | reflexivity].
    - destruct (startswith line "MemTotal:") eqn:Hl.
      + split.
        * destruct (nth_error (Str.split line) 1) as [token |];
            [destruct (py_int token) as [kb |] |];
            intros m [= <-]; lia.
        * split.
          -- destruct (nth_error (Str.split line) 1) as [token |];
               [destruct (py_int token) |]; discriminate.
          -- intros H. rewrite (H line) in Hl by (now left). discriminate Hl.
      + split; [exact IH1 |]. rewrite IH2. split.
        * intros H l [<- | Hin]; [exact Hl | now apply H].
        * intros H l Hin. apply H. now right. }
  split; [| split].
  - intros m Hm. split; [| unfold Mem.default_swap; lia].
    destruct meminfo as [lines |]; cbn in Hm.
    + now apply (proj1 (Hscan lines)).
    + injection Hm as <-. lia.
  - now intros ->.
  - destruct meminfo as [lines |]; cbn [Mem._get_memory_size].
    + rewrite (proj2 (Hscan lines)). split.
      * intros H. now exists lines.
      * intros (lines' & [= <-] & H). exact H.
    + split; [discriminate | intros (lines & H & _); discriminate H].
Qed.

Lemma memory_size_and_default_swap_witness :
  1 <= 15 /\ 2 <= Mem.default_swap 15 <= 32.
Proof.
  apply (proj1 (memory_size_and_default_swap Py.int
                  (Some ["MemFree: 1 kB" +++ nl;
                         "MemTotal:       16384000 kB" +++ nl])) 15).
  reflexivity.
Defined.

(** X21. What [setup_pool] does about the swap size once the earlier
    prompts are through (encryption declined, or the passphrase
    confirmed); it launches nothing in any case. Without a swap volume
    wanted it returns and the swap size keeps its value. With one wanted
    and a /proc/meminfo that has no MemTotal: line, computing the
    default raises [TypeError] before the size is asked, and the swap
    size keeps its old value. With one wanted and a known memory size it
    returns, and the swap size is the text the operator typed at the
    default offered for that memory size: a str, not an int. *)
Theorem setup_pool_reads_meminfo (E : env) (w : world) :
  let a := pool_prompt E in
  let memory := Mem._get_memory_size (parse_int E) (meminfo E) in
  let after := zfs (snd (ZFS.setup_pool E w)) in
  a_encryption a = false \/ a_confirm_passphrase a = a_passphrase a ->
  commands (emitted ZFS.setup_pool E w) = []
  /\ (a_use_swap a = false ->
      Plan.is_ok (fst (ZFS.setup_pool E w)) = true
      /\ swap_size after = swap_size (zfs w))
  /\ (a_use_swap a = true -> memory = None ->
      fst (ZFS.setup_pool E w) = Raise TypeError
      /\ swap_size after = swap_size (zfs w))
  /\ (forall m, a_use_swap a = true -> memory = Some m ->
      Plan.is_ok (fst (ZFS.setup_pool E w)) = true
      /\ swap_size after = PyStr (a_swap_size a (Mem.default_swap m))).
Proof.
  cbv zeta. intros Hpass. unfold ZFS.setup_pool. py_unfold. py_simpl.
  cbn [ZFS.with_basic_answers ZFS.with_passphrase encryption
       encryption_passphrase].
  assert (Hsame : a_encryption (pool_prompt E) = true ->
                  String.eqb (a_confirm_passphrase (pool_prompt E))
                             (a_passphrase (pool_prompt E)) = true).
  { intros He. destruct Hpass as [Hp | Hp]; [congruence |].
    rewrite Hp. apply String.eqb_refl. }
  destruct (a_encryption (pool_prompt E)); py_simpl;
    try rewrite (Hsame eq_refl); py_simpl;
    destruct (a_advanced (pool_prompt E)); py_simpl;
    destruct (a_use_swap (pool_prompt E)); py_simpl;
    destruct (Mem._get_memory_size (parse_int E) (meminfo E)) as [m0 |];
    py_simpl; py_trace;
    (split; [reflexivity |]);
    (split; [intros H; first [discriminate H | now split] |]);
    (split; [intros H H'; first [discriminate H | discriminate H'
                                | now split] |]);
    intros m H H'; try discriminate H; try discriminate H';
    injection H' as <-; now split.
Qed.

Lemma setup_pool_reads_meminfo_witness :
  fst (ZFS.setup_pool Cases.no_memtotal world_init) = Raise TypeError.
Proof.
  apply (proj1 (proj2 (proj2 (setup_pool_reads_meminfo Cases.no_memtotal
                                world_init (or_introl eq_refl)))));
    reflexivity.
Defined.

(** ** Facts about the string methods *)

Section StringFacts.

Lemma has_lstrip_by (p : ascii -> bool) (c : ascii) (s : string) :
  Str.has c s = false -> Str.has c (Str.lstrip_by p s) = false.
Proof.
  induction s as [| a s IH]; cbn [Str.lstrip_by Str.has]; [reflexivity |].
  intros H. destruct (p a); [| exact H].
  apply orb_false_elim in H. now apply IH.
Qed.

Lemma has_rstrip_by (p : ascii -> bool) (c : ascii) (s : string) :
  Str.has c s = false -> Str.has c (Str.rstrip_by p s) = false.
Proof.
  induction s as [| a s IH]; cbn [Str.rstrip_by Str.has]; [reflexivity |].
  intros H. apply orb_false_elim in H. destruct H as [Ha Hs].
  specialize (IH Hs).
  destruct (Str.rstrip_by p s); [destruct (p a) |]; cbn [Str.has] in *;
    rewrite ?Ha, ?IH; reflexivity.
Qed.

(** No piece of a split contains the separator. *)
Lemma has_split_on (sep : ascii) (s t : string) :
  In t (Str.split_on sep s) -> Str.has sep t = false.
Proof.
  revert t. induction s as [| a s IH]; cbn [Str.split_on]; intros t Hin.
  - destruct Hin as [<- | []]. reflexivity.
  - destruct (Ascii.eqb a sep) eqn:Ha.
    + destruct Hin as [<- | Hin]; [reflexivity | now apply IH].
    + destruct (Str.split_on sep s) as [| t0 ts] eqn:Hs.
      * destruct Hin as [<- | []]. cbn [Str.has]. now rewrite Ha.
      * destruct Hin as [<- | Hin].
        -- cbn [Str.has]. rewrite Ha. apply IH. now left.
        -- apply IH. now right.
Qed.

Lemma has_prefix (c : ascii) (p s : string) :
  String.prefix p s = true -> Str.has c p = true -> Str.has c s = true.
Proof.
  revert s. induction p as [| a p IH]; intros s Hp Hc; [discriminate Hc |].
  destruct s as [| b s]; [discriminate Hp |].
  cbn [String.prefix] in Hp.
  destruct (Ascii.ascii_dec a b) as [<- | Hne]; [| discriminate Hp].
  cbn [Str.has] in *. destruct (Ascii.eqb a c); [reflexivity |].
  cbn [orb] in *. now apply IH.
Qed.

(** A text that contains [p] contains every character of [p]. *)
Lemma has_contains (c : ascii) (s p : string) :
  Py.contains s p = true -> Str.has c p = true -> Str.has c s = true.
Proof.
  induction s as [| a s IH]; cbn [Py.contains]; intros H Hc.
  - rewrite orb_false_r in H. now apply (has_prefix c p).
  - apply orb_true_iff in H. destruct H as [H | H].
    + now apply (has_prefix c p).
    + cbn [Str.has]. rewrite (IH H Hc). apply orb_true_r.
Qed.

(** The value read from a [KEY=...] line never contains an equals
    sign: it is cut at the second one. *)
Lemma value_of_no_equals (chars line : string) :
  Str.has Str.eq_sign (Str.value_of chars line) = false.
Proof.
  unfold Str.value_of, Str.strip_chars, Str.strip.
  apply has_rstrip_by, has_lstrip_by, has_rstrip_by, has_lstrip_by.
  destruct (nth_in_or_default 1 (Str.split_on Str.eq_sign line) EmptyString)
    as [Hin | ->]; [| reflexivity].
  now apply (has_split_on Str.eq_sign line).
Qed.

End StringFacts.

(** ** The patch of /etc/default/grub *)

(** The rewritten form of a kernel command line. *)
Lemma cmdline_line_rewritten (pool_name : option string)
    (line : string) :
  Grub.cmdline_line pool_name line
  = "GRUB_CMDLINE_LINUX=" +++ Str.dq
    +++ (Str.value_of Grub.quotes line +++ " zfs=" +++ Str.fstr pool_name
         +++ "/ROOT/arch")
    +++ Str.dq +++ nl.
Proof.
  unfold Grub.cmdline_line.
  destruct (Py.contains (Str.value_of Grub.quotes line) "zfs=") eqn:H;
    [| reflexivity].
  pose proof (has_contains Str.eq_sign _ _ H eq_refl) as Hc.
  now rewrite value_of_no_equals in Hc.
Qed.

(** X22. The guard of the kernel command line patch can never find
    "zfs=", because the value it inspects was cut at the first equals
    sign after the key. So every GRUB_CMDLINE_LINUX= line is rewritten,
    on every run, to that cut value followed by the zfs= parameter: what
    followed a second equals sign is lost. *)
Theorem grub_cmdline_always_rewritten (pool_name : option string)
    (line : string) :
  Grub.cmdline_line pool_name line
  = "GRUB_CMDLINE_LINUX=" +++ Str.dq
    +++ (Str.value_of Grub.quotes line +++ " zfs=" +++ Str.fstr pool_name
         +++ "/ROOT/arch")
    +++ Str.dq +++ nl.
Proof. exact (cmdline_line_rewritten pool_name line). Qed.

Section GrubFacts.

Lemma append_assoc (a b c : string) : (a +++ b) +++ c = a +++ b +++ c.
Proof. induction a as [| x a IH]; cbn; [reflexivity | now rewrite IH]. Qed.

Lemma prefix_append (p x : string) : String.prefix p (p +++ x) = true.
Proof.
  induction p as [| a p IH]; cbn; [now destruct x |].
  destruct (Ascii.ascii_dec a a); [exact IH | contradiction].
Qed.

Lemma startswith_append (key x : string) : startswith (key +++ x) key = true.
Proof. apply prefix_append. Qed.

Lemma contains_append_r (a b p : string) :
  Py.contains b p = true -> Py.contains (a +++ b) p = true.
Proof.
  intros H. induction a as [| x a IH]; [exact H |].
  cbn [String.append Py.contains]. rewrite IH. apply orb_true_r.
Qed.

Lemma contains_here (p x : string) : Py.contains (p +++ x) p = true.
Proof.
  destruct (p +++ x) eqn:H; cbn [Py.contains]; rewrite <- H, prefix_append;
    reflexivity.
Qed.

Lemma contains_middle (a p b : string) : Py.contains (a +++ p +++ b) p = true.
Proof. apply contains_append_r, contains_here. Qed.

(** Two prefixes of one string are prefixes of each other, one way or
    the other. *)
Lemma prefix_comparable (p q s : string) :
  String.prefix p s = true -> String.prefix q s = true ->
  String.prefix p q = true \/ String.prefix q p = true.
Proof.
  revert p q. induction s as [| c s IH]; intros p q Hp Hq.
  - destruct p; [| discriminate Hp]. left. now destruct q.
  - destruct p as [| a p]; [left; now destruct q |].
    destruct q as [| b q]; [right; reflexivity |].
    cbn [String.prefix] in *.
    destruct (Ascii.ascii_dec a c) as [-> | ?]; [| discriminate Hp].
    destruct (Ascii.ascii_dec b c) as [-> | ?]; [| discriminate Hq].
    destruct (Ascii.ascii_dec c c); [| contradiction].
    now apply IH.
Qed.

(** A line cannot start with two keys neither of which starts the
    other. *)
Lemma startswith_exclusive (line k1 k2 : string) :
  String.prefix k1 k2 = false -> String.prefix k2 k1 = false ->
  startswith line k1 = true -> startswith line k2 = false.
Proof.
  intros H12 H21 H1. destruct (startswith line k2) eqn:H2; [| reflexivity].
  destruct (prefix_comparable k1 k2 line H1 H2) as [H | H]; congruence.
Qed.

Variables (key : string) (f : string -> string) (missing : string).

(** What a patch loop leaves: either the first line with the key,
    patched, or the line appended for a missing key. *)
Lemma patch_or_append_result (lines : list string) :
  In missing (Grub.patch_or_append key f missing lines)
  \/ exists line, In line lines /\ startswith line key = true
                  /\ In (f line) (Grub.patch_or_append key f missing lines).
Proof.
  induction lines as [| l rest IH]; cbn [Grub.patch_or_append].
  - left. now left.
  - destruct (startswith l key) eqn:Hl.
    + right. exists l. repeat split; [now left | exact Hl | now left].
    + destruct IH as [IH | (line & Hin & Hk & Hf)].
      * left. now right.
      * right. exists line. repeat split; [now right | exact Hk | now right].
Qed.

(** Lines without the key pass through. *)
Lemma patch_or_append_keeps (lines : list string) (l : string) :
  In l lines -> startswith l key = false ->
  In l (Grub.patch_or_append key f missing lines).
Proof.
  induction lines as [| l0 rest IH]; cbn [Grub.patch_or_append];
    intros Hin Hl; [contradiction |].
  destruct (startswith l0 key) eqn:H0.
  - destruct Hin as [-> | Hin]; [congruence | now right].
  - destruct Hin as [-> | Hin]; [now left | right; now apply IH].
Qed.

Lemma patch_or_append_length (lines : list string) :
  (length lines <= length (Grub.patch_or_append key f missing lines)
   <= length lines + 1)%nat.
Proof.
  induction lines as [| l rest IH]; cbn [Grub.patch_or_append length];
    [lia |].
  destruct (startswith l key); cbn [length]; lia.
Qed.

End GrubFacts.

(** X23. Whatever /etc/default/grub held, the lines [_install_grub]
    writes back contain a GRUB_PRELOAD_MODULES= line in which "zfs"
    occurs, a GRUB_CMDLINE_LINUX= line carrying zfs=<pool>/ROOT/arch,
    and, for a dual-boot set-up, the line GRUB_DISABLE_OS_PROBER=false.
    No line is dropped: a line that starts with none of the three keys
    is still there, and at most three lines are added. *)
Theorem grub_patch_guarantees (dual_boot : bool) (pool_name : option string)
    (grub_lines : list string) :
  let out := Grub.patch_lines dual_boot pool_name grub_lines in
  (exists l, In l out /\ startswith l "GRUB_PRELOAD_MODULES=" = true
             /\ Py.contains l "zfs" = true)
  /\ (exists l, In l out /\ startswith l "GRUB_CMDLINE_LINUX=" = true
                /\ Py.contains l ("zfs=" +++ Str.fstr pool_name
                                   +++ "/ROOT/arch") = true)
  /\ (dual_boot = true -> In ("GRUB_DISABLE_OS_PROBER=false" +++ nl) out)
  /\ (forall l, In l grub_lines ->
                startswith l "GRUB_PRELOAD_MODULES=" = false ->
                startswith l "GRUB_CMDLINE_LINUX=" = false ->
                startswith l "GRUB_DISABLE_OS_PROBER=" = false ->
                In l out)
  /\ (length grub_lines <= length out <= length grub_lines + 3)%nat.
Proof.
  cbv zeta. unfold Grub.patch_lines.
  set (d1 := "GRUB_PRELOAD_MODULES=" +++ Str.dq +++ "part_gpt zfs"
             +++ Str.dq +++ nl).
  set (d2 := "GRUB_CMDLINE_LINUX=" +++ Str.dq +++ "zfs="
             +++ Str.fstr pool_name +++ "/ROOT/arch" +++ Str.dq +++ nl).
  set (d3 := "GRUB_DISABLE_OS_PROBER=false" +++ nl).
  set (l1 := Grub.patch_or_append "GRUB_PRELOAD_MODULES=" Grub.preload_line
               d1 grub_lines).
  set (l2 := Grub.patch_or_append "GRUB_CMDLINE_LINUX="
               (Grub.cmdline_line pool_name) d2 l1).
  set (out := if dual_boot
              then Grub.patch_or_append "GRUB_DISABLE_OS_PROBER="
                     (fun _ => d3) d3 l2
              else l2).
  assert (Hout : forall l, In l l2 ->
                   startswith l "GRUB_DISABLE_OS_PROBER=" = false ->
                   In l out).
  { intros l Hin Hl. subst out. destruct dual_boot; [| exact Hin].
    now apply patch_or_append_keeps. }
  (* a preload line with zfs in l1 *)
  assert (H1 : exists l, In l l1 /\ startswith l "GRUB_PRELOAD_MODULES=" = true
                         /\ Py.contains l "zfs" = true).
  { destruct (patch_or_append_result "GRUB_PRELOAD_MODULES="
                Grub.preload_line d1 grub_lines)
      as [H | (line & _ & Hk & H)].
    - exists d1. split; [exact H |]. split; reflexivity.
    - exists (Grub.preload_line line). split; [exact H |].
      unfold Grub.preload_line.
      destruct (Py.contains line "zfs") eqn:Hz; cbn [negb].
      + now split.
      + split; [apply startswith_append |].
        apply contains_append_r, contains_append_r.
        rewrite append_assoc. apply contains_append_r.
        reflexivity. }
  (* a cmdline line with the parameter in l2 *)
  assert (H2 : exists l, In l l2 /\ startswith l "GRUB_CMDLINE_LINUX=" = true
                         /\ Py.contains l ("zfs=" +++ Str.fstr pool_name
                                            +++ "/ROOT/arch") = true).
  { destruct (patch_or_append_result "GRUB_CMDLINE_LINUX="
                (Grub.cmdline_line pool_name) d2 l1)
      as [H | (line & _ & Hk & H)].
    - exists d2. split; [exact H |]. split; [apply startswith_append |].
      subst d2. apply contains_append_r, contains_append_r.
      replace ("zfs=" +++ Str.fstr pool_name +++ "/ROOT/arch" +++ Str.dq +++ nl)
        with (("zfs=" +++ Str.fstr pool_name +++ "/ROOT/arch")
              +++ Str.dq +++ nl)
        by (now rewrite !append_assoc).
      apply contains_here.
    - exists (Grub.cmdline_line pool_name line). split; [exact H |].
      rewrite cmdline_line_rewritten.
      split; [apply startswith_append |].
      apply contains_append_r, contains_append_r.
      rewrite append_assoc. apply contains_append_r.
      apply (contains_append_r " "
               (("zfs=" +++ Str.fstr pool_name +++ "/ROOT/arch")
                +++ Str.dq +++ nl)).
      apply contains_here. }
  split; [| split; [| split; [| split]]].
  - destruct H1 as (l & Hin & Hk & Hz). exists l.
    split; [| now split].
    apply Hout.
    + apply patch_or_append_keeps; [exact Hin |].
      now apply (startswith_exclusive l "GRUB_PRELOAD_MODULES=").
    + now apply (startswith_exclusive l "GRUB_PRELOAD_MODULES=").
  - destruct H2 as (l & Hin & Hk & Hz). exists l.
    split; [| now split].
    apply Hout; [exact Hin |].
    now apply (startswith_exclusive l "GRUB_CMDLINE_LINUX=").
  - intros ->. subst out.
    destruct (patch_or_append_result "GRUB_DISABLE_OS_PROBER="
                (fun _ => d3) d3 l2) as [H | (line & _ & _ & H)]; exact H.
  - intros l Hin Hp Hc Ho. apply Hout; [| exact Ho].
    apply patch_or_append_keeps; [| exact Hc].
    now apply patch_or_append_keeps.
  - pose proof (patch_or_append_length "GRUB_PRELOAD_MODULES="
                  Grub.preload_line d1 grub_lines) as L1.
    pose proof (patch_or_append_length "GRUB_CMDLINE_LINUX="
                  (Grub.cmdline_line pool_name) d2 l1) as L2.
    pose proof (patch_or_append_length "GRUB_DISABLE_OS_PROBER="
                  (fun _ => d3) d3 l2) as L3.
    fold l1 in L1. fold l2 in L2. subst out. destruct dual_boot; lia.
Qed.

Section InitramfsFacts.

Variables (key : string) (f : string -> string).

Lemma patch_first_length (lines : list string) :
  length (Initramfs.patch_first key f lines) = length lines.
Proof.
  induction lines as [| l rest IH]; cbn [Initramfs.patch_first length];
    [reflexivity |].
  destruct (startswith l key); cbn [length]; [reflexivity | now rewrite IH].
Qed.

(** A patch loop works in place: at every position the line is the old
    one, or the old one started with the key and is replaced by what
    [f] makes of it. *)
Lemma patch_first_nth (lines : list string) (i : nat) (line : string) :
  nth_error lines i = Some line ->
  nth_error (Initramfs.patch_first key f lines) i = Some line
  \/ (startswith line key = true
      /\ nth_error (Initramfs.patch_first key f lines) i = Some (f line)).
Proof.
  revert i. induction lines as [| l rest IH]; intros i Hi.
  - destruct i; discriminate Hi.
  - cbn [Initramfs.patch_first]. destruct (startswith l key) eqn:Hl.
    + destruct i as [| i]; cbn [nth_error] in *.
      * injection Hi as <-. right. now split.
      * now left.
    + destruct i as [| i]; cbn [nth_error] in *.
      * now left.
      * now apply IH.
Qed.

(** A file without a line for the key is left as it is. *)
Lemma patch_first_absent (lines : list string) :
  forallb (fun l => negb (startswith l key)) lines = true ->
  Initramfs.patch_first key f lines = lines.
Proof.
  induction lines as [| l rest IH]; cbn [forallb Initramfs.patch_first];
    [reflexivity |].
  intros H. apply andb_prop in H as [Hl Hrest].
  destruct (startswith l key); [discriminate Hl | now rewrite IH].
Qed.

End InitramfsFacts.

(** X24. [configure_initramfs] rewrites mkinitcpio.conf in place: the
    file keeps its number of lines, a line that starts with neither
    HOOKS= nor MODULES= stays what and where it was (a commented-out
    [#HOOKS=] line among them), and a line is a HOOKS= or a MODULES=
    line after the patch exactly when it was one before. A file with
    neither kind of line, or no file at all, is written back unchanged:
    it gets no zfs hook. *)
Theorem mkinitcpio_patched_in_place (bootloader : string)
    (mkinitcpio_lines : list string) :
  let out := Initramfs.patch_lines bootloader mkinitcpio_lines in
  length out = length mkinitcpio_lines
  /\ (forall i line, nth_error mkinitcpio_lines i = Some line ->
        exists line', nth_error out i = Some line'
          /\ startswith line' "HOOKS=" = startswith line "HOOKS="
          /\ startswith line' "MODULES=" = startswith line "MODULES="
          /\ (startswith line "HOOKS=" = false ->
              startswith line "MODULES=" = false -> line' = line))
  /\ (forallb (fun l => negb (startswith l "HOOKS=")) mkinitcpio_lines = true ->
      forallb (fun l => negb (startswith l "MODULES=")) mkinitcpio_lines = true ->
      out = mkinitcpio_lines).
Proof.
  cbv zeta. unfold Initramfs.patch_lines.
  split; [now rewrite !patch_first_length |]. split.
  - intros i line Hi.
    destruct (patch_first_nth "HOOKS=" (Initramfs.new_hooks_line bootloader)
                _ _ _ Hi) as [H1 | [Hk1 H1]].
    + destruct (patch_first_nth "MODULES=" Initramfs.new_modules_line
                  _ _ _ H1) as [H2 | [Hk2 H2]].
      * exists line. now repeat split.
      * exists (Initramfs.new_modules_line line).
        split; [exact H2 |].
        assert (Hm : startswith (Initramfs.new_modules_line line) "MODULES="
                     = true) by reflexivity.
        split; [| split].
        -- rewrite (startswith_exclusive line "MODULES=" "HOOKS=");
             [| reflexivity | reflexivity | exact Hk2].
           now apply (startswith_exclusive _ "MODULES=" "HOOKS=").
        -- now rewrite Hm, Hk2.
        -- intros _ Hn. congruence.
    + assert (Hh : startswith (Initramfs.new_hooks_line bootloader line)
                     "HOOKS=" = true) by reflexivity.
      assert (Hn : startswith (Initramfs.new_hooks_line bootloader line)
                     "MODULES=" = false)
        by now apply (startswith_exclusive _ "HOOKS=" "MODULES=").
      destruct (patch_first_nth "MODULES=" Initramfs.new_modules_line
                  _ _ _ H1) as [H2 | [Hk2 H2]]; [| congruence].
      exists (Initramfs.new_hooks_line bootloader line).
      split; [exact H2 |]. split; [| split].
      * now rewrite Hh, Hk1.
      * rewrite Hn. symmetry.
        now apply (startswith_exclusive _ "HOOKS=" "MODULES=").
      * intros Hf. congruence.
  - intros Hh Hm. now rewrite (patch_first_absent _ _ _ Hh), patch_first_absent.
Qed.

Section RoundTrip.

Import Words.

Lemma all_chars_append (p : ascii -> bool) (a b : string) :
  all_chars p (a +++ b) = all_chars p a && all_chars p b.
Proof.
  induction a as [| c a IH]; cbn; [reflexivity |].
  now rewrite IH, andb_assoc.
Qed.

Lemma all_chars_impl (p q : ascii -> bool) (s : string) :
  (forall c, p c = true -> q c = true) ->
  all_chars p s = true -> all_chars q s = true.
Proof.
  intros Hpq. induction s as [| c s IH]; cbn; [reflexivity |].
  intros H. apply andb_prop in H as [Hc Hs].
  now rewrite (Hpq c Hc), IH.
Qed.

Lemma all_chars_join (p : ascii -> bool) (sep : string) (ws : list string) :
  all_chars p sep = true -> forallb (all_chars p) ws = true ->
  all_chars p (join sep ws) = true.
Proof.
  intros Hsep. induction ws as [| w ws IH]; [reflexivity |].
  cbn [forallb]. intros H. apply andb_prop in H as [Hw Hws].
  destruct ws as [| w' ws]; [exact Hw |].
  change (join sep (w :: w' :: ws)) with (w +++ sep +++ join sep (w' :: ws)).
  now rewrite !all_chars_append, Hw, Hsep, IH.
Qed.

Lemma plain_all (p : ascii -> bool) (w : string) :
  (forall c, plain_char c = true -> p c = true) ->
  plain w = true -> all_chars p w = true.
Proof.
  intros Hp Hw. destruct w as [| c w]; [discriminate Hw |].
  now apply (all_chars_impl plain_char).
Qed.

Lemma plain_char_nospace (c : ascii) :
  plain_char c = true -> negb (Str.isspace c) = true.
Proof.
  unfold plain_char. intros H.
  apply andb_prop in H as [H _]. now apply andb_prop in H as [H _].
Qed.

Lemma plain_char_noeq (c : ascii) :
  plain_char c = true -> negb (Ascii.eqb c Str.eq_sign) = true.
Proof.
  unfold plain_char. intros H.
  apply andb_prop in H as [H _]. now apply andb_prop in H as [_ H].
Qed.

Lemma plain_char_nobracket (c : ascii) :
  plain_char c = true -> negb (Str.has c Initramfs.brackets) = true.
Proof. unfold plain_char. intros H. now apply andb_prop in H as [_ H]. Qed.

(** *** [split("=")] *)

Lemma split_on_no_sep (s : string) :
  all_chars (fun c => negb (Ascii.eqb c Str.eq_sign)) s = true ->
  Str.split_on Str.eq_sign s = [s].
Proof.
  induction s as [| c s IH]; cbn [all_chars Str.split_on]; [reflexivity |].
  intros H. apply andb_prop in H as [Hc Hs].
  destruct (Ascii.eqb c Str.eq_sign); [discriminate Hc |].
  now rewrite IH.
Qed.

Lemma split_on_key (key rest : string) :
  all_chars (fun c => negb (Ascii.eqb c Str.eq_sign)) key = true ->
  Str.split_on Str.eq_sign (key +++ String Str.eq_sign rest)
  = key :: Str.split_on Str.eq_sign rest.
Proof.
  induction key as [| c key IH]; cbn [all_chars String.append Str.split_on].
  - intros _. now rewrite Ascii.eqb_refl.
  - intros H. apply andb_prop in H as [Hc Hs].
    destruct (Ascii.eqb c Str.eq_sign); [discriminate Hc |].
    now rewrite IH.
Qed.

(** *** [strip] *)

Lemma rstrip_by_drop (p : ascii -> bool) (s : string) (c : ascii) :
  p c = true ->
  Str.rstrip_by p (s +++ String c EmptyString) = Str.rstrip_by p s.
Proof.
  intros Hc. induction s as [| a s IH]; cbn [String.append Str.rstrip_by].
  - now rewrite Hc.
  - now rewrite IH.
Qed.

Lemma rstrip_by_append (p : ascii -> bool) (a b : string) :
  Str.rstrip_by p b <> EmptyString ->
  Str.rstrip_by p (a +++ b) = a +++ Str.rstrip_by p b.
Proof.
  intros Hb. induction a as [| c a IH]; cbn [String.append Str.rstrip_by];
    [reflexivity |].
  rewrite IH. destruct (a +++ Str.rstrip_by p b) eqn:H; [| reflexivity].
  destruct a; [cbn in H; contradiction | discriminate H].
Qed.

Lemma rstrip_by_none (p : ascii -> bool) (s : string) :
  all_chars (fun c => negb (p c)) s = true -> Str.rstrip_by p s = s.
Proof.
  induction s as [| c s IH]; cbn [all_chars Str.rstrip_by]; [reflexivity |].
  intros H. apply andb_prop in H as [Hc Hs]. rewrite (IH Hs).
  destruct s; [| reflexivity].
  destruct (p c); [discriminate Hc | reflexivity].
Qed.

Lemma join_plain_nonempty (ws : list string) (w : string) :
  plain w = true -> join " " (w :: ws) <> EmptyString.
Proof.
  intros Hw. destruct w as [| c w]; [discriminate Hw |].
  destruct ws; cbn; discriminate.
Qed.

Lemma rstrip_by_join (p : ascii -> bool) (ws : list string) :
  (forall c, plain_char c = true -> negb (p c) = true) ->
  forallb plain ws = true ->
  Str.rstrip_by p (join " " ws) = join " " ws.
Proof.
  intros Hp. induction ws as [| w ws IH]; [reflexivity |].
  cbn [forallb]. intros H. apply andb_prop in H as [Hw Hws].
  destruct ws as [| w' ws].
  - cbn [join]. apply rstrip_by_none. now apply plain_all.
  - change (join " " (w :: w' :: ws))
      with (w +++ " " +++ join " " (w' :: ws)).
    rewrite <- append_assoc.
    assert (Hn : join " " (w' :: ws) <> EmptyString).
    { cbn [forallb] in Hws. apply andb_prop in Hws as [Hw' _].
      now apply join_plain_nonempty. }
    rewrite rstrip_by_append; rewrite (IH Hws); [reflexivity | exact Hn].
Qed.

(** *** [split()] *)

Lemma split_word_space (w rest : string) :
  w <> EmptyString ->
  all_chars (fun c => negb (Str.isspace c)) w = true ->
  Str.split (w +++ String " " rest) = w :: Str.split rest.
Proof.
  induction w as [| c w IH]; [contradiction |].
  intros _ H. cbn [all_chars] in H. apply andb_prop in H as [Hc Hw].
  destruct (Str.isspace c) eqn:Ec; [discriminate Hc |].
  destruct w as [| c' w].
  - cbn [String.append]. cbn [Str.split]. rewrite Ec.
    change (Str.isspace " ") with true. cbn match. reflexivity.
  - assert (Ec' : Str.isspace c' = false).
    { cbn [all_chars] in Hw. apply andb_prop in Hw as [Hc' _].
      now destruct (Str.isspace c'). }
    change ((String c (String c' w)) +++ String " " rest)
      with (String c (String c' w +++ String " " rest)).
    set (s' := String c' w +++ String " " rest) in *.
    assert (Hs' : Str.split (String c s')
                  = match Str.split s' with
                    | [] => [String c EmptyString]
                    | t :: ts => String c t :: ts
                    end).
    { subst s'. cbn [String.append]. cbn [Str.split]. now rewrite Ec, Ec'. }
    rewrite Hs', IH; [reflexivity | discriminate | exact Hw].
Qed.

Lemma split_word (w : string) :
  w <> EmptyString ->
  all_chars (fun c => negb (Str.isspace c)) w = true ->
  Str.split w = [w].
Proof.
  induction w as [| c w IH]; [contradiction |].
  intros _ H. cbn [all_chars] in H. apply andb_prop in H as [Hc Hw].
  destruct (Str.isspace c) eqn:Ec; [discriminate Hc |].
  destruct w as [| c' w].
  - cbn [Str.split]. now rewrite Ec.
  - assert (Ec' : Str.isspace c' = false).
    { cbn [all_chars] in Hw. apply andb_prop in Hw as [Hc' _].
      now destruct (Str.isspace c'). }
    set (s' := String c' w) in *.
    assert (Hs' : Str.split (String c s')
                  = match Str.split s' with
                    | [] => [String c EmptyString]
                    | t :: ts => String c t :: ts
                    end).
    { subst s'. cbn [Str.split]. now rewrite Ec, Ec'. }
    rewrite Hs', IH; [reflexivity | discriminate | exact Hw].
Qed.

Lemma plain_nonempty (w : string) : plain w = true -> w <> EmptyString.
Proof. destruct w; [discriminate | discriminate]. Qed.

(** Joining plain words with single spaces and splitting the result
    gives the words back. *)
Lemma split_join (ws : list string) :
  forallb plain ws = true -> Str.split (join " " ws) = ws.
Proof.
  induction ws as [| w ws IH]; [reflexivity |].
  cbn [forallb]. intros H. apply andb_prop in H as [Hw Hws].
  destruct ws as [| w' ws].
  - cbn [join]. apply split_word; [now apply plain_nonempty |].
    apply plain_all; [exact plain_char_nospace | exact Hw].
  - change (join " " (w :: w' :: ws))
      with (w +++ String " " (join " " (w' :: ws))).
    rewrite split_word_space, (IH Hws); [reflexivity | |].
    + now apply plain_nonempty.
    + apply plain_all; [exact plain_char_nospace | exact Hw].
Qed.

(** The value of a line [KEY=(w1 w2 ...)], read the way the patch
    reads it, is the list of its words. *)
Lemma words_of_rendered (key : string) (ws : list string) :
  all_chars (fun c => negb (Ascii.eqb c Str.eq_sign)) key = true ->
  forallb plain ws = true ->
  Initramfs.words_of
    (key +++ String Str.eq_sign ("(" +++ join " " ws +++ ")" +++ nl))
  = ws.
Proof.
  intros Hkey Hws. unfold Initramfs.words_of, Str.value_of.
  rewrite split_on_key by exact Hkey.
  assert (Hj : all_chars (fun c => negb (Ascii.eqb c Str.eq_sign))
                 (join " " ws) = true).
  { apply all_chars_join; [reflexivity |].
    rewrite forallb_forall in *. intros w Hin.
    apply plain_all; [exact plain_char_noeq | now apply Hws]. }
  rewrite split_on_no_sep
    by (rewrite !all_chars_append, Hj; reflexivity).
  cbn [nth]. unfold Str.strip.
  change (Str.lstrip_by Str.isspace ("(" +++ join " " ws +++ ")" +++ nl))
    with ("(" +++ join " " ws +++ ")" +++ nl).
  replace ("(" +++ join " " ws +++ ")" +++ nl)
    with (("(" +++ join " " ws +++ ")") +++ nl)
    by (now rewrite !append_assoc).
  unfold nl at 1. rewrite rstrip_by_drop by reflexivity.
  replace ("(" +++ join " " ws +++ ")")
    with (("(" +++ join " " ws) +++ ")")
    by (now rewrite !append_assoc).
  rewrite rstrip_by_append by (cbn; discriminate).
  change (Str.rstrip_by Str.isspace ")") with ")".
  rewrite append_assoc. unfold Str.strip_chars.
  change (Str.lstrip_by (fun c => Str.has c Initramfs.brackets)
            ("(" +++ join " " ws +++ ")"))
    with (Str.lstrip_by (fun c => Str.has c Initramfs.brackets)
            (join " " ws +++ ")")).
  destruct ws as [| w ws]; [reflexivity |].
  assert (Hl : Str.lstrip_by (fun c => Str.has c Initramfs.brackets)
                 (join " " (w :: ws) +++ ")")
               = join " " (w :: ws) +++ ")").
  { cbn [forallb] in Hws. apply andb_prop in Hws as [Hw _].
    destruct w as [| c w]; [discriminate Hw |].
    cbn [plain all_chars] in Hw. apply andb_prop in Hw as [Hc _].
    apply plain_char_nobracket in Hc.
    destruct ws; cbn [join String.append Str.lstrip_by];
      destruct (Str.has c Initramfs.brackets); (discriminate Hc || reflexivity). }
  rewrite Hl, rstrip_by_drop by reflexivity.
  rewrite rstrip_by_join; [now apply split_join | | exact Hws].
  exact plain_char_nobracket.
Qed.

End RoundTrip.

Section Idempotence.

Import Words.

Lemma patch_hooks_twice (bootloader : string) (l : list string) :
  Boot.patch_hooks bootloader (Boot.patch_hooks bootloader l)
  = Boot.patch_hooks bootloader l.
Proof.
  pose proof (patch_hooks_has_zfs bootloader l) as Hz.
  unfold Boot.patch_hooks at 1. rewrite Hz. cbn [negb].
  unfold Boot.patch_hooks. apply ensure_hooks_idempotent.
Qed.

Lemma append_if_missing_twice (h : string) (l : list string) :
  Boot.append_if_missing h (Boot.append_if_missing h l)
  = Boot.append_if_missing h l.
Proof. apply append_if_missing_present, append_if_missing_mem. Qed.

Lemma append_if_missing_plain (h : string) (l : list string) :
  plain h = true -> forallb plain l = true ->
  forallb plain (Boot.append_if_missing h l) = true.
Proof.
  intros Hh Hl. destruct (append_if_missing_appends h l) as [a [-> Ha]].
  rewrite forallb_app, Hl. apply forallb_forall.
  intros x Hx. now rewrite (Ha x Hx).
Qed.

(** The patch of the hook list only adds plain words. *)
Lemma patch_hooks_plain (bootloader : string) (l : list string) :
  forallb plain l = true ->
  forallb plain (Boot.patch_hooks bootloader l) = true.
Proof.
  intros Hl. unfold Boot.patch_hooks.
  match goal with
  | |- forallb _ (Boot.ensure_hooks _ _ ?x) = true =>
      destruct (ensure_hooks_appends bootloader x) as [a [-> Ha]];
      assert (Hx : forallb plain x = true)
  end.
  { destruct (negb (mem "zfs" l)); [| exact Hl].
    destruct (mem "filesystems" l).
    - destruct (index "filesystems" l) as [i |] eqn:Hi; [| exact Hl].
      destruct (index_insert "filesystems" "zfs" l i Hi)
        as [l1 [l2 [Heq [_ ->]]]].
      rewrite Heq in Hl. rewrite forallb_app in *.
      apply andb_prop in Hl as [H1 H2]. now rewrite H1.
    - now rewrite forallb_app, Hl. }
  rewrite forallb_app, Hx. apply forallb_forall.
  intros x Hin. now destruct (Ha x Hin) as [-> | ->].
Qed.

(** A HOOKS= line written by the patch is read back as the hooks it
    was written from. *)
Lemma words_of_hooks_line (ws : list string) :
  forallb plain ws = true -> Initramfs.words_of (Boot.hooks_line ws) = ws.
Proof. exact (words_of_rendered "HOOKS" ws eq_refl). Qed.

Lemma words_of_modules_line (ws : list string) :
  forallb plain ws = true ->
  Initramfs.words_of ("MODULES=(" +++ join " " ws +++ ")" +++ nl) = ws.
Proof. exact (words_of_rendered "MODULES" ws eq_refl). Qed.

Lemma new_hooks_line_twice (bootloader line : string) :
  forallb plain (Initramfs.words_of line) = true ->
  Initramfs.new_hooks_line bootloader
    (Initramfs.new_hooks_line bootloader line)
  = Initramfs.new_hooks_line bootloader line.
Proof.
  intros H. unfold Initramfs.new_hooks_line.
  rewrite words_of_hooks_line by now apply patch_hooks_plain.
  now rewrite patch_hooks_twice.
Qed.

Lemma new_modules_line_twice (line : string) :
  forallb plain (Initramfs.words_of line) = true ->
  Initramfs.new_modules_line (Initramfs.new_modules_line line)
  = Initramfs.new_modules_line line.
Proof.
  intros H. unfold Initramfs.new_modules_line.
  rewrite words_of_modules_line by now apply append_if_missing_plain.
  now rewrite append_if_missing_twice.
Qed.

(** *** The two loops over the file *)

Lemma patch_first_twice (key : string) (f : string -> string)
    (lines : list string) :
  (forall l, In l lines -> startswith l key = true ->
             f (f l) = f l /\ startswith (f l) key = true) ->
  Initramfs.patch_first key f (Initramfs.patch_first key f lines)
  = Initramfs.patch_first key f lines.
Proof.
  induction lines as [| l rest IH]; intros H; [reflexivity |].
  cbn [Initramfs.patch_first]. destruct (startswith l key) eqn:Hl.
  - destruct (H l (or_introl eq_refl) Hl) as [Hff Hk].
    cbn [Initramfs.patch_first]. now rewrite Hk, Hff.
  - cbn [Initramfs.patch_first]. rewrite Hl, IH; [reflexivity |].
    intros l' Hin. apply H. now right.
Qed.

Lemma patch_first_commute (k1 k2 : string) (f1 f2 : string -> string)
    (lines : list string) :
  String.prefix k1 k2 = false -> String.prefix k2 k1 = false ->
  (forall l, startswith (f1 l) k1 = true) ->
  (forall l, startswith (f2 l) k2 = true) ->
  Initramfs.patch_first k1 f1 (Initramfs.patch_first k2 f2 lines)
  = Initramfs.patch_first k2 f2 (Initramfs.patch_first k1 f1 lines).
Proof.
  intros H12 H21 Hf1 Hf2.
  induction lines as [| l rest IH]; [reflexivity |].
  cbn [Initramfs.patch_first].
  destruct (startswith l k1) eqn:E1; destruct (startswith l k2) eqn:E2.
  - now rewrite (startswith_exclusive l k1 k2 H12 H21 E1) in E2.
  - cbn [Initramfs.patch_first]. rewrite E1.
    now rewrite (startswith_exclusive (f1 l) k1 k2 H12 H21 (Hf1 l)).
  - cbn [Initramfs.patch_first]. rewrite E2.
    now rewrite (startswith_exclusive (f2 l) k2 k1 H21 H12 (Hf2 l)).
  - cbn [Initramfs.patch_first]. now rewrite E1, E2, IH.
Qed.

Lemma patch_first_In (key : string) (f : string -> string)
    (lines : list string) (l : string) :
  In l (Initramfs.patch_first key f lines) ->
  In l lines \/ exists l0, In l0 lines /\ l = f l0.
Proof.
  induction lines as [| l0 rest IH]; cbn [Initramfs.patch_first];
    [intros [] |].
  destruct (startswith l0 key).
  - intros [<- | Hin]; [right; exists l0; split; [now left | reflexivity] |].
    left. now right.
  - intros [<- | Hin]; [left; now left |].
    destruct (IH Hin) as [H | (l1 & H1 & ->)]; [left; now right |].
    right. exists l1. split; [now right | reflexivity].
Qed.

Lemma well_formed_In (lines : list string) (l : string) :
  well_formed lines = true -> In l lines ->
  startswith l "HOOKS=" = true \/ startswith l "MODULES=" = true ->
  forallb plain (Initramfs.words_of l) = true.
Proof.
  unfold well_formed. rewrite forallb_forall. intros H Hin Hk.
  specialize (H l Hin). cbv beta in H.
  destruct Hk as [Hk | Hk]; rewrite Hk in H; [exact H |].
  now rewrite orb_true_r in H.
Qed.

End Idempotence.

(** X25. A HOOKS= or MODULES= line as [configure_initramfs] writes it,
    made of plain words (not empty, without white space, equals sign,
    parenthesis or quote), is read back by the same function as the very
    words it was written from. *)
Theorem written_line_reads_back (ws : list string) :
  forallb Words.plain ws = true ->
  Initramfs.words_of (Boot.hooks_line ws) = ws
  /\ Initramfs.words_of ("MODULES=(" +++ join " " ws +++ ")" +++ nl) = ws.
Proof.
  intros H. split; [now apply words_of_hooks_line |].
  now apply words_of_modules_line.
Qed.

Lemma written_line_reads_back_witness :
  Initramfs.words_of
    (Boot.hooks_line ["base"; "udev"; "block"; "zfs"; "filesystems"])
  = ["base"; "udev"; "block"; "zfs"; "filesystems"].
Proof.
  apply (proj1 (written_line_reads_back
                  ["base"; "udev"; "block"; "zfs"; "filesystems"] eq_refl)).
Defined.

(** X26. Running the patch of mkinitcpio.conf a second time changes
    nothing, for a file whose HOOKS= and MODULES= lines list plain
    words: [configure_initramfs] can be repeated on its own output. *)
Theorem mkinitcpio_patch_idempotent (bootloader : string)
    (mkinitcpio_lines : list string) :
  Words.well_formed mkinitcpio_lines = true ->
  Initramfs.patch_lines bootloader
    (Initramfs.patch_lines bootloader mkinitcpio_lines)
  = Initramfs.patch_lines bootloader mkinitcpio_lines.
Proof.
  intros Hwf. unfold Initramfs.patch_lines.
  assert (Hh : forall l, startswith (Initramfs.new_hooks_line bootloader l)
                 "HOOKS=" = true) by reflexivity.
  assert (Hm : forall l, startswith (Initramfs.new_modules_line l)
                 "MODULES=" = true) by reflexivity.
  rewrite (patch_first_commute "HOOKS=" "MODULES=" _ _ _
             eq_refl eq_refl Hh Hm).
  rewrite (patch_first_twice "HOOKS=").
  - apply patch_first_twice. intros l Hin Hk. split; [| apply Hm].
    apply new_modules_line_twice.
    apply patch_first_In in Hin as [Hin | (l0 & _ & ->)].
    + apply (well_formed_In mkinitcpio_lines); [exact Hwf | exact Hin |].
      now right.
    + now rewrite (startswith_exclusive _ "HOOKS=" "MODULES="
                     eq_refl eq_refl (Hh l0)) in Hk.
  - intros l Hin Hk. split; [| apply Hh].
    apply new_hooks_line_twice.
    apply (well_formed_In mkinitcpio_lines); [exact Hwf | exact Hin |].
    now left.
Qed.

Lemma mkinitcpio_patch_idempotent_witness :
  Initramfs.patch_lines "grub"
    (Initramfs.patch_lines "grub"
       ["# vim:set ft=sh" +++ nl; "MODULES=()" +++ nl;
        "HOOKS=(base udev autodetect block filesystems fsck)" +++ nl])
  = Initramfs.patch_lines "grub"
      ["# vim:set ft=sh" +++ nl; "MODULES=()" +++ nl;
       "HOOKS=(base udev autodetect block filesystems fsck)" +++ nl].
Proof.
  apply (mkinitcpio_patch_idempotent "grub"
           ["# vim:set ft=sh" +++ nl; "MODULES=()" +++ nl;
            "HOOKS=(base udev autodetect block filesystems fsck)" +++ nl]).
  vm_compute. reflexivity.
Defined.
